(** * APARAJITHA learning-management server: the mock store and the route handlers

    A shallow embedding of [server/db.ts] (the in-memory mock database:
    [parseCondition], [performJoin], [MockQuery], [db.insert], [db.update],
    [initializeSampleData]), of the [DatabaseStorage] class and of the
    Express route handlers of [server/routes.ts], followed by the properties
    of the authorization-scoped data access layer and of the notification
    fan-out.

    - JavaScript values are a small universal type; a record of the store,
      a request body and a response body are objects, kept as association
      lists in key order.
    - The module-level [mockData] object, the [clients] map and the sockets
      it refers to are threaded through a state and exception monad; an
      exception is what the [catch] of a handler turns into a 400 or a 500.
    - [Math.random] and [new Date()] are the environment: the handlers take
      what these calls return as parameters, and so they do for the
      relational comparison and the string conversion of the language and
      for zod's UUID check.
    - The conditions the handlers give to [where] are built by drizzle-orm's
      [eq] and [and]; they are [SQL] objects, modelled by their
      [queryChunks].

    Limits of the model: strings are byte strings and their case and white
    space are ASCII's; a request body is a JSON object; a function given as
    a condition is pure; [Array.prototype.sort] is a stable insertion
    sort. *)

From stdpp Require Import gmap strings.
From Stdlib Require Import String Ascii List ZArith QArith Bool Lia DecimalString.
Import ListNotations.

Local Open Scope string_scope.
Local Open Scope list_scope.

(** ** JavaScript values *)

(** A JavaScript number: a finite value (doubles are rationals), NaN, or an
    infinity ([NInf true] is [-Infinity]). *)
Inductive JsNum : Type :=
| NFin (q : Q)
| NNaN
| NInf (negative : bool).

#[warnings="-register-all"]
Inductive JsVal : Type :=
| VUndefined
| VNull
| VBool (b : bool)
| VNum (n : JsNum)
| VStr (s : string)
| VObj (fields : list (string * JsVal))
| VArr (items : list JsVal).

(** A record of the store, a request body, a response body: a plain object. *)
Definition Rec : Type := list (string * JsVal).

Definition num_of_Z (z : Z) : JsVal := VNum (NFin (inject_Z z)).

(** [!v] is [negb (truthy v)]. *)
Definition truthy (v : JsVal) : bool :=
  match v with
  | VUndefined | VNull => false
  | VBool b => b
  | VNum (NFin q) => negb (Qeq_bool q 0)
  | VNum NNaN => false
  | VNum (NInf _) => true
  | VStr s => negb (String.eqb s "")
  | VObj _ | VArr _ => true
  end.

Definition num_eq (a b : JsNum) : bool :=
  match a, b with
  | NFin p, NFin q => Qeq_bool p q
  | NInf s, NInf t => Bool.eqb s t
  | _, _ => false
  end.

(** [a === b].  Two objects are strictly equal only when they are the same
    reference; every object compared in the store comes from a JSON copy or
    from a fresh literal, so distinct references: [false]. *)
Definition strict_eq (a b : JsVal) : bool :=
  match a, b with
  | VUndefined, VUndefined => true
  | VNull, VNull => true
  | VBool x, VBool y => Bool.eqb x y
  | VNum x, VNum y => num_eq x y
  | VStr x, VStr y => String.eqb x y
  | _, _ => false
  end.

(** SameValueZero, the comparison of [Array.prototype.includes]. *)
Definition same_value_zero (a b : JsVal) : bool :=
  match a, b with
  | VNum NNaN, VNum NNaN => true
  | _, _ => strict_eq a b
  end.

(** *** Objects *)

(** [o[k]]: [undefined] when the key is absent. *)
Fixpoint obj_get (k : string) (o : Rec) : JsVal :=
  match o with
  | [] => VUndefined
  | (k', v) :: o' => if String.eqb k k' then v else obj_get k o'
  end.

(** [o[k] = v]: an existing key keeps its position, a new key goes last. *)
Fixpoint obj_set (k : string) (v : JsVal) (o : Rec) : Rec :=
  match o with
  | [] => [(k, v)]
  | (k', v') :: o' =>
      if String.eqb k k' then (k, v) :: o' else (k', v') :: obj_set k v o'
  end.

(** [Object.assign(o, src)], also the spread [{ ...o, ...src }]. *)
Definition obj_assign (o src : Rec) : Rec :=
  fold_left (fun acc kv => obj_set (fst kv) (snd kv) acc) src o.

(** The object literal [{ k1: v1, ..., kn: vn }]. *)
Definition obj (fields : list (string * JsVal)) : Rec := obj_assign [] fields.

(** ** Strings: the methods [parseCondition] calls on the SQL text *)

Definition lower_ascii (c : ascii) : ascii :=
  let n := nat_of_ascii c in
  if (65 <=? n)%nat && (n <=? 90)%nat then ascii_of_nat (n + 32) else c.

(** [s.toLowerCase()] on the ASCII range. *)
Fixpoint toLowerCase (s : string) : string :=
  match s with
  | EmptyString => EmptyString
  | String c s' => String (lower_ascii c) (toLowerCase s')
  end.

Fixpoint starts_with (p s : string) : bool :=
  match p, s with
  | EmptyString, _ => true
  | String a p', String b s' => Ascii.eqb a b && starts_with p' s'
  | String _ _, EmptyString => false
  end.

(** [s.includes(sub)] *)
Fixpoint str_includes (sub s : string) : bool :=
  starts_with sub s ||
  match s with
  | EmptyString => false
  | String _ s' => str_includes sub s'
  end.

Fixpoint rev_string (acc s : string) : string :=
  match s with
  | EmptyString => acc
  | String c s' => rev_string (String c acc) s'
  end.

(** [s.split(sep)] for a non-empty separator: [skip] counts the characters
    of a matched separator still to pass over, [cur] is the current part,
    reversed. *)
Fixpoint str_split_go (sep : string) (skip : nat) (cur s : string) : list string :=
  match s with
  | EmptyString => [rev_string "" cur]
  | String c s' =>
      match skip with
      | S k => str_split_go sep k cur s'
      | O =>
          if starts_with sep s
          then rev_string "" cur :: str_split_go sep (String.length sep - 1) "" s'
          else str_split_go sep 0 (String c cur) s'
      end
  end.

Definition str_split (sep s : string) : list string := str_split_go sep 0 "" s.

Definition is_space (c : ascii) : bool :=
  let n := nat_of_ascii c in
  (n =? 32)%nat || ((9 <=? n)%nat && (n <=? 13)%nat).

Fixpoint trim_start (s : string) : string :=
  match s with
  | String c s' => if is_space c then trim_start s' else s
  | EmptyString => EmptyString
  end.

(** [s.trim()] *)
Definition trim (s : string) : string :=
  rev_string "" (trim_start (rev_string "" (trim_start s))).

(** [s.replace(/[...]/g, '')]: drops every character satisfying [p]. *)
Fixpoint remove_chars (p : ascii -> bool) (s : string) : string :=
  match s with
  | EmptyString => EmptyString
  | String c s' => if p c then remove_chars p s' else String c (remove_chars p s')
  end.

Definition dquote : ascii := ascii_of_nat 34.

Definition is_dquote (c : ascii) : bool := Ascii.eqb c dquote.

Definition is_squote (c : ascii) : bool := Ascii.eqb c "'".

Definition is_quote (c : ascii) : bool := is_dquote c || is_squote c.

Definition is_percent (c : ascii) : bool := Ascii.eqb c "%".

(** [s.split('.').pop()]: what follows the last dot. *)
Definition after_last_dot (s : string) : string := last (str_split "." s) "".

Fixpoint drop_string (n : nat) (s : string) : string :=
  match n, s with
  | S k, String _ s' => drop_string k s'
  | _, _ => s
  end.

(** What must follow the captured name in the regular expression of the
    IN branch: an optional double quote, white space, [in], optional white
    space, an opening parenthesis. *)
Definition in_tail (rest : string) : bool :=
  let r1 := match rest with
            | String c r => if is_dquote c then r else rest
            | EmptyString => rest
            end in
  match r1 with
  | String c _ =>
      is_space c &&
      (let r2 := trim_start r1 in
       starts_with "in" r2 && starts_with "(" (trim_start (drop_string 2 r2)))
  | EmptyString => false
  end.

(** The greedy capture group of that expression: the longest run of
    characters other than the double quote after which [in_tail] matches. *)
Fixpoint in_capture (s : string) : option string :=
  match s with
  | EmptyString => None
  | String c s' =>
      if is_dquote c then None
      else match in_capture s' with
           | Some cap => Some (String c cap)
           | None => if in_tail s' then Some (String c "") else None
           end
  end.

(** [sql.match(...)] of the IN branch (an optional double quote, the
    captured name, then [in_tail]), returning group 1. *)
Definition match_in_field (sql : string) : option string :=
  match sql with
  | String c s' => if is_dquote c then in_capture s' else in_capture sql
  | EmptyString => None
  end.

(** ** Exceptions and results *)

(** What a handler can catch: a [ZodError], of which the paths of the
    rejected fields are kept, or a [TypeError] with its message. *)
Inductive Exn : Type :=
| ZodError (issues : list string)
| TypeError (message : string).

Inductive Res (A : Type) : Type :=
| Ok (a : A)
| Throw (e : Exn).
Arguments Ok {A} a.
Arguments Throw {A} e.

(** ** The schema: tables and columns ([shared/schema.ts]) *)

Inductive TableName : Type :=
| users | courses | enrollments | assignments | submissions
| grades | discussions | materials | notifications
| unknown.

Definition TableName_eqb (a b : TableName) : bool :=
  match a, b with
  | users, users | courses, courses | enrollments, enrollments
  | assignments, assignments | submissions, submissions | grades, grades
  | discussions, discussions | materials, materials
  | notifications, notifications | unknown, unknown => true
  | _, _ => false
  end.

(** A column object of a [pgTable]: its table, the property it is found
    under ([enrollments.courseId]) and its [name], the SQL column name
    ([course_id]). *)
Record Column : Type := mkColumn {
  col_table : TableName;
  col_key : string;
  col_name : string
}.

Definition users_id := mkColumn users "id" "id".
Definition courses_id := mkColumn courses "id" "id".
Definition courses_teacherId := mkColumn courses "teacherId" "teacher_id".
Definition enrollments_courseId := mkColumn enrollments "courseId" "course_id".
Definition enrollments_studentId := mkColumn enrollments "studentId" "student_id".
Definition assignments_id := mkColumn assignments "id" "id".
Definition assignments_courseId := mkColumn assignments "courseId" "course_id".
Definition submissions_id := mkColumn submissions "id" "id".
Definition submissions_assignmentId := mkColumn submissions "assignmentId" "assignment_id".
Definition submissions_studentId := mkColumn submissions "studentId" "student_id".
Definition grades_submissionId := mkColumn grades "submissionId" "submission_id".
Definition notifications_id := mkColumn notifications "id" "id".
Definition notifications_userId := mkColumn notifications "userId" "user_id".
Definition notifications_createdAt := mkColumn notifications "createdAt" "created_at".

(** ** Conditions *)

(** The chunks of a drizzle-orm [SQL] object. *)
#[warnings="-register-all"]
Inductive SQLChunk : Type :=
| StringChunk (s : string)
| ColumnChunk (c : Column)
| ParamChunk (v : JsVal)
| SQLChunks (queryChunks : list SQLChunk).

(** An instance of drizzle-orm's [SQL] class, given by its [queryChunks].
    Its other own properties are [decoder], [shouldInlineParams] and
    [usedTables]; it has no property [column], [value], [sql], [params],
    [type] or [conditions]. *)
Definition SQL : Type := list SQLChunk.

(** What [parseCondition] can be handed:
    - [CNone]: [undefined] or [null];
    - [CFun f]: a function of the record; [f r = None] when it throws,
      otherwise the truthiness of what it returns;
    - [CObj column value sql params type conditions]: a plain object with
      these properties, [None] for a property that is [undefined];
    - [CSQL q]: an [SQL] object of drizzle-orm. *)
#[warnings="-register-all"]
Inductive Condition : Type :=
| CNone
| CFun (f : Rec -> option bool)
| CObj (column : option string) (value : option JsVal)
       (sql : option string) (params : option (list JsVal))
       (type : option string) (conditions : option (list Condition))
| CSQL (q : SQL).

(** *** drizzle-orm's operators, as [routes.ts] imports them *)

Module drizzle.

(** [eq(left, right)] is [sql`${left} = ${bindIfParam(right, left)}`]. *)
Definition eq (left : Column) (right : JsVal) : SQL :=
  [StringChunk ""; ColumnChunk left; StringChunk " = "; ParamChunk right;
   StringChunk ""].

Fixpoint sql_join (sep : SQLChunk) (l : list SQL) : list SQLChunk :=
  match l with
  | [] => []
  | [q] => [SQLChunks q]
  | q :: l' => SQLChunks q :: sep :: sql_join sep l'
  end.

(** [and(...conditions)]: [undefined] without conditions, otherwise a new
    [SQL] object. *)
Definition and_ (conds : list SQL) : option SQL :=
  match conds with
  | [] => None
  | [q] => Some [SQLChunks q]
  | _ => Some [StringChunk "("; SQLChunks (sql_join (StringChunk " and ") conds);
               StringChunk ")"]
  end.

(** [desc(column)] is [sql`${column} desc`]. *)
Definition desc (c : Column) : SQL :=
  [StringChunk ""; ColumnChunk c; StringChunk " desc"].

End drizzle.

Definition cond_of_sql (q : option SQL) : Condition :=
  match q with
  | Some q => CSQL q
  | None => CNone
  end.

(** ** [parseCondition] *)

(** The outcome of the block guarded by [if (condition.sql)]: it returns,
    it throws, or control leaves the block. *)
Inductive Flow : Type :=
| Return (b : bool)
| Raise (e : Exn)
| Fallthrough.

(** [l.every(f)], stopping at the first [false] or exception. *)
Fixpoint every {A : Type} (f : A -> Res bool) (l : list A) : Res bool :=
  match l with
  | [] => Ok true
  | x :: l' =>
      match f x with
      | Ok true => every f l'
      | r => r
      end
  end.

(** The LIKE branch once [sql.split(' like ')] has two parts. *)
Definition like_branch (field_part pattern_part : string)
    (params : list JsVal) (record : Rec) : Flow :=
  let fieldName := after_last_dot (remove_chars is_quote (trim field_part)) in
  let pattern :=
    if truthy (nth 0 params VUndefined) then nth 0 params VUndefined
    else VStr (remove_chars is_squote pattern_part) in
  let value :=
    if truthy (obj_get fieldName record) then obj_get fieldName record else VStr "" in
  match value with
  | VStr v =>
      match pattern with
      | VStr p =>
          Return (str_includes (toLowerCase (remove_chars is_percent p))
                           (toLowerCase v))
      | _ => Raise (TypeError "pattern.replace is not a function")
      end
  | _ => Raise (TypeError "value.toLowerCase is not a function")
  end.

(** The block [if (condition.sql) { ... }] for the text [sql0] and the
    parameters [params].  The AND branch calls [parseCondition] on
    [{ sql: part, params }] for every part; such an object has neither
    [column] nor [type], so the call is this block again when the part is
    not empty and [true] otherwise, also when the block is left without a
    [return].  Every part is shorter than the text it comes from: [fuel],
    started at the length of the text, counts the nesting. *)
Fixpoint parseSql (fuel : nat) (sql0 : string) (params : list JsVal)
    (record : Rec) : Flow :=
  let sql := toLowerCase sql0 in
  if str_includes "= $1" sql && (1 <=? length params)%nat then
    let fieldPart := trim (hd "" (str_split "= $1" sql)) in
    let fieldName := after_last_dot (remove_chars is_quote fieldPart) in
    Return (strict_eq (obj_get fieldName record) (nth 0 params VUndefined))
  else if str_includes " and " sql then
    match fuel with
    | O => Fallthrough
    | S fuel' =>
        let sub (part : string) : Res bool :=
          match part with
          | EmptyString => Ok true
          | _ => match parseSql fuel' part params record with
                 | Return b => Ok b
                 | Raise e => Throw e
                 | Fallthrough => Ok true
                 end
          end in
        match every sub (str_split " and " sql) with
        | Ok b => Return b
        | Throw e => Raise e
        end
    end
  else
    let in_result :=
      if str_includes " in (" sql && str_includes ")" sql then
        match match_in_field sql with
        | Some field =>
            Some (existsb (same_value_zero (obj_get (after_last_dot field) record))
                          params)
        | None => None
        end
      else None in
    match in_result with
    | Some b => Return b
    | None =>
        if str_includes " like " sql then
          match str_split " like " sql with
          | [field_part; pattern_part] =>
              like_branch field_part pattern_part params record
          | _ => Fallthrough
          end
        else Fallthrough
    end.

(** [parseCondition(condition, record)]; the [session] argument is never
    read.  An object is looked at three times: for [column] and [value],
    for [sql], for [type]; when none of them is found, as in an [SQL]
    object of drizzle-orm, the final [return true] is reached. *)
Fixpoint parseCondition (condition : Condition) (record : Rec) : Res bool :=
  match condition with
  | CNone => Ok true
  | CFun f =>
      match f record with
      | Some b => Ok b
      | None => Ok true
      end
  | CSQL _ => Ok true
  | CObj column value sql params type conditions =>
      let by_type : Res bool :=
        match type with
        | Some "and" =>
            match conditions with
            | Some l =>
                (fix every_cond (l : list Condition) : Res bool :=
                   match l with
                   | [] => Ok true
                   | c :: l' =>
                       match parseCondition c record with
                       | Ok true => every_cond l'
                       | r => r
                       end
                   end) l
            | None => Ok true
            end
        | Some "or" =>
            match conditions with
            | Some l =>
                (fix some_cond (l : list Condition) : Res bool :=
                   match l with
                   | [] => Ok false
                   | c :: l' =>
                       match parseCondition c record with
                       | Ok false => some_cond l'
                       | r => r
                       end
                   end) l
            | None => Ok true
            end
        | _ => Ok true
        end in
      let by_sql : Res bool :=
        match sql with
        | Some (String c s as text) =>
            match parseSql (String.length text) text
                    (match params with Some p => p | None => [] end) record with
            | Return b => Ok b
            | Raise e => Throw e
            | Fallthrough => by_type
            end
        | _ => by_type
        end in
      match column, value with
      | Some (String _ _ as c), Some v =>
          match v with
          | VUndefined => by_sql
          | _ => Ok (strict_eq (obj_get c record) v)
          end
      | _, _ => by_sql
      end
  end.

(** ** The module state: [mockData], [clients] and the environment *)

(** [mockData]: one array of records per table. *)
Record MockData : Type := mkMockData {
  md_users : list Rec;
  md_courses : list Rec;
  md_enrollments : list Rec;
  md_assignments : list Rec;
  md_submissions : list Rec;
  md_grades : list Rec;
  md_discussions : list Rec;
  md_materials : list Rec;
  md_notifications : list Rec
}.

(** [mockData[tableName]]; [getTableName] answers ['unknown'] for an object
    that is no table of the schema, and [mockData] has no such key. *)
Definition table_of (m : MockData) (t : TableName) : option (list Rec) :=
  match t with
  | users => Some (md_users m)
  | courses => Some (md_courses m)
  | enrollments => Some (md_enrollments m)
  | assignments => Some (md_assignments m)
  | submissions => Some (md_submissions m)
  | grades => Some (md_grades m)
  | discussions => Some (md_discussions m)
  | materials => Some (md_materials m)
  | notifications => Some (md_notifications m)
  | unknown => None
  end.

Definition with_table (t : TableName) (l : list Rec) (m : MockData) : MockData :=
  match m with
  | mkMockData us cs es as_ ss gs ds ms ns =>
      match t with
      | users => mkMockData l cs es as_ ss gs ds ms ns
      | courses => mkMockData us l es as_ ss gs ds ms ns
      | enrollments => mkMockData us cs l as_ ss gs ds ms ns
      | assignments => mkMockData us cs es l ss gs ds ms ns
      | submissions => mkMockData us cs es as_ l gs ds ms ns
      | grades => mkMockData us cs es as_ ss l ds ms ns
      | discussions => mkMockData us cs es as_ ss gs l ms ns
      | materials => mkMockData us cs es as_ ss gs ds l ns
      | notifications => mkMockData us cs es as_ ss gs ds ms l
      | unknown => m
      end
  end.

(** [WebSocket.readyState] *)
Inductive ReadyState : Type := CONNECTING | OPEN | CLOSING | CLOSED.

(** A [WebSocket] object: its state and what [send] was called with. *)
Record Socket : Type := mkSocket {
  readyState : ReadyState;
  sent : list JsVal
}.

(** The state the handlers share.  [clients] maps a user id to a socket
    reference, [sockets] holds the socket objects, and [calls] counts the
    calls made so far to [Math.random] and [new Date()]. *)
Record World : Type := mkWorld {
  mockData : MockData;
  clients : gmap string nat;
  sockets : gmap nat Socket;
  calls : nat
}.

Definition set_mockData (m : MockData) (w : World) : World :=
  mkWorld m (clients w) (sockets w) (calls w).

(** *** The state and exception monad *)

Definition M (A : Type) : Type := World -> Res A * World.

Definition ret {A : Type} (a : A) : M A := fun w => (Ok a, w).

Definition bind {A B : Type} (m : M A) (k : A -> M B) : M B :=
  fun w =>
    match m w with
    | (Ok a, w') => k a w'
    | (Throw e, w') => (Throw e, w')
    end.

Definition throw {A : Type} (e : Exn) : M A := fun w => (Throw e, w).

Definition lift {A : Type} (r : Res A) : M A := fun w => (r, w).

Notation "x <- c1 ;; c2" := (bind c1 (fun x => c2))
  (at level 62, c1 at next level, right associativity).
Notation "c1 ;;; c2" := (bind c1 (fun _ => c2))
  (at level 62, right associativity).

(** [await Promise.all(l.map(async x => f x))]; the callbacks below only
    read the store. *)
Fixpoint mapM {A B : Type} (f : A -> M B) (l : list A) : M (list B) :=
  match l with
  | [] => ret []
  | x :: l' => y <- f x ;; ys <- mapM f l' ;; ret (y :: ys)
  end.

(** [for (const x of l) { await f x }] *)
Fixpoint forM_ {A : Type} (f : A -> M unit) (l : list A) : M unit :=
  match l with
  | [] => ret tt
  | x :: l' => f x ;;; forM_ f l'
  end.

(** [mockData[tableName] || []] *)
Definition rows_of (m : MockData) (t : TableName) : list Rec :=
  match table_of m t with
  | Some l => l
  | None => []
  end.

Definition read_table (t : TableName) : M (list Rec) :=
  fun w => (Ok (rows_of (mockData w) t), w).

(** *** JSON copies *)

(** [JSON.parse(JSON.stringify(v))]: a property whose value is [undefined]
    is dropped, [undefined] in an array and a number that is not finite
    become [null]. *)
Fixpoint jsonClone (v : JsVal) : JsVal :=
  match v with
  | VNum (NFin _) => v
  | VNum _ => VNull
  | VObj fields =>
      VObj ((fix clone_fields (l : list (string * JsVal)) : list (string * JsVal) :=
               match l with
               | [] => []
               | (k, VUndefined) :: l' => clone_fields l'
               | (k, x) :: l' => (k, jsonClone x) :: clone_fields l'
               end) fields)
  | VArr items =>
      VArr ((fix clone_items (l : list JsVal) : list JsVal :=
               match l with
               | [] => []
               | VUndefined :: l' => VNull :: clone_items l'
               | x :: l' => jsonClone x :: clone_items l'
               end) items)
  | _ => v
  end.

Definition cloneRec (r : Rec) : Rec :=
  match jsonClone (VObj r) with
  | VObj r' => r'
  | _ => r
  end.

(** ** The mock database ([server/db.ts]) *)

Section Server.

(** The environment of the process: what the [n]-th call to the outside
    returns when it is [Math.random().toString(36).substr(2, 9)], when it is
    [new Date().toISOString()]; the relational comparison [a < b] of the
    language on two values; and zod's check behind [z.string().uuid()]. *)
Variable random_id : nat -> string.
Variable clock : nat -> string.
Variable js_lt : JsVal -> JsVal -> bool.
Variable uuid : string -> bool.

Definition tick (w : World) : World :=
  mkWorld (mockData w) (clients w) (sockets w) (S (calls w)).

Definition generateId : M string :=
  fun w => (Ok (random_id (calls w)), tick w).

Definition now_iso : M string :=
  fun w => (Ok (clock (calls w)), tick w).

(** What [getNestedValue] is given as [path]: a falsy value, a string, an
    object with a [name] (a column), or anything else (an [SQL] object). *)
Inductive Path : Type :=
| PFalsy
| PString (s : string)
| PNamed (name : string)
| POther.

Definition path_of_column (c : Column) : Path := PNamed (col_name c).
Definition path_of_sql (q : SQL) : Path := POther.

(** [getNestedValue(obj, path)] *)
Definition getNestedValue (o : Rec) (path : Path) : JsVal :=
  match path with
  | PFalsy => VObj o
  | PString "" => VObj o
  | PString s => obj_get s o
  | PNamed "" => VObj o
  | PNamed n => obj_get n o
  | POther => VObj o
  end.

(** A value of the [fields] object given to [db.select]: an object, read
    through its own entries, or anything else. *)
Inductive FieldSel : Type :=
| SelValue (p : Path)
| SelObject (entries : list (string * Path)).

Inductive Direction : Type := asc | desc.

Record MockQuery : Type := mkMockQuery {
  tableName : TableName;
  data : list Rec;
  selectedFields : option (list (string * FieldSel));
  joins : list (TableName * Condition);
  whereConditions : list Condition;
  limitCount : option nat;
  orderByFields : list (Path * Direction)
}.

(** [new MockQuery(table, fields)]: the data is a JSON copy of the table. *)
Definition newMockQuery (table : TableName)
    (fields : option (list (string * FieldSel))) : M MockQuery :=
  rows <- read_table table ;;
  ret (mkMockQuery table (map cloneRec rows) fields [] [] None []).

(** [db.select(fields).from(table)] *)
Definition select_from (fields : option (list (string * FieldSel)))
    (table : TableName) : M MockQuery :=
  newMockQuery table fields.

(** [l.filter(f)] for a callback that may throw. *)
Fixpoint filter_res {A : Type} (f : A -> Res bool) (l : list A) : Res (list A) :=
  match l with
  | [] => Ok []
  | x :: l' =>
      match f x with
      | Throw e => Throw e
      | Ok b =>
          match filter_res f l' with
          | Throw e => Throw e
          | Ok r => Ok (if b then x :: r else r)
          end
      end
  end.

(** [query.where(condition)] *)
Definition where_ (condition : Condition) (q : MockQuery) : M MockQuery :=
  match condition with
  | CNone => ret q
  | _ =>
      rows <- lift (filter_res (parseCondition condition) (data q)) ;;
      ret (mkMockQuery (tableName q) rows (selectedFields q) (joins q)
             (whereConditions q ++ [condition]) (limitCount q)
             (orderByFields q))
  end.

(** [query.leftJoin(joinTable, joinCondition)] *)
Definition leftJoin (joinTable : TableName) (joinCondition : Condition)
    (q : MockQuery) : MockQuery :=
  mkMockQuery (tableName q) (data q) (selectedFields q)
    (joins q ++ [(joinTable, joinCondition)]) (whereConditions q)
    (limitCount q) (orderByFields q).

(** [query.orderBy(field, direction)]: it keeps [field?.name || field]. *)
Definition orderBy (field : Path) (direction : Direction) (q : MockQuery)
    : MockQuery :=
  let kept := match field with
              | PNamed "" => field
              | PNamed n => PString n
              | _ => field
              end in
  mkMockQuery (tableName q) (data q) (selectedFields q) (joins q)
    (whereConditions q) (limitCount q) (orderByFields q ++ [(kept, direction)]).

(** [query.limit(count)] *)
Definition limit (count : nat) (q : MockQuery) : MockQuery :=
  mkMockQuery (tableName q) (data q) (selectedFields q) (joins q)
    (whereConditions q) (Some count) (orderByFields q).

(** [rightData.find(r => r.id === v)] *)
Definition find_id (rightData : list Rec) (v : JsVal) : option Rec :=
  find (fun r => strict_eq (obj_get "id" r) v) rightData.

(** The body of the [map] callback of [performJoin]. *)
Definition join_record (rightTableName : TableName) (rightData : list Rec)
    (leftRecord : Rec) : Rec :=
  let attach (key fk : string) (proj : Rec -> Rec) : Rec :=
    match find_id rightData (obj_get fk leftRecord) with
    | Some r => obj_set key (VObj (proj r)) leftRecord
    | None => leftRecord
    end in
  match rightTableName with
  | users =>
      if truthy (obj_get "teacherId" leftRecord) then
        attach "teacher" "teacherId"
          (fun r => obj [("name", obj_get "name" r)])
      else if truthy (obj_get "studentId" leftRecord) then
        attach "student" "studentId"
          (fun r => obj [("name", obj_get "name" r); ("email", obj_get "email" r)])
      else if truthy (obj_get "userId" leftRecord) then
        attach "user" "userId" (fun r => obj [("name", obj_get "name" r)])
      else leftRecord
  | courses =>
      if truthy (obj_get "courseId" leftRecord)
      then attach "course" "courseId" (fun r => r) else leftRecord
  | assignments =>
      if truthy (obj_get "assignmentId" leftRecord)
      then attach "assignment" "assignmentId" (fun r => r) else leftRecord
  | submissions =>
      if truthy (obj_get "submissionId" leftRecord)
      then attach "submission" "submissionId" (fun r => r) else leftRecord
  | _ => leftRecord
  end.

(** [performJoin(leftData, rightTableName, joinCondition)]: the right table
    is read from [mockData] when the query runs. *)
Definition performJoin (leftData : list Rec) (rightTableName : TableName)
    (joinCondition : Condition) : M (list Rec) :=
  rightData <- read_table rightTableName ;;
  ret (map (join_record rightTableName rightData) leftData).

(** The comparator given to [result.sort]: negative, zero or positive. *)
Fixpoint compare_records (fields : list (Path * Direction)) (a b : Rec) : Z :=
  match fields with
  | [] => 0%Z
  | (field, direction) :: fields' =>
      let aVal := getNestedValue a field in
      let bVal := getNestedValue b field in
      if js_lt aVal bVal then
        match direction with asc => (-1)%Z | desc => 1%Z end
      else if js_lt bVal aVal then
        match direction with asc => 1%Z | desc => (-1)%Z end
      else compare_records fields' a b
  end.

(** [Array.prototype.sort] is stable: insertion from the right. *)
Fixpoint sort_insert (cmp : Rec -> Rec -> Z) (x : Rec) (l : list Rec) : list Rec :=
  match l with
  | [] => [x]
  | y :: l' => if (0 <? cmp x y)%Z then y :: sort_insert cmp x l' else x :: l
  end.

Definition array_sort (cmp : Rec -> Rec -> Z) (l : list Rec) : list Rec :=
  fold_right (sort_insert cmp) [] l.

(** The field selection of [then]. *)
Definition select_fields (fields : list (string * FieldSel)) (record : Rec) : Rec :=
  fold_left
    (fun selectedRecord kv =>
       match snd kv with
       | SelObject entries =>
           obj_set (fst kv)
             (VObj (fold_left
                      (fun nested e =>
                         obj_set (fst e) (getNestedValue record (snd e)) nested)
                      entries []))
             selectedRecord
       | SelValue p => obj_set (fst kv) (getNestedValue record p) selectedRecord
       end)
    fields [].

Fixpoint apply_joins (js : list (TableName * Condition)) (result : list Rec)
    : M (list Rec) :=
  match js with
  | [] => ret result
  | (t, c) :: js' => r <- performJoin result t c ;; apply_joins js' r
  end.

(** [query.then(...)], that is [await query]: the rows the query yields. *)
Definition then_ (q : MockQuery) : M (list Rec) :=
  result <- apply_joins (joins q) (data q) ;;
  let result :=
    match orderByFields q with
    | [] => result
    | _ => array_sort (compare_records (orderByFields q)) result
    end in
  let result :=
    match limitCount q with
    | Some (S n) => firstn (S n) result
    | _ => result
    end in
  let result :=
    match selectedFields q with
    | Some fields => map (select_fields fields) result
    | None => result
    end in
  ret result.

(** [mockData[tableName].push(newRecord)] *)
Definition push_record (t : TableName) (newRecord : Rec) : M unit :=
  fun w =>
    match table_of (mockData w) t with
    | Some l => (Ok tt, set_mockData (with_table t (l ++ [newRecord]) (mockData w)) w)
    | None =>
        (Throw (TypeError "Cannot read properties of undefined (reading 'push')"), w)
    end.

(** The record [db.insert] builds:
    [{ ...data, id: generateId(), createdAt: data.createdAt || now,
       ...(tableName === 'enrollments' && { enrolledAt: now }), ... }]. *)
Definition newRecord (table : TableName) (values : Rec) (now id : string) : Rec :=
  let stamp (t : TableName) (key : string) (r : Rec) : Rec :=
    if TableName_eqb table t then obj_set key (VStr now) r else r in
  stamp materials "uploadedAt"
    (stamp grades "gradedAt"
       (stamp submissions "submittedAt"
          (stamp enrollments "enrolledAt"
             (obj_set "createdAt"
                (if truthy (obj_get "createdAt" values)
                 then obj_get "createdAt" values else VStr now)
                (obj_set "id" (VStr id) values))))).

(** [db.insert(table).values(data).returning()] *)
Definition db_insert (table : TableName) (values : Rec) : M (list Rec) :=
  now <- now_iso ;;
  id <- generateId ;;
  let record := newRecord table values now id in
  push_record table record ;;;
  ret [record].

(** The [forEach] of [db.update]: records are changed in place, one after
    the other; an exception leaves the earlier changes. *)
Fixpoint update_records (updateData : Rec) (condition : Condition)
    (records : list Rec) : list Rec * Res nat :=
  match records with
  | [] => ([], Ok O)
  | record :: rest =>
      match parseCondition condition record with
      | Throw e => (records, Throw e)
      | Ok b =>
          let (rest', n) := update_records updateData condition rest in
          (if b then obj_assign record updateData :: rest' else record :: rest',
           match n with
           | Ok k => Ok (if b then S k else k)
           | Throw e => Throw e
           end)
      end
  end.

(** [db.update(table).set(updateData).where(condition)], returning
    [updatedCount]. *)
Definition db_update (table : TableName) (updateData : Rec)
    (condition : Condition) : M nat :=
  fun w =>
    match table_of (mockData w) table with
    | Some records =>
        let (records', n) := update_records updateData condition records in
        (n, set_mockData (with_table table records' (mockData w)) w)
    | None => (Ok O, w)
    end.

(** ** [DatabaseStorage] ([server/storage.ts]) *)

(** [const [x] = rows; return x || undefined] *)
Definition first_row (rows : list Rec) : option Rec := hd_error rows.

(** [await db.select().from(table).where(eq(column, value))] *)
Definition select_where_eq (table : TableName) (column : Column)
    (value : JsVal) : M (list Rec) :=
  q <- select_from None table ;;
  q <- where_ (CSQL (drizzle.eq column value)) q ;;
  then_ q.

Definition getUser (id : JsVal) : M (option Rec) :=
  rows <- select_where_eq users users_id id ;; ret (first_row rows).

Definition getCourse (id : JsVal) : M (option Rec) :=
  rows <- select_where_eq courses courses_id id ;; ret (first_row rows).

Definition getEnrollmentsByCourse (courseId : JsVal) : M (list Rec) :=
  select_where_eq enrollments enrollments_courseId courseId.

Definition createEnrollment (insertEnrollment : Rec) : M (option Rec) :=
  rows <- db_insert enrollments insertEnrollment ;; ret (first_row rows).

Definition getAssignment (id : JsVal) : M (option Rec) :=
  rows <- select_where_eq assignments assignments_id id ;; ret (first_row rows).

Definition createAssignment (insertAssignment : Rec) : M (option Rec) :=
  rows <- db_insert assignments insertAssignment ;; ret (first_row rows).

Definition getSubmission (id : JsVal) : M (option Rec) :=
  rows <- select_where_eq submissions submissions_id id ;; ret (first_row rows).

Definition createSubmission (insertSubmission : Rec) : M (option Rec) :=
  rows <- db_insert submissions insertSubmission ;; ret (first_row rows).

Definition createGrade (insertGrade : Rec) : M (option Rec) :=
  rows <- db_insert grades insertGrade ;; ret (first_row rows).

Definition createMaterial (insertMaterial : Rec) : M (option Rec) :=
  rows <- db_insert materials insertMaterial ;; ret (first_row rows).

Definition getNotificationsByUser (userId : JsVal) : M (list Rec) :=
  q <- select_from None notifications ;;
  q <- where_ (CSQL (drizzle.eq notifications_userId userId)) q ;;
  then_ (orderBy (path_of_sql (drizzle.desc notifications_createdAt)) asc q).

Definition createNotification (insertNotification : Rec) : M (option Rec) :=
  rows <- db_insert notifications insertNotification ;; ret (first_row rows).

Definition markNotificationAsRead (id : JsVal) : M unit :=
  db_update notifications (obj [("isRead", VBool true)])
    (CSQL (drizzle.eq notifications_id id)) ;;;
  ret tt.

(** ** The routes ([server/routes.ts]) *)

(** [req.session] *)
Record Session : Type := mkSession {
  userId : option string;
  userRole : option string
}.

Definition session_userId (s : Session) : JsVal :=
  match userId s with Some u => VStr u | None => VUndefined end.

Definition session_userRole (s : Session) : JsVal :=
  match userRole s with Some r => VStr r | None => VUndefined end.

(** [res.status(status).json(body)] *)
Record Response : Type := mkResponse {
  status : nat;
  body : JsVal
}.

Definition json (body : JsVal) : Response := mkResponse 200 body.

Definition message (status : nat) (text : string) : Response :=
  mkResponse status (VObj (obj [("message", VStr text)])).

Definition Handler : Type := World -> Response * World.

(** The [string] conversion of a template literal is the language's; it
    only shapes the text of notifications. *)
Variable to_string : JsVal -> string.

(** [error.message] *)
Definition exn_message (e : Exn) : string :=
  match e with
  | ZodError issues => String.concat ", " issues
  | TypeError m => m
  end.

(** [try { ... } catch (error) { res.status(500).json({ message }) }] *)
Definition try_catch (block : M Response) : Handler :=
  fun w =>
    match block w with
    | (Ok r, w') => (r, w')
    | (Throw e, w') => (message 500 (exn_message e), w')
    end.

(** The [catch] that first answers 400 to a [ZodError]. *)
Definition try_catch_zod (block : M Response) : Handler :=
  fun w =>
    match block w with
    | (Ok r, w') => (r, w')
    | (Throw (ZodError issues), w') =>
        (mkResponse 400
           (VObj (obj [("message", VStr "Validation error");
                       ("errors", VArr (map VStr issues))])), w')
    | (Throw e, w') => (message 500 (exn_message e), w')
    end.

(** [requireAuth] *)
Definition requireAuth (s : Session) (next : Handler) : Handler :=
  if negb (truthy (session_userId s))
  then fun w => (message 401 "Unauthorized", w)
  else next.

(** [requireRole(role)] *)
Definition requireRole (role : string) (s : Session) (next : Handler) : Handler :=
  if negb (truthy (session_userId s))
     || negb (strict_eq (session_userRole s) (VStr role))
  then fun w => (message 403 "Forbidden", w)
  else next.

(** [x.key] for a row that may be [undefined]. *)
Definition field (x : option Rec) (key : string) : M JsVal :=
  match x with
  | Some r => ret (obj_get key r)
  | None =>
      throw (TypeError ("Cannot read properties of undefined (reading '"
                          ++ key ++ "')"))
  end.

(** [broadcastNotification(userId, notification)] *)
Definition broadcastNotification (userId : JsVal) (notification : option Rec)
    : M unit :=
  fun w =>
    let client :=
      match userId with
      | VStr u =>
          match clients w !! u with
          | Some ref =>
              match sockets w !! ref with
              | Some sock => Some (ref, sock)
              | None => None
              end
          | None => None
          end
      | _ => None
      end in
    match client with
    | Some (ref, mkSocket OPEN out) =>
        let msg :=
          jsonClone
            (VObj (obj [("type", VStr "notification");
                        ("data", match notification with
                                 | Some n => VObj n
                                 | None => VUndefined
                                 end)])) in
        (Ok tt,
         mkWorld (mockData w) (clients w)
           (<[ref := mkSocket OPEN (out ++ [msg])]> (sockets w)) (calls w))
    | _ => (Ok tt, w)
    end.

(** The query every access check runs:
    [db.select().from(enrollments).where(and(eq(enrollments.courseId, c),
    eq(enrollments.studentId, u))).limit(1)]. *)
Definition enrollmentCheck (courseId userId : JsVal) : M (list Rec) :=
  q <- select_from None enrollments ;;
  q <- where_ (cond_of_sql
                 (drizzle.and_ [drizzle.eq enrollments_courseId courseId;
                                drizzle.eq enrollments_studentId userId])) q ;;
  then_ (limit 1 q).

Definition is_role (s : Session) (role : string) : bool :=
  strict_eq (session_userRole s) (VStr role).

(** [GET /api/courses/:id] *)
Definition get_course (s : Session) (id : string) : Handler :=
  requireAuth s (try_catch (
    course <- getCourse (VStr id) ;;
    match course with
    | None => ret (message 404 "Course not found")
    | Some c =>
        let isTeacher :=
          is_role s "teacher" && strict_eq (obj_get "teacherId" c) (session_userId s) in
        check <- enrollmentCheck (VStr id) (session_userId s) ;;
        let isEnrolled := is_role s "student" && (0 <? length check)%nat in
        if negb isTeacher && negb isEnrolled
        then ret (message 403 "You don't have access to this course")
        else
          teacher <- getUser (obj_get "teacherId" c) ;;
          let name := match teacher with
                      | Some t => if truthy (obj_get "name" t)
                                  then obj_get "name" t else VStr "Unknown"
                      | None => VStr "Unknown"
                      end in
          ret (json (VObj (obj_set "teacher" (VObj (obj [("name", name)])) c)))
    end)).

(** [GET /api/courses/:id/enrollments] *)
Definition get_course_enrollments (s : Session) (id : string) : Handler :=
  requireAuth s (requireRole "teacher" s (try_catch (
    course <- getCourse (VStr id) ;;
    match course with
    | Some c =>
        if negb (strict_eq (obj_get "teacherId" c) (session_userId s))
        then ret (message 403 "You don't have permission to view these enrollments")
        else
          courseEnrollments <- select_where_eq enrollments enrollments_courseId (VStr id) ;;
          enrollmentsWithStudents <-
            mapM (fun enrollment =>
                    rows <- select_where_eq users users_id (obj_get "studentId" enrollment) ;;
                    name <- field (first_row rows) "name" ;;
                    email <- field (first_row rows) "email" ;;
                    ret (VObj (obj_set "student"
                                 (VObj (obj [("name", name); ("email", email)]))
                                 enrollment)))
                 courseEnrollments ;;
          ret (json (VArr enrollmentsWithStudents))
    | None => ret (message 403 "You don't have permission to view these enrollments")
    end))).

(** [{ userId, type, content, isRead: false }], what every handler gives
    to [storage.createNotification]. *)
Definition notification_values (user : JsVal) (type content : string) : Rec :=
  obj [("userId", user); ("type", VStr type); ("content", VStr content);
       ("isRead", VBool false)].

(** The notification a handler creates and pushes:
    [storage.createNotification({ userId, type, content, isRead: false })]
    followed by [broadcastNotification(userId, notification)]. *)
Definition notify (user : JsVal) (type content : string) : M unit :=
  notification <- createNotification (notification_values user type content) ;;
  broadcastNotification user notification.

(** [POST /api/assignments] *)
Definition post_assignments (s : Session) (req_body : Rec) : Handler :=
  requireAuth s (requireRole "teacher" s (try_catch (
    course <- getCourse (obj_get "courseId" req_body) ;;
    match course with
    | Some c =>
        if negb (strict_eq (obj_get "teacherId" c) (session_userId s))
        then ret (message 403
               "You don't have permission to create assignments for this course")
        else
          assignment <- createAssignment req_body ;;
          courseEnrollments <- getEnrollmentsByCourse (obj_get "courseId" req_body) ;;
          forM_ (fun enrollment =>
                   title <- field assignment "title" ;;
                   notify (obj_get "studentId" enrollment) "Assignment"
                     ("New assignment in " ++ to_string (obj_get "title" c)
                        ++ ": " ++ to_string title))
                courseEnrollments ;;;
          ret (json (match assignment with Some a => VObj a | None => VUndefined end))
    | None => ret (message 403
               "You don't have permission to create assignments for this course")
    end))).

(** [POST /api/materials] *)
Definition post_materials (s : Session) (req_body : Rec) : Handler :=
  requireAuth s (requireRole "teacher" s (try_catch (
    course <- getCourse (obj_get "courseId" req_body) ;;
    match course with
    | Some c =>
        if negb (strict_eq (obj_get "teacherId" c) (session_userId s))
        then ret (message 403
               "You don't have permission to add materials to this course")
        else
          material <- createMaterial req_body ;;
          ret (json (match material with Some m => VObj m | None => VUndefined end))
    | None => ret (message 403
               "You don't have permission to add materials to this course")
    end))).

(** [GET /api/assignments/:id] *)
Definition get_assignment (s : Session) (id : string) : Handler :=
  requireAuth s (try_catch (
    rows <- select_where_eq assignments assignments_id (VStr id) ;;
    match first_row rows with
    | None => ret (message 404 "Assignment not found")
    | Some assignment =>
        rows <- select_where_eq courses courses_id (obj_get "courseId" assignment) ;;
        let course := first_row rows in
        isTeacher <-
          (if is_role s "teacher"
           then teacherId <- field course "teacherId" ;;
                ret (strict_eq teacherId (session_userId s))
           else ret false) ;;
        check <- enrollmentCheck (obj_get "courseId" assignment) (session_userId s) ;;
        let isEnrolled := is_role s "student" && (0 <? length check)%nat in
        if negb isTeacher && negb isEnrolled
        then ret (message 403 "You don't have access to this assignment")
        else
          assignmentSubmissions <-
            (if isEnrolled && negb isTeacher
             then
               q <- select_from None submissions ;;
               q <- where_ (cond_of_sql
                              (drizzle.and_
                                 [drizzle.eq submissions_assignmentId (obj_get "id" assignment);
                                  drizzle.eq submissions_studentId (session_userId s)])) q ;;
               then_ q
             else
               select_where_eq submissions submissions_assignmentId
                 (obj_get "id" assignment)) ;;
          submissionsWithGrades <-
            mapM (fun submission =>
                    rows <- select_where_eq users users_id (obj_get "studentId" submission) ;;
                    submissionGrades <-
                      select_where_eq grades grades_submissionId (obj_get "id" submission) ;;
                    name <- field (first_row rows) "name" ;;
                    email <- field (first_row rows) "email" ;;
                    ret (VObj (obj_set "grades" (VArr (map VObj submissionGrades))
                                 (obj_set "student"
                                    (VObj (obj [("name", name); ("email", email)]))
                                    submission))))
                 assignmentSubmissions ;;
          title <- field course "title" ;;
          ret (json (VObj (obj_set "submissions" (VArr submissionsWithGrades)
                             (obj_set "course" (VObj (obj [("title", title)]))
                                assignment))))
    end)).

(** The object [POST /api/submissions] gives to [storage.createSubmission]. *)
Definition submission_values (s : Session) (req_body : Rec) : Rec :=
  obj [("assignmentId", obj_get "assignmentId" req_body);
       ("studentId", session_userId s);
       ("content", obj_get "content" req_body);
       ("fileUrl", obj_get "fileUrl" req_body)].

(** The Submission row [db.insert] makes of it in the state [w]. *)
Definition submitted (s : Session) (req_body : Rec) (w : World) : Rec :=
  newRecord submissions (submission_values s req_body)
    (clock (calls w)) (random_id (S (calls w))).

(** [POST /api/submissions] *)
Definition post_submissions (s : Session) (req_body : Rec) : Handler :=
  requireAuth s (requireRole "student" s (try_catch (
    assignment <- getAssignment (obj_get "assignmentId" req_body) ;;
    match assignment with
    | None => ret (message 404 "Assignment not found")
    | Some a =>
        check <- enrollmentCheck (obj_get "courseId" a) (session_userId s) ;;
        if (length check =? 0)%nat
        then ret (message 403 "You are not enrolled in this course")
        else
          submission <- createSubmission (submission_values s req_body) ;;
          course <- getCourse (obj_get "courseId" a) ;;
          teacherId <- field course "teacherId" ;;
          notify teacherId "Submission"
            ("New submission for " ++ to_string (obj_get "title" a)) ;;;
          ret (json (match submission with Some x => VObj x | None => VUndefined end))
    end))).

(** [enrollmentSchema.parse(req.body)] *)
Definition enrollmentSchema_parse (req_body : Rec) : M Rec :=
  match obj_get "courseId" req_body with
  | VStr c => if uuid c then ret (obj [("courseId", VStr c)])
              else throw (ZodError ["courseId"])
  | _ => throw (ZodError ["courseId"])
  end.

(** [POST /api/enrollments] *)
Definition post_enrollments (s : Session) (req_body : Rec) : Handler :=
  requireAuth s (requireRole "student" s (try_catch_zod (
    parsed <- enrollmentSchema_parse req_body ;;
    let courseId := obj_get "courseId" parsed in
    course <- getCourse courseId ;;
    match course with
    | None => ret (message 404 "Course not found")
    | Some c =>
        existingEnrollments <- enrollmentCheck courseId (session_userId s) ;;
        if (0 <? length existingEnrollments)%nat
        then ret (message 400 "Already enrolled in this course")
        else
          enrollment <-
            createEnrollment (obj [("courseId", courseId);
                                   ("studentId", session_userId s)]) ;;
          notify (session_userId s) "Enrollment"
            ("You've been enrolled in " ++ to_string (obj_get "title" c)) ;;;
          ret (json (match enrollment with Some x => VObj x | None => VUndefined end))
    end))).

(** [Number.isInteger] on a finite number. *)
Definition is_integer (q : Q) : bool :=
  (Qnum q mod Zpos (Qden q) =? 0)%Z.

(** [z.number().int().min(0).max(100)] *)
Definition valid_grade (v : JsVal) : bool :=
  match v with
  | VNum (NFin q) => is_integer q && Qle_bool 0 q && Qle_bool q 100
  | _ => false
  end.

(** [z.string().optional()] *)
Definition valid_feedback (v : JsVal) : bool :=
  match v with
  | VUndefined | VStr _ => true
  | _ => false
  end.

Definition valid_submissionId (v : JsVal) : bool :=
  match v with
  | VStr x => uuid x
  | _ => false
  end.

Definition grade_fields_valid (req_body : Rec) : bool :=
  valid_submissionId (obj_get "submissionId" req_body)
  && valid_grade (obj_get "grade" req_body)
  && valid_feedback (obj_get "feedback" req_body).

(** [gradeSchema.parse(req.body)]: every failing field raises an issue;
    the parsed object keeps the three fields of the schema, [feedback] only
    when it is given. *)
Definition gradeSchema_parse (req_body : Rec) : M Rec :=
  let issues :=
    (if valid_submissionId (obj_get "submissionId" req_body) then [] else ["submissionId"])
    ++ (if valid_grade (obj_get "grade" req_body) then [] else ["grade"])
    ++ (if valid_feedback (obj_get "feedback" req_body) then [] else ["feedback"]) in
  match issues with
  | [] =>
      ret (obj ([("submissionId", obj_get "submissionId" req_body);
                 ("grade", obj_get "grade" req_body)]
                ++ match obj_get "feedback" req_body with
                   | VUndefined => []
                   | f => [("feedback", f)]
                   end))
  | _ => throw (ZodError issues)
  end.

(** [POST /api/grades] *)
Definition post_grades (s : Session) (req_body : Rec) : Handler :=
  requireAuth s (requireRole "teacher" s (try_catch_zod (
    validatedData <- gradeSchema_parse req_body ;;
    submission <- getSubmission (obj_get "submissionId" validatedData) ;;
    match submission with
    | None => ret (message 404 "Submission not found")
    | Some sub =>
        assignment <- getAssignment (obj_get "assignmentId" sub) ;;
        match assignment with
        | None => ret (message 404 "Assignment not found")
        | Some a =>
            course <- getCourse (obj_get "courseId" a) ;;
            match course with
            | Some c =>
                if negb (strict_eq (obj_get "teacherId" c) (session_userId s))
                then ret (message 403
                       "You don't have permission to grade this submission")
                else
                  q <- select_from None grades ;;
                  q <- where_ (CSQL (drizzle.eq grades_submissionId
                                       (obj_get "submissionId" validatedData))) q ;;
                  existingGrades <- then_ (limit 1 q) ;;
                  if (0 <? length existingGrades)%nat
                  then ret (message 400 "This submission has already been graded")
                  else
                    grade <- createGrade validatedData ;;
                    value <- field grade "grade" ;;
                    notify (obj_get "studentId" sub) "Grade"
                      ("Your assignment " ++ String dquote "" ++ to_string (obj_get "title" a)
                         ++ String dquote "" ++ " has been graded: " ++ to_string value
                         ++ "/100") ;;;
                    ret (json (match grade with Some x => VObj x | None => VUndefined end))
            | None => ret (message 403
                       "You don't have permission to grade this submission")
            end
        end
    end))).

(** [GET /api/notifications] *)
Definition get_notifications (s : Session) : Handler :=
  requireAuth s (try_catch (
    userNotifications <- getNotificationsByUser (session_userId s) ;;
    ret (json (VArr (map VObj userNotifications))))).

(** [PATCH /api/notifications/:id/read] *)
Definition patch_notification_read (s : Session) (id : string) : Handler :=
  requireAuth s (try_catch (
    q <- select_from None notifications ;;
    q <- where_ (CSQL (drizzle.eq notifications_id (VStr id))) q ;;
    notification <- then_ (limit 1 q) ;;
    match first_row notification with
    | None => ret (message 404 "Notification not found")
    | Some n =>
        if negb (strict_eq (obj_get "userId" n) (session_userId s))
        then ret (message 403
               "You don't have permission to modify this notification")
        else
          markNotificationAsRead (VStr id) ;;;
          ret (json (VObj (obj [("success", VBool true)])))
    end)).

End Server.

(** ** Query chains *)

(** A call in the chain between [db.select(fields).from(table)] and the
    [await]. *)
Inductive QueryOp : Type :=
| OpWhere (condition : Condition)
| OpLeftJoin (joinTable : TableName) (joinCondition : Condition)
| OpOrderBy (field : Path) (direction : Direction)
| OpLimit (count : nat).

Fixpoint apply_ops (ops : list QueryOp) (q : MockQuery) : M MockQuery :=
  match ops with
  | [] => ret q
  | OpWhere c :: ops' => q' <- where_ c q ;; apply_ops ops' q'
  | OpLeftJoin t c :: ops' => apply_ops ops' (leftJoin t c q)
  | OpOrderBy f d :: ops' => apply_ops ops' (orderBy f d q)
  | OpLimit n :: ops' => apply_ops ops' (limit n q)
  end.

(** [await db.select(fields).from(table).op1(...)...opn(...)] *)
Definition run_select (js_lt : JsVal -> JsVal -> bool)
    (fields : option (list (string * FieldSel))) (table : TableName)
    (ops : list QueryOp) : M (list Rec) :=
  q <- select_from fields table ;;
  q' <- apply_ops ops q ;;
  then_ js_lt q'.

(** ** Measures on the store used by the properties *)

(** The rows of a table that carry [v1] under [k1] and [v2] under [k2]. *)
Definition rows_matching (k1 : string) (v1 : JsVal) (k2 : string) (v2 : JsVal)
    (rows : list Rec) : list Rec :=
  List.filter (fun r => strict_eq (obj_get k1 r) v1 && strict_eq (obj_get k2 r) v2) rows.

(** The number of Enrollment rows of student [s] in course [c]. *)
Definition enrollment_rows (w : World) (s c : string) : nat :=
  length (rows_matching "studentId" (VStr s) "courseId" (VStr c)
            (md_enrollments (mockData w))).

(** The number of Submission rows of student [s] for assignment [a]. *)
Definition submission_rows (w : World) (a s : string) : nat :=
  length (rows_matching "assignmentId" (VStr a) "studentId" (VStr s)
            (md_submissions (mockData w))).

(** The number of Grade rows of submission [sub]. *)
Definition grade_rows (w : World) (sub : JsVal) : nat :=
  length (List.filter (fun r => strict_eq (obj_get "submissionId" r) sub)
            (md_grades (mockData w))).

(** A computation that only reads: whatever it returns or throws, it
    leaves the state as it found it. *)
Definition read_only {A : Type} (m : M A) : Prop :=
  forall w, snd (m w) = w.

(** Every response a block can return satisfies [P]. *)
Definition answers (P : Response -> Prop) (m : M Response) : Prop :=
  forall w, match fst (m w) with Ok r => P r | Throw _ => True end.

Definition not_404 (r : Response) : Prop := status r <> 404%nat.

(** The user has no connection that a push could reach: none registered,
    or a registered one that is not open. *)
Definition no_open_connection (u : string) (w : World) : Prop :=
  match clients w !! u with
  | Some ref =>
      match sockets w !! ref with
      | Some sock => readyState sock <> OPEN
      | None => True
      end
  | None => True
  end.

(** ** A concrete environment and concrete stores for the examples *)

Definition dec (n : nat) : string := NilEmpty.string_of_uint (Nat.to_uint n).

Definition demo_random_id (n : nat) : string := "gen" ++ dec n.
Definition demo_clock (n : nat) : string := "2025-01-01T00:00:" ++ dec n ++ "Z".
Definition demo_lt (a b : JsVal) : bool := false.
Definition demo_to_string (v : JsVal) : string :=
  match v with
  | VStr s => s
  | VUndefined => "undefined"
  | VNum (NFin q) => dec (Z.to_nat (Qnum q / Zpos (Qden q)))
  | _ => "[object]"
  end.

Definition is_hex (c : ascii) : bool :=
  let n := nat_of_ascii c in
  ((48 <=? n) && (n <=? 57) || (97 <=? n) && (n <=? 102)
   || (65 <=? n) && (n <=? 70))%nat.

Fixpoint uuid_groups (groups : list nat) (run : nat) (s : string) : bool :=
  match s with
  | EmptyString =>
      match groups with
      | [g] => (run =? g)%nat
      | _ => false
      end
  | String c s' =>
      if Ascii.eqb c "-" then
        match groups with
        | g :: (_ :: _) as rest => (run =? g)%nat && uuid_groups rest 0 s'
        | _ => false
        end
      else is_hex c && uuid_groups groups (S run) s'
  end.

(** The 8-4-4-4-12 hexadecimal shape of a UUID, the check used for
    [z.string().uuid()] in the examples. *)
Definition uuid_shape (s : string) : bool := uuid_groups [8; 4; 4; 4; 12]%nat 0 s.

Definition teacher1 : Session := mkSession (Some "t1") (Some "teacher").
Definition teacher2 : Session := mkSession (Some "t2") (Some "teacher").
Definition student1 : Session := mkSession (Some "s1") (Some "student").
Definition student2 : Session := mkSession (Some "s2") (Some "student").
Definition student3 : Session := mkSession (Some "s3") (Some "student").

Definition user_row (id name role : string) : Rec :=
  [("id", VStr id); ("name", VStr name); ("email", VStr (id ++ "@example.com"));
   ("password", VStr "hashed_password"); ("role", VStr role);
   ("createdAt", VStr "2025-01-01T00:00:00Z")].

Definition course_row (id title teacher : string) : Rec :=
  [("id", VStr id); ("title", VStr title); ("description", VStr "d");
   ("duration", VStr "4 weeks"); ("teacherId", VStr teacher);
   ("createdAt", VStr "2025-01-01T00:00:00Z")].

Definition enrollment_row (id student course : string) : Rec :=
  [("id", VStr id); ("studentId", VStr student); ("courseId", VStr course);
   ("enrolledAt", VStr "2025-01-01T00:00:00Z")].

Definition assignment_row (id course title : string) : Rec :=
  [("id", VStr id); ("courseId", VStr course); ("title", VStr title);
   ("instructions", VStr "i"); ("dueDate", VStr "2025-02-01T00:00:00Z");
   ("createdAt", VStr "2025-01-01T00:00:00Z")].

Definition submission_row (id assignment student content : string) : Rec :=
  [("id", VStr id); ("assignmentId", VStr assignment); ("studentId", VStr student);
   ("content", VStr content); ("submittedAt", VStr "2025-01-02T00:00:00Z")].

Definition notification_row (id user content : string) : Rec :=
  [("id", VStr id); ("userId", VStr user); ("type", VStr "Welcome");
   ("content", VStr content); ("isRead", VBool false);
   ("createdAt", VStr "2025-01-01T00:00:00Z")].

Definition demo_users : list Rec :=
  [user_row "t1" "Teacher One" "teacher"; user_row "t2" "Teacher Two" "teacher";
   user_row "s1" "Student One" "student"; user_row "s2" "Student Two" "student";
   user_row "s3" "Student Three" "student"].

Definition course1 : string := "11111111-1111-4111-8111-111111111111".
Definition course2 : string := "22222222-2222-4222-8222-222222222222".
Definition submission2 : string := "33333333-3333-4333-8333-333333333333".

Definition world_of (m : MockData) : World := mkWorld m ∅ ∅ 0.

(** An empty store. *)
Definition empty_world : World :=
  world_of (mkMockData [] [] [] [] [] [] [] [] []).

(** Two courses, [course1] of teacher [t1] and [course2] of teacher [t2];
    students [s1] and [s2] are enrolled in [course1], student [s3] is
    enrolled nowhere; assignment [a1] of [course1] has one submission, of
    [s2]; [s1] and [s2] have one unread notification each. *)
Definition school : World :=
  world_of (mkMockData demo_users
    [course_row course1 "Intro" "t1"; course_row course2 "Logic" "t2"]
    [enrollment_row "e1" "s1" course1; enrollment_row "e2" "s2" course1]
    [assignment_row "a1" course1 "Essay"]
    [submission_row submission2 "a1" "s2" "other"]
    [] [] []
    [notification_row "n1" "s1" "hello s1"; notification_row "n2" "s2" "hello s2"]).

(** The same school before anybody has enrolled or submitted. *)
Definition new_school : World :=
  world_of (mkMockData demo_users
    [course_row course1 "Intro" "t1"; course_row course2 "Logic" "t2"]
    [] [assignment_row "a1" course1 "Essay"] [] [] [] [] []).

(** [initializeSampleData()], which fills the store when the module is
    loaded: [id k] is what the [k]-th call of [generateId] returned,
    [now k] the [k]-th time stamp and [due k] the due date of the [k]-th
    assignment. *)
Definition initializeSampleData (id now due : nat -> string) : MockData :=
  let teacherId := id 0%nat in
  let studentId := id 1%nat in
  let courseIds := [id 2%nat; id 3%nat; id 4%nat] in
  mkMockData
    [obj [("id", VStr teacherId); ("name", VStr "Dr. Jane Smith");
          ("email", VStr "teacher@example.com");
          ("password", VStr "hashed_password"); ("role", VStr "teacher");
          ("createdAt", VStr (now 0%nat))];
     obj [("id", VStr studentId); ("name", VStr "John Student");
          ("email", VStr "student@example.com");
          ("password", VStr "hashed_password"); ("role", VStr "student");
          ("createdAt", VStr (now 1%nat))]]
    (map (fun i =>
            obj [("id", VStr (id (1 + i)%nat));
                 ("title", VStr ("Course " ++ dec i ++ ": Introduction to Subject "
                                   ++ dec i));
                 ("description", VStr ("Learn the fundamentals of Subject " ++ dec i));
                 ("duration", VStr (dec (4 + i) ++ " weeks"));
                 ("teacherId", VStr teacherId);
                 ("createdAt", VStr (now (1 + i)%nat))])
         [1; 2; 3]%nat)
    (map (fun k =>
            obj [("id", VStr (id (5 + k)%nat)); ("studentId", VStr studentId);
                 ("courseId", VStr (nth k courseIds ""));
                 ("enrolledAt", VStr (now (5 + k)%nat))])
         [0; 1]%nat)
    (map (fun index =>
            obj [("id", VStr (id (7 + index)%nat));
                 ("courseId", VStr (nth index courseIds ""));
                 ("title", VStr ("Assignment " ++ dec (index + 1)));
                 ("instructions",
                  VStr ("Complete the tasks for Assignment " ++ dec (index + 1)));
                 ("dueDate", VStr (due index));
                 ("createdAt", VStr (now (7 + index)%nat))])
         [0; 1; 2]%nat)
    [] [] [] []
    [obj [("id", VStr (id 10%nat)); ("userId", VStr studentId);
          ("type", VStr "Welcome");
          ("content", VStr "Welcome to EduLearn! Start exploring courses.");
          ("isRead", VBool false); ("createdAt", VStr (now 10%nat))]].

(** The store as the module leaves it, for the identifiers [gen0], [gen1],
    ... ; its sample student is [gen1], enrolled in the courses [gen2] and
    [gen3] and not in [gen4]. *)
Definition sample_world : World :=
  world_of (initializeSampleData demo_random_id demo_clock demo_clock).

Definition sample_student : Session := mkSession (Some "gen1") (Some "student").

(** The same school when student [s1] has a registered connection that
    is closed. *)
Definition school_closed_socket : World :=
  mkWorld (mockData school) {["s1" := 7%nat]} {[7%nat := mkSocket CLOSED []]} 0.

(** What a response to [GET /api/assignments/:id] lists under
    [submissions]. *)
Definition response_submissions (r : Response) : list Rec :=
  match body r with
  | VObj o =>
      match obj_get "submissions" o with
      | VArr l =>
          flat_map (fun v => match v with VObj x => [x] | _ => [] end) l
      | _ => []
      end
  | _ => []
  end.

(** The student name attached to a listed submission. *)
Definition student_name (submission : Rec) : JsVal :=
  match obj_get "student" submission with
  | VObj st => obj_get "name" st
  | _ => VUndefined
  end.

Definition grade_request (submission : string) (grade : Z) : Rec :=
  [("submissionId", VStr submission); ("grade", num_of_Z grade);
   ("feedback", VStr "Good")].

(** ** More of the mock database and of the routes *)

Section ServerMore.

Variable random_id : nat -> string.
Variable clock : nat -> string.
Variable js_lt : JsVal -> JsVal -> bool.
Variable to_string : JsVal -> string.

(** [insertCourseSchema.parse], the schema drizzle-zod derives from the
    [courses] table: what it accepts is left open. *)
Variable insertCourseSchema_parse : Rec -> Res Rec.

(** [!parseCondition(condition, record)] *)
Definition parseCondition_not (condition : Condition) (record : Rec) : Res bool :=
  match parseCondition condition record with
  | Ok b => Ok (negb b)
  | Throw e => Throw e
  end.

(** [db.delete(table).where(condition)], returning [deletedCount].  For an
    object that is no table of the schema the code stores an empty array
    under ['unknown'], a key [MockData] does not have: the store is left as
    it is. *)
Definition db_delete (table : TableName) (condition : Condition) : M nat :=
  fun w =>
    let records := rows_of (mockData w) table in
    match filter_res (parseCondition_not condition) records with
    | Ok kept =>
        (Ok (length records - length kept)%nat,
         set_mockData (with_table table kept (mockData w)) w)
    | Throw e => (Throw e, w)
    end.

(** [clearMockData()] *)
Definition clearMockData : M unit :=
  fun w => (Ok tt, set_mockData (mkMockData [] [] [] [] [] [] [] [] []) w).

Definition createCourse (insertCourse : Rec) : M (option Rec) :=
  rows <- db_insert random_id clock courses insertCourse ;; ret (first_row rows).

Definition createDiscussion (insertDiscussion : Rec) : M (option Rec) :=
  rows <- db_insert random_id clock discussions insertDiscussion ;;
  ret (first_row rows).

Definition getMaterialsByCourse (courseId : JsVal) : M (list Rec) :=
  select_where_eq js_lt materials (mkColumn materials "courseId" "course_id") courseId.

(** [POST /api/courses] *)
Definition post_courses (s : Session) (req_body : Rec) : Handler :=
  requireAuth s (requireRole "teacher" s (try_catch_zod (
    validatedData <- lift (insertCourseSchema_parse req_body) ;;
    course <- createCourse (obj_set "teacherId" (session_userId s) validatedData) ;;
    ret (json (match course with Some c => VObj c | None => VUndefined end))))).

(** [GET /api/teacher/courses] *)
Definition get_teacher_courses (s : Session) : Handler :=
  requireAuth s (requireRole "teacher" s (try_catch (
    allCourses <- select_where_eq js_lt courses courses_teacherId (session_userId s) ;;
    ret (json (VArr (map VObj allCourses)))))).

(** The opening the Course-scoped handlers below repeat: the course is
    looked up (404), then the caller must be its teacher or an enrolled
    student (403). *)
Definition with_course_access (s : Session) (courseId : JsVal)
    (continue : M Response) : M Response :=
  course <- getCourse js_lt courseId ;;
  match course with
  | None => ret (message 404 "Course not found")
  | Some c =>
      let isTeacher :=
        is_role s "teacher" && strict_eq (obj_get "teacherId" c) (session_userId s) in
      check <- enrollmentCheck js_lt courseId (session_userId s) ;;
      let isEnrolled := is_role s "student" && (0 <? length check)%nat in
      if negb isTeacher && negb isEnrolled
      then ret (message 403 "You don't have access to this course")
      else continue
  end.

(** [GET /api/courses/:id/assignments] *)
Definition get_course_assignments (s : Session) (id : string) : Handler :=
  requireAuth s (try_catch (
    with_course_access s (VStr id) (
      courseAssignments <-
        select_where_eq js_lt assignments assignments_courseId (VStr id) ;;
      ret (json (VArr (map VObj courseAssignments)))))).

(** [GET /api/courses/:id/discussions] *)
Definition get_course_discussions (s : Session) (id : string) : Handler :=
  requireAuth s (try_catch (
    with_course_access s (VStr id) (
      courseDiscussions <-
        select_where_eq js_lt discussions
          (mkColumn discussions "courseId" "course_id") (VStr id) ;;
      discussionsWithUsers <-
        mapM (fun discussion =>
                rows <- select_where_eq js_lt users users_id
                          (obj_get "userId" discussion) ;;
                name <- field (first_row rows) "name" ;;
                ret (VObj (obj_set "user" (VObj (obj [("name", name)])) discussion)))
             courseDiscussions ;;
      ret (json (VArr discussionsWithUsers))))).

(** The object [POST /api/discussions] gives to [storage.createDiscussion]. *)
Definition discussion_values (s : Session) (req_body : Rec) : Rec :=
  obj [("courseId", obj_get "courseId" req_body);
       ("userId", session_userId s);
       ("content", obj_get "content" req_body);
       ("parentId", obj_get "parentId" req_body)].

(** [POST /api/discussions] *)
Definition post_discussions (s : Session) (req_body : Rec) : Handler :=
  requireAuth s (try_catch (
    with_course_access s (obj_get "courseId" req_body) (
      discussion <- createDiscussion (discussion_values s req_body) ;;
      ret (json (match discussion with Some d => VObj d | None => VUndefined end))))).

(** [GET /api/courses/:id/materials] *)
Definition get_course_materials (s : Session) (id : string) : Handler :=
  requireAuth s (try_catch (
    with_course_access s (VStr id) (
      courseMaterials <- getMaterialsByCourse (VStr id) ;;
      ret (json (VArr (map VObj courseMaterials)))))).

(** *** The connections *)

(** The [message] handler of a connection.  [ref] is the socket of the
    connection, [userId] the variable of its closure ([null] at first) and
    [data] what [JSON.parse] made of the message, [None] when it throws; an
    exception is caught and logged.  The handler returns the variable.  A
    user id that is no string would be a key no string is ever looked up
    with: the map of the model, keyed by strings, does not hold it. *)
Definition ws_on_message (ref : nat) (userId : JsVal) (data : option JsVal)
    : World -> JsVal * World :=
  fun w =>
    match data with
    | Some (VObj o) =>
        if strict_eq (obj_get "type" o) (VStr "auth") && truthy (obj_get "userId" o)
        then
          (obj_get "userId" o,
           match obj_get "userId" o with
           | VStr u =>
               mkWorld (mockData w) (<[u := ref]> (clients w)) (sockets w) (calls w)
           | _ => w
           end)
        else (userId, w)
    | _ => (userId, w)
    end.

(** The [close] handler of a connection: [if (userId) clients.delete(userId)]. *)
Definition ws_on_close (userId : JsVal) : World -> World :=
  fun w =>
    match userId with
    | VStr u =>
        if truthy userId
        then mkWorld (mockData w) (delete u (clients w)) (sockets w) (calls w)
        else w
    | _ => w
    end.

(** The socket [ref] has been closed, by either side. *)
Definition socket_closed (ref : nat) (w : World) : World :=
  match sockets w !! ref with
  | Some sock =>
      mkWorld (mockData w) (clients w)
        (<[ref := mkSocket CLOSED (sent sock)]> (sockets w)) (calls w)
  | None => w
  end.

(** [POST /api/logout]; [destroy_fails] tells whether [req.session.destroy]
    calls back with an error.  [client.close()] starts the closing
    handshake: the socket is [CLOSING]. *)
Definition post_logout (s : Session) (destroy_fails : bool) : Handler :=
  requireAuth s (fun w =>
    if destroy_fails then (message 500 "Logout failed", w)
    else
      let w' :=
        match userId s with
        | Some u =>
            match clients w !! u with
            | Some ref =>
                let socks :=
                  match sockets w !! ref with
                  | Some (mkSocket OPEN out) =>
                      <[ref := mkSocket CLOSING out]> (sockets w)
                  | _ => sockets w
                  end in
                mkWorld (mockData w) (delete u (clients w)) socks (calls w)
            | None => w
            end
        | None => w
        end in
      (json (VObj (obj [("message", VStr "Logged out successfully")])), w')).

End ServerMore.


(** A condition without side and without exception: it is the test [g]. *)
Definition decides (condition : Condition) (g : Rec -> bool) : Prop :=
  forall record, parseCondition condition record = Ok (g record).

(** The plain object [{ column, value }]. *)
Definition column_is (column : string) (value : JsVal) : Condition :=
  CObj (Some column) (Some value) None None None None.

(** The plain objects [{ type: 'and', conditions }], [{ type: 'or',
    conditions }]. *)
Definition all_of (conditions : list Condition) : Condition :=
  CObj None None None None (Some "and") (Some conditions).
Definition any_of (conditions : list Condition) : Condition :=
  CObj None None None None (Some "or") (Some conditions).

(** The compiled query [{ sql, params }]. *)
Definition sql_text (sql : string) (params : list JsVal) : Condition :=
  CObj None None (Some sql) (Some params) None None.

(** A store in which the user [s1] has an open connection, socket 7. *)
Definition school_open_socket : World :=
  mkWorld (mockData school) {["s1" := 7%nat]} {[7%nat := mkSocket OPEN []]} 0.

(** The fields [db.insert] writes itself. *)
Definition stamp_keys : list string :=
  ["id"; "createdAt"; "enrolledAt"; "submittedAt"; "gradedAt"; "uploadedAt"].

(** The fields a join can attach. *)
Definition join_keys : list string :=
  ["teacher"; "student"; "user"; "course"; "assignment"; "submission"].

(** What [db.update] does to a record when the condition is the test [g]. *)
Definition update_if (g : Rec -> bool) (updateData : Rec) (record : Rec) : Rec :=
  if g record then obj_assign record updateData else record.




(** A computation that returns in every state, with a result in [Q]. *)
Definition returns {A : Type} (Q : A -> Prop) (m : M A) : Prop :=
  forall w, exists a w', m w = (Ok a, w') /\ Q a.


(** *** The routes of this development by the middleware they are mounted
    behind *)

Section Routes.

Variable random_id : nat -> string.
Variable clock : nat -> string.
Variable js_lt : JsVal -> JsVal -> bool.
Variable uuid : string -> bool.
Variable to_string : JsVal -> string.
Variable insertCourseSchema_parse : Rec -> Res Rec.

(** Behind [requireRole('teacher')]. *)
Definition teacher_routes (s : Session) (id : string) (req_body : Rec)
    : list Handler :=
  [ post_courses random_id clock insertCourseSchema_parse s req_body;
    get_teacher_courses js_lt s;
    get_course_enrollments js_lt s id;
    post_assignments random_id clock js_lt to_string s req_body;
    post_grades random_id clock js_lt uuid to_string s req_body;
    post_materials random_id clock js_lt s req_body ].

(** Behind [requireRole('student')]. *)
Definition student_routes (s : Session) (req_body : Rec) : list Handler :=
  [ post_enrollments random_id clock js_lt uuid to_string s req_body;
    post_submissions random_id clock js_lt to_string s req_body ].

(** Behind [requireAuth]: the routes above and those open to both roles;
    [destroy_fails] is the outcome of [req.session.destroy] in the logout. *)
Definition session_routes (s : Session) (id : string) (req_body : Rec)
    (destroy_fails : bool) : list Handler :=
  teacher_routes s id req_body ++ student_routes s req_body
  ++ [ get_course js_lt s id;
       post_logout s destroy_fails;
       get_assignment js_lt s id;
       get_course_assignments js_lt s id;
       get_course_discussions js_lt s id;
       post_discussions random_id clock js_lt s req_body;
       get_course_materials js_lt s id;
       get_notifications js_lt s;
       patch_notification_read js_lt s id ].

End Routes.

(** *** Concrete conditions, stores and requests for the examples *)

(** The condition [{ column: 'teacherId', value: 't1' }] and its test. *)
Definition taught_by_t1 : Condition := column_is "teacherId" (VStr "t1").
Definition is_taught_by_t1 (r : Rec) : bool :=
  strict_eq (obj_get "teacherId" r) (VStr "t1").

(** The condition [{ column: 'title', value: 'Intro' }] and its test. *)
Definition titled_intro : Condition := column_is "title" (VStr "Intro").
Definition is_titled_intro (r : Rec) : bool :=
  strict_eq (obj_get "title" r) (VStr "Intro").

(** The compiled condition [{ sql: 'title like $1', params: ['%o%'] }]. *)
Definition title_like_o : Condition := sql_text "title like $1" [VStr "%o%"].

(** A store whose second course has a number as title. *)
Definition numbered_title : list (string * JsVal) :=
  [("id", VStr "c9"); ("title", num_of_Z 7); ("teacherId", VStr "t1")].

Definition school_with_numbered_title : World :=
  world_of (mkMockData demo_users
    [course_row course1 "Intro" "t1"; numbered_title; course_row course2 "Logic" "t2"]
    [] [] [] [] [] [] []).

(** A store with an assignment and an enrollment and no course. *)
Definition school_without_courses : World :=
  world_of (mkMockData demo_users []
    [enrollment_row "e1" "s1" course1]
    [assignment_row "a1" course1 "Essay"]
    [] [] [] [] []).

(** The [auth] message of a connection, as [JSON.parse] returns it. *)
Definition auth_message (user : string) : Rec :=
  [("type", VStr "auth"); ("userId", VStr user)].

(** Identifiers of nine characters, as [generateId] makes them. *)
Definition nine_characters (n : nat) : string := "k3x9q0z1a".

(** A schema that lets every body through. *)
Definition accept_all (req_body : Rec) : Res Rec := Ok req_body.

Definition nobody : Session := mkSession None None.

(** * Properties *)

(** ** The text functions and the fuel of [parseSql] *)

Lemma rev_string_length (s acc : string) :
  String.length (rev_string acc s) = (String.length acc + String.length s)%nat.
Proof.
  revert acc. induction s as [|c s IH]; intros acc; simpl.
  - lia.
  - rewrite IH. simpl. lia.
Qed.

Lemma toLowerCase_length (s : string) :
  String.length (toLowerCase s) = String.length s.
Proof. induction s as [|c s IH]; simpl; congruence. Qed.

(** No part of a split is longer than what was scanned. *)
Lemma str_split_go_bound (sep : string) (s : string) :
  forall skip cur p,
    In p (str_split_go sep skip cur s) ->
    (String.length p <= String.length cur + String.length s)%nat.
Proof.
  induction s as [|c s IH]; intros skip cur p Hin; simpl in Hin.
  - destruct Hin as [<-|[]]. rewrite rev_string_length. simpl. lia.
  - destruct skip as [|k].
    + destruct (starts_with sep (String c s)).
      * destruct Hin as [<-|Hin].
        -- rewrite rev_string_length. simpl. lia.
        -- apply IH in Hin. simpl in *. lia.
      * apply IH in Hin. simpl in *. lia.
    + apply IH in Hin. simpl. lia.
Qed.

Lemma str_includes_cons (sub : string) (c : ascii) (s : string) :
  str_includes sub (String c s)
  = starts_with sub (String c s) || str_includes sub s.
Proof. reflexivity. Qed.

(** When the separator occurs, every part is strictly shorter. *)
Lemma str_split_go_shorter (sep : string) (s : string) :
  sep <> "" ->
  forall cur p,
    str_includes sep s = true ->
    In p (str_split_go sep 0 cur s) ->
    (String.length p < String.length cur + String.length s)%nat.
Proof.
  intros Hsep. induction s as [|c s IH]; intros cur p Hinc Hin.
  - simpl in Hinc. destruct sep; [congruence | discriminate].
  - rewrite str_includes_cons in Hinc.
    cbn [str_split_go] in Hin.
    destruct (starts_with sep (String c s)) eqn:Hst.
    + destruct Hin as [<-|Hin].
      * rewrite rev_string_length. simpl. lia.
      * apply str_split_go_bound in Hin. simpl in *. lia.
    + simpl in Hinc. apply (IH _ _ Hinc) in Hin. simpl in *. lia.
Qed.

Lemma str_split_shorter (sep s p : string) :
  sep <> "" -> str_includes sep s = true -> In p (str_split sep s) ->
  (String.length p < String.length s)%nat.
Proof.
  intros Hsep Hinc Hin. unfold str_split in Hin.
  apply (str_split_go_shorter sep s Hsep "" p Hinc) in Hin. simpl in Hin. lia.
Qed.

Lemma every_ext {A : Type} (f g : A -> Res bool) (l : list A) :
  (forall x, In x l -> f x = g x) -> every f l = every g l.
Proof.
  induction l as [|x l IH]; intros H; simpl; [reflexivity|].
  rewrite (H x) by (left; reflexivity).
  destruct (g x) as [[|]|]; try reflexivity.
  apply IH. intros y Hy. apply H. right. exact Hy.
Qed.

(** Any fuel that reaches the length of the text gives the same outcome:
    the fuel [parseCondition] starts with is never used up. *)
Lemma parseSql_fuel (n : nat) :
  forall m sql params record,
    (String.length sql <= n)%nat -> (String.length sql <= m)%nat ->
    parseSql n sql params record = parseSql m sql params record.
Proof.
  induction n as [|n IH]; intros m sql params record Hn Hm.
  - destruct sql; [|simpl in Hn; lia].
    destruct m; reflexivity.
  - destruct m as [|m].
    + destruct sql; [reflexivity | simpl in Hm; lia].
    + cbn [parseSql].
      destruct (str_includes "= $1" (toLowerCase sql) && (1 <=? length params)%nat);
        [reflexivity|].
      destruct (str_includes " and " (toLowerCase sql)) eqn:Hand; [|reflexivity].
      erewrite every_ext; [reflexivity|].
      intros part Hin. destruct part as [|c part]; [reflexivity|].
      pose proof (str_split_shorter " and " _ _ ltac:(discriminate) Hand Hin) as Hlt.
      rewrite toLowerCase_length in Hlt.
      rewrite (IH m); [reflexivity | lia | lia].
Qed.

(** ** The monad *)

Lemma bind_ok {A B : Type} (m : M A) (k : A -> M B) (w w' : World) (a : A) :
  m w = (Ok a, w') -> bind m k w = k a w'.
Proof. intros H. unfold bind. rewrite H. reflexivity. Qed.

Lemma bind_throw {A B : Type} (m : M A) (k : A -> M B) (w w' : World) (e : Exn) :
  m w = (Throw e, w') -> bind m k w = (Throw e, w').
Proof. intros H. unfold bind. rewrite H. reflexivity. Qed.

Lemma read_only_ret {A : Type} (a : A) : read_only (ret a).
Proof. intros w. reflexivity. Qed.

Lemma read_only_lift {A : Type} (r : Res A) : read_only (lift r).
Proof. intros w. reflexivity. Qed.

Lemma read_only_bind {A B : Type} (m : M A) (k : A -> M B) :
  read_only m -> (forall a, read_only (k a)) -> read_only (bind m k).
Proof.
  intros Hm Hk w. unfold bind. specialize (Hm w).
  destruct (m w) as [[a|e] w']; simpl in Hm; subst w'.
  - apply Hk.
  - reflexivity.
Qed.

Lemma read_only_read_table (t : TableName) : read_only (read_table t).
Proof. intros w. reflexivity. Qed.

Create HintDb read_only.

#[local] Hint Resolve read_only_ret read_only_lift read_only_read_table : read_only.

(** ** Queries only read *)

Section Queries.

Variable js_lt : JsVal -> JsVal -> bool.

(** A new query holds a JSON copy of its table. *)
Lemma newMockQuery_copies fields table (w : World) :
  exists q,
    select_from fields table w = (Ok q, w)
    /\ data q = map cloneRec (rows_of (mockData w) table).
Proof. eexists. split; reflexivity. Qed.

Lemma read_only_select_from fields table : read_only (select_from fields table).
Proof.
  unfold select_from, newMockQuery.
  apply read_only_bind; auto with read_only.
Qed.

Lemma read_only_where (condition : Condition) (q : MockQuery) :
  read_only (where_ condition q).
Proof.
  destruct condition; simpl; auto with read_only;
    apply read_only_bind; auto with read_only.
Qed.

Lemma read_only_apply_ops (ops : list QueryOp) :
  forall q, read_only (apply_ops ops q).
Proof.
  induction ops as [|op ops IH]; intros q; simpl.
  - apply read_only_ret.
  - destruct op; auto.
    apply read_only_bind; [apply read_only_where | auto].
Qed.

Lemma read_only_performJoin leftData t c : read_only (performJoin leftData t c).
Proof.
  unfold performJoin. apply read_only_bind; auto with read_only.
Qed.

Lemma read_only_apply_joins js : forall result, read_only (apply_joins js result).
Proof.
  induction js as [|[t c] js IH]; intros result; simpl.
  - apply read_only_ret.
  - apply read_only_bind; [apply read_only_performJoin | auto].
Qed.

Lemma read_only_then (q : MockQuery) : read_only (then_ js_lt q).
Proof.
  unfold then_. apply read_only_bind; [apply read_only_apply_joins|].
  intros a. apply read_only_ret.
Qed.

(** C9 (confirmed).  Every select query leaves the state unchanged: for
    every table, field selection and chain of [where], [leftJoin],
    [orderBy] and [limit] calls, awaiting the query returns (or throws) in
    the state it started from; no record of [mockData] is touched. *)
Theorem C9_select_leaves_store_unchanged :
  forall (fields : option (list (string * FieldSel))) (table : TableName)
         (ops : list QueryOp) (w : World),
    snd (run_select js_lt fields table ops w) = w.
Proof.
  intros fields table ops. unfold run_select.
  apply read_only_bind; [apply read_only_select_from|].
  intros q. apply read_only_bind; [apply read_only_apply_ops|].
  intros q'. apply read_only_then.
Qed.

End Queries.

(** ** The store behind the handlers *)

Section Store.

Variable random_id : nat -> string.
Variable clock : nat -> string.
Variable js_lt : JsVal -> JsVal -> bool.
Variable uuid : string -> bool.
Variable to_string : JsVal -> string.

(** *** What [where] does with the conditions of the handlers *)

(** An [SQL] object has none of the properties [parseCondition] reads:
    the condition holds of every record. *)
Lemma parseCondition_sql_object (q : SQL) (record : Rec) :
  parseCondition (CSQL q) record = Ok true.
Proof. reflexivity. Qed.

Lemma filter_res_all {A : Type} (f : A -> Res bool) (l : list A) :
  (forall x, f x = Ok true) -> filter_res f l = Ok l.
Proof.
  intros H. induction l as [|x l IH]; simpl; [reflexivity|].
  rewrite H, IH. reflexivity.
Qed.

(** So a [where] given an [SQL] object keeps every row of the query. *)
Lemma where_sql_object_keeps_all (q0 : SQL) (q : MockQuery) (w : World) :
  exists q',
    where_ (CSQL q0) q w = (Ok q', w)
    /\ data q' = data q /\ joins q' = joins q
    /\ limitCount q' = limitCount q /\ orderByFields q' = orderByFields q.
Proof.
  unfold where_, bind, lift, ret.
  rewrite filter_res_all by (intros; reflexivity).
  eexists. split; [reflexivity|]. repeat split.
Qed.

(** And an update whose condition is an [SQL] object changes every record
    of the table. *)
Lemma update_records_sql_object (updateData : Rec) (q0 : SQL) (records : list Rec) :
  update_records updateData (CSQL q0) records
  = (map (fun record => obj_assign record updateData) records,
     Ok (length records)).
Proof.
  induction records as [|record rest IH]; [reflexivity|].
  cbn [update_records parseCondition]. rewrite IH. reflexivity.
Qed.

Lemma select_where_eq_all (table : TableName) (column : Column) (value : JsVal)
    (w : World) :
  select_where_eq js_lt table column value w
  = (Ok (map cloneRec (rows_of (mockData w) table)), w).
Proof.
  unfold select_where_eq, select_from, newMockQuery, where_.
  unfold bind, read_table, ret, lift. cbn [data].
  rewrite filter_res_all by (intros; reflexivity).
  reflexivity.
Qed.

Lemma enrollmentCheck_all (courseId userId : JsVal) (w : World) :
  enrollmentCheck js_lt courseId userId w
  = (Ok (firstn 1 (map cloneRec (md_enrollments (mockData w)))), w).
Proof.
  unfold enrollmentCheck, select_from, newMockQuery.
  unfold bind, read_table, ret, lift. cbn.
  rewrite filter_res_all by (intros; reflexivity).
  reflexivity.
Qed.

(** The access check finds a row exactly when the enrollments table is not
    empty, whatever course and user it is asked about. *)
Lemma enrollmentCheck_nonempty_iff (courseId userId : JsVal) (w : World) :
  exists rows,
    enrollmentCheck js_lt courseId userId w = (Ok rows, w)
    /\ ((0 <? length rows)%nat = true <-> md_enrollments (mockData w) <> []).
Proof.
  eexists. split; [apply enrollmentCheck_all|].
  destruct (md_enrollments (mockData w)); simpl; split; intros H;
    first [discriminate | congruence | reflexivity].
Qed.

Lemma getCourse_all (id : JsVal) (w : World) :
  getCourse js_lt id w
  = (Ok (first_row (map cloneRec (md_courses (mockData w)))), w).
Proof.
  unfold getCourse. erewrite bind_ok by apply select_where_eq_all. reflexivity.
Qed.

Lemma getAssignment_all (id : JsVal) (w : World) :
  getAssignment js_lt id w
  = (Ok (first_row (map cloneRec (md_assignments (mockData w)))), w).
Proof.
  unfold getAssignment. erewrite bind_ok by apply select_where_eq_all. reflexivity.
Qed.

Lemma getSubmission_all (id : JsVal) (w : World) :
  getSubmission js_lt id w
  = (Ok (first_row (map cloneRec (md_submissions (mockData w)))), w).
Proof.
  unfold getSubmission. erewrite bind_ok by apply select_where_eq_all. reflexivity.
Qed.


(** *** Inserting *)

Lemma rows_of_with_table (t : TableName) (l : list Rec) (m : MockData) :
  t <> unknown -> rows_of (with_table t l m) t = l.
Proof. intros H. destruct m, t; try reflexivity. congruence. Qed.

Lemma rows_of_with_table_other (t t' : TableName) (l : list Rec) (m : MockData) :
  t <> t' -> rows_of (with_table t l m) t' = rows_of m t'.
Proof. intros H. destruct m, t, t'; try reflexivity; congruence. Qed.

(** [db.insert] appends one record to its table and nothing else. *)
Lemma db_insert_spec (table : TableName) (values : Rec) (w : World) :
  table <> unknown ->
  db_insert random_id clock table values w
  = (Ok [newRecord table values (clock (calls w)) (random_id (S (calls w)))],
     mkWorld
       (with_table table
          (rows_of (mockData w) table
             ++ [newRecord table values (clock (calls w)) (random_id (S (calls w)))])
          (mockData w))
       (clients w) (sockets w) (S (S (calls w)))).
Proof.
  intros H. unfold db_insert, bind, now_iso, generateId, push_record, ret, tick.
  cbn [calls mockData clients sockets].
  destruct table; try congruence; reflexivity.
Qed.

(** A push never touches [mockData]. *)
Lemma broadcastNotification_store (user : JsVal) (n : option Rec) (w : World) :
  exists w',
    broadcastNotification user n w = (Ok tt, w')
    /\ mockData w' = mockData w /\ calls w' = calls w.
Proof.
  unfold broadcastNotification.
  destruct user; try (eexists; split; [reflexivity | split; reflexivity]).
  destruct (clients w !! s) as [ref|];
    [|eexists; split; [reflexivity | split; reflexivity]].
  destruct (sockets w !! ref) as [[[] out]|];
    eexists; (split; [reflexivity | split; reflexivity]).
Qed.

(** Without a connection that is open, the push does nothing at all. *)
Lemma broadcastNotification_dropped (u : string) (n : option Rec) (w : World) :
  no_open_connection u w ->
  broadcastNotification (VStr u) n w = (Ok tt, w).
Proof.
  unfold no_open_connection, broadcastNotification.
  destruct (clients w !! u) as [ref|]; [|reflexivity].
  destruct (sockets w !! ref) as [[[] out]|]; simpl; intros H;
    try reflexivity.
  congruence.
Qed.

(** [notify] always persists the notification; the push may reach a
    socket, never the store. *)
Lemma notify_spec (user : JsVal) (type content : string) (w : World) :
  exists w',
    notify random_id clock user type content w = (Ok tt, w')
    /\ mockData w'
       = with_table notifications
           (md_notifications (mockData w)
              ++ [newRecord notifications (notification_values user type content)
                    (clock (calls w)) (random_id (S (calls w)))])
           (mockData w).
Proof.
  unfold notify, createNotification.
  set (vals := notification_values user type content).
  pose proof (db_insert_spec notifications vals w ltac:(discriminate)) as Hins.
  match type of Hins with _ = (_, ?w1) =>
    destruct (broadcastNotification_store user
                (Some (newRecord notifications vals (clock (calls w))
                         (random_id (S (calls w))))) w1) as (w' & Hb & Hm & _)
  end.
  exists w'. split.
  - erewrite bind_ok; [exact Hb|].
    erewrite bind_ok by exact Hins. reflexivity.
  - rewrite Hm. reflexivity.
Qed.


(** *** What a handler can answer *)

Lemma answers_ret (P : Response -> Prop) (r : Response) : P r -> answers P (ret r).
Proof. intros H w. exact H. Qed.

Lemma answers_bind {A : Type} (P : Response -> Prop) (m : M A) (k : A -> M Response) :
  (forall a, answers P (k a)) -> answers P (bind m k).
Proof.
  intros H w. unfold bind. destruct (m w) as [[a|e] w']; [apply H | exact I].
Qed.

Lemma try_catch_answers (P : Response -> Prop) (m : M Response) (w : World) :
  answers P m -> (forall text, P (message 500 text)) -> P (fst (try_catch m w)).
Proof.
  intros Hm H500. unfold try_catch. specialize (Hm w).
  destruct (m w) as [[r|e] w']; simpl in *; auto.
Qed.

Lemma get_course_enrollments_not_404 (s : Session) (id : string) (w : World) :
  not_404 (fst (get_course_enrollments js_lt s id w)).
Proof.
  unfold get_course_enrollments, requireAuth, requireRole.
  destruct (negb (truthy (session_userId s))); [discriminate|].
  destruct (_ || _); [discriminate|].
  apply try_catch_answers; [|discriminate].
  apply answers_bind. intros [c|]; [|apply answers_ret; discriminate].
  destruct (negb _); [apply answers_ret; discriminate|].
  apply answers_bind. intros l. apply answers_bind. intros l'.
  apply answers_ret. discriminate.
Qed.

Lemma post_assignments_not_404 (s : Session) (req_body : Rec) (w : World) :
  not_404 (fst (post_assignments random_id clock js_lt to_string s req_body w)).
Proof.
  unfold post_assignments, requireAuth, requireRole.
  destruct (negb (truthy (session_userId s))); [discriminate|].
  destruct (_ || _); [discriminate|].
  apply try_catch_answers; [|discriminate].
  apply answers_bind. intros [c|]; [|apply answers_ret; discriminate].
  destruct (negb _); [apply answers_ret; discriminate|].
  do 3 (apply answers_bind; intros ?).
  apply answers_ret. discriminate.
Qed.

Lemma post_materials_not_404 (s : Session) (req_body : Rec) (w : World) :
  not_404 (fst (post_materials random_id clock js_lt s req_body w)).
Proof.
  unfold post_materials, requireAuth, requireRole.
  destruct (negb (truthy (session_userId s))); [discriminate|].
  destruct (_ || _); [discriminate|].
  apply try_catch_answers; [|discriminate].
  apply answers_bind. intros [c|]; [|apply answers_ret; discriminate].
  destruct (negb _); [apply answers_ret; discriminate|].
  apply answers_bind; intros ?.
  apply answers_ret. discriminate.
Qed.

Lemma teacher_passes (s : Session) (next : Handler) :
  truthy (session_userId s) = true -> is_role s "teacher" = true ->
  requireAuth s (requireRole "teacher" s next) = next.
Proof.
  intros Ha Hr. unfold requireAuth, requireRole. unfold is_role in Hr.
  rewrite Ha, Hr. reflexivity.
Qed.

(** C4 (corrected).  In the enrollment listing of a course, in assignment
    creation and in material creation, a course lookup that returns no
    record is answered 403, with the message of a failed ownership check and
    without any write; the absence is decided in that same guard, before the
    owner is compared.  None of the three handlers ever answers 404. *)
Theorem C4_missing_course_is_forbidden :
  forall (s : Session) (id : string) (req_body : Rec) (w : World),
    truthy (session_userId s) = true ->
    is_role s "teacher" = true ->
    (fst (getCourse js_lt (VStr id) w) = Ok None ->
     get_course_enrollments js_lt s id w
     = (message 403 "You don't have permission to view these enrollments", w))
    /\ (fst (getCourse js_lt (obj_get "courseId" req_body) w) = Ok None ->
        post_assignments random_id clock js_lt to_string s req_body w
        = (message 403
             "You don't have permission to create assignments for this course", w)
        /\ post_materials random_id clock js_lt s req_body w
           = (message 403
                "You don't have permission to add materials to this course", w))
    /\ not_404 (fst (get_course_enrollments js_lt s id w))
    /\ not_404 (fst (post_assignments random_id clock js_lt to_string s req_body w))
    /\ not_404 (fst (post_materials random_id clock js_lt s req_body w)).
Proof.
  intros s id req_body w Hauth Hrole.
  split; [|split; [|split; [|split]]].
  - intros Hnone. rewrite getCourse_all in Hnone. simpl in Hnone.
    unfold get_course_enrollments. rewrite teacher_passes by assumption.
    unfold try_catch. erewrite bind_ok by apply getCourse_all.
    injection Hnone as ->. reflexivity.
  - intros Hnone. rewrite getCourse_all in Hnone. simpl in Hnone.
    injection Hnone as Hnone.
    unfold post_assignments, post_materials.
    rewrite !teacher_passes by assumption.
    unfold try_catch. erewrite !bind_ok by apply getCourse_all.
    rewrite Hnone. split; reflexivity.
  - apply get_course_enrollments_not_404.
  - apply post_assignments_not_404.
  - apply post_materials_not_404.
Qed.


(** *** Listing notifications *)

Lemma in_sort_insert (cmp : Rec -> Rec -> Z) (x y : Rec) (l : list Rec) :
  In y (sort_insert cmp x l) <-> y = x \/ In y l.
Proof.
  induction l as [|z l IH]; simpl.
  - intuition congruence.
  - destruct (0 <? cmp x z)%Z; simpl; rewrite ?IH; intuition congruence.
Qed.

(** Sorting keeps exactly the elements it was given. *)
Lemma in_array_sort (cmp : Rec -> Rec -> Z) (y : Rec) (l : list Rec) :
  In y (array_sort cmp l) <-> In y l.
Proof.
  unfold array_sort. induction l as [|x l IH]; simpl; [reflexivity|].
  rewrite in_sort_insert, IH. intuition congruence.
Qed.

Lemma getNotificationsByUser_all (user : JsVal) (w : World) :
  getNotificationsByUser js_lt user w
  = (Ok (array_sort (compare_records js_lt [(POther, asc)])
           (map cloneRec (md_notifications (mockData w)))), w).
Proof.
  unfold getNotificationsByUser, select_from, newMockQuery.
  unfold bind, read_table, ret, lift. cbn.
  rewrite filter_res_all by (intros; reflexivity).
  reflexivity.
Qed.

Lemma md_notifications_with_table (l : list Rec) (m : MockData) :
  md_notifications (with_table notifications l m) = l.
Proof. destruct m. reflexivity. Qed.

(** C6 (confirmed).  A notification created for user [u] while [u] has no
    registered connection, or a registered one that is not open, is
    persisted; the push that follows changes nothing, neither the store nor
    a socket; and the listing [u] then asks for answers 200 with that
    notification in it, [isRead] being [false]. *)
Theorem C6_notification_durable :
  forall (w : World) (u type content : string) (role : option string),
    u <> "" ->
    no_open_connection u w ->
    exists (n : Rec) (w1 : World),
      createNotification random_id clock
        (notification_values (VStr u) type content) w = (Ok (Some n), w1)
      /\ broadcastNotification (VStr u) (Some n) w1 = (Ok tt, w1)
      /\ notify random_id clock (VStr u) type content w = (Ok tt, w1)
      /\ In n (md_notifications (mockData w1))
      /\ obj_get "userId" n = VStr u
      /\ obj_get "type" n = VStr type
      /\ obj_get "content" n = VStr content
      /\ obj_get "isRead" n = VBool false
      /\ exists listing,
           get_notifications js_lt (mkSession (Some u) role) w1
           = (json (VArr listing), w1)
           /\ In (VObj n) listing.
Proof.
  intros w u type content role Hu Hconn.
  pose proof (db_insert_spec notifications
                (notification_values (VStr u) type content) w
                ltac:(discriminate)) as Hins.
  set (n := newRecord notifications (notification_values (VStr u) type content)
              (clock (calls w)) (random_id (S (calls w)))) in *.
  match type of Hins with _ = (_, ?w') => set (w1 := w') in * end.
  assert (Hcreate : createNotification random_id clock
                      (notification_values (VStr u) type content) w
                    = (Ok (Some n), w1)).
  { unfold createNotification. erewrite bind_ok by exact Hins. reflexivity. }
  assert (Hpush : broadcastNotification (VStr u) (Some n) w1 = (Ok tt, w1)).
  { apply broadcastNotification_dropped. exact Hconn. }
  assert (Hin : In n (md_notifications (mockData w1))).
  { subst w1. cbn [mockData]. rewrite md_notifications_with_table.
    apply in_or_app. right. left. reflexivity. }
  exists n, w1.
  split; [exact Hcreate|]. split; [exact Hpush|].
  split; [unfold notify; erewrite bind_ok by exact Hcreate; exact Hpush|].
  split; [exact Hin|].
  do 4 (split; [reflexivity|]).
  - eexists. split.
    + unfold get_notifications, requireAuth. cbn [session_userId userId truthy].
      destruct (String.eqb_spec u ""); [contradiction|]. cbn [negb].
      unfold try_catch. erewrite bind_ok by apply getNotificationsByUser_all.
      reflexivity.
    + apply in_map. apply in_array_sort.
      change n with (cloneRec n). apply in_map. exact Hin.
Qed.


(** *** Grading *)

Lemma select_where_limit_bind {B : Type} (table : TableName) (q0 : SQL) (n : nat)
    (k : list Rec -> M B) (w : World) :
  bind (select_from None table)
    (fun q => bind (where_ (CSQL q0) q)
                (fun q' => bind (then_ js_lt (limit (S n) q')) k)) w
  = k (firstn (S n) (map cloneRec (rows_of (mockData w) table))) w.
Proof.
  unfold select_from, newMockQuery, where_.
  unfold bind, read_table, ret, lift. cbn [data].
  rewrite filter_res_all by (intros; reflexivity).
  reflexivity.
Qed.

Lemma gradeSchema_parse_cases (req_body : Rec) :
  (grade_fields_valid uuid req_body = true
   /\ exists validatedData, gradeSchema_parse uuid req_body = ret validatedData)
  \/ (grade_fields_valid uuid req_body = false
      /\ exists issues,
           gradeSchema_parse uuid req_body = throw (ZodError issues)
           /\ (valid_grade (obj_get "grade" req_body) = false -> In "grade" issues)).
Proof.
  unfold grade_fields_valid, gradeSchema_parse.
  destruct (valid_submissionId uuid _), (valid_grade _), (valid_feedback _);
    cbn [andb app];
    first [ left; split; [reflexivity | eexists; reflexivity]
          | right; split; [reflexivity|];
            eexists; split; [reflexivity|]; intros H;
            first [discriminate H | cbn; tauto] ].
Qed.

Lemma firstn_1_map_nil {A B : Type} (f : A -> B) (l : list A) :
  (0 <? length (firstn 1 (map f l)))%nat = false -> l = [].
Proof. destruct l; [reflexivity | discriminate]. Qed.

Lemma md_grades_after_notify (l g : list Rec) (m : MockData) :
  md_grades (with_table notifications l (with_table grades g m)) = g.
Proof. destruct m. reflexivity. Qed.

Lemma tables_after_grading (l g : list Rec) (m : MockData) :
  let m' := with_table notifications l (with_table grades g m) in
  md_submissions m' = md_submissions m
  /\ md_assignments m' = md_assignments m
  /\ md_courses m' = md_courses m.
Proof. destruct m. repeat split. Qed.

(** [POST /api/grades] either changes nothing and does not answer 200, or
    passes every check, finds the grades table empty and adds one row. *)
Lemma post_grades_cases (s : Session) (req_body : Rec) (w : World) :
  (snd (post_grades random_id clock js_lt uuid to_string s req_body w) = w
   /\ status (fst (post_grades random_id clock js_lt uuid to_string s req_body w))
      <> 200%nat)
  \/ (exists sub a c g w1,
        post_grades random_id clock js_lt uuid to_string s req_body w
        = (json (VObj g), w1)
        /\ truthy (session_userId s) = true
        /\ is_role s "teacher" = true
        /\ grade_fields_valid uuid req_body = true
        /\ first_row (map cloneRec (md_submissions (mockData w))) = Some sub
        /\ first_row (map cloneRec (md_assignments (mockData w))) = Some a
        /\ first_row (map cloneRec (md_courses (mockData w))) = Some c
        /\ strict_eq (obj_get "teacherId" c) (session_userId s) = true
        /\ md_grades (mockData w) = []
        /\ md_grades (mockData w1) = [g]
        /\ md_submissions (mockData w1) = md_submissions (mockData w)
        /\ md_assignments (mockData w1) = md_assignments (mockData w)
        /\ md_courses (mockData w1) = md_courses (mockData w)).
Proof.
  unfold post_grades, requireAuth, requireRole. fold (is_role s "teacher").
  destruct (truthy (session_userId s)) eqn:Hauth; cbn [negb orb];
    [|left; split; [reflexivity | discriminate]].
  destruct (is_role s "teacher") eqn:Hrole; cbn [negb];
    [|left; split; [reflexivity | discriminate]].
  unfold try_catch_zod.
  destruct (gradeSchema_parse_cases req_body)
    as [(Hvalid & validatedData & Hparse) | (Hvalid & issues & Hparse & _)].
  2:{ erewrite bind_throw by (rewrite Hparse; reflexivity).
      left; split; [reflexivity | discriminate]. }
  erewrite bind_ok by (rewrite Hparse; reflexivity).
  erewrite bind_ok by apply getSubmission_all.
  destruct (first_row (map cloneRec (md_submissions (mockData w))))
    as [sub|] eqn:Hsub; [|left; split; [reflexivity | discriminate]].
  erewrite bind_ok by apply getAssignment_all.
  destruct (first_row (map cloneRec (md_assignments (mockData w))))
    as [a|] eqn:Ha; [|left; split; [reflexivity | discriminate]].
  erewrite bind_ok by apply getCourse_all.
  destruct (first_row (map cloneRec (md_courses (mockData w))))
    as [c|] eqn:Hc; [|left; split; [reflexivity | discriminate]].
  destruct (strict_eq (obj_get "teacherId" c) (session_userId s)) eqn:Hown;
    cbn [negb]; [|left; split; [reflexivity | discriminate]].
  rewrite select_where_limit_bind. cbn [rows_of table_of].
  destruct (0 <? length (firstn 1 (map cloneRec (md_grades (mockData w)))))%nat
    eqn:Hgraded; [left; split; [reflexivity | discriminate]|].
  apply firstn_1_map_nil in Hgraded.
  unfold createGrade.
  erewrite bind_ok;
    [|erewrite bind_ok by (apply db_insert_spec; discriminate); reflexivity].
  cbn [first_row hd_error field].
  erewrite bind_ok by reflexivity.
  match goal with
  | |- context [bind (notify _ _ ?u ?t ?c) _ ?w0] =>
      destruct (notify_spec u t c w0) as (w1 & Hnotify & Hstore)
  end.
  erewrite bind_ok by exact Hnotify.
  right. do 5 eexists.
  split; [reflexivity|].
  repeat (split; [first [assumption | reflexivity]|]).
  cbn [mockData calls] in Hstore. rewrite Hstore.
  rewrite md_grades_after_notify. cbn [rows_of table_of]. rewrite Hgraded.
  split; [reflexivity|]. apply tables_after_grading.
Qed.


Lemma grade_rows_le_1 (w : World) (g : Rec) (sub : JsVal) :
  md_grades (mockData w) = [g] -> (grade_rows w sub <= 1)%nat.
Proof.
  intros H. unfold grade_rows. rewrite H. cbn [List.filter].
  destruct (strict_eq _ _); simpl; lia.
Qed.

(** C8 (confirmed).  For a teacher's request to [POST /api/grades]:
    a grade that is not an integer of [0, 100] is answered 400
    "Validation error" and the state is left as it was; once a request has
    created a grade, a further attempt on the same submission with a valid
    grade is answered 400 "This submission has already been graded" and
    inserts nothing; and a store with at most one Grade row per submission
    still has at most one after any request. *)
Theorem C8_grade_once_and_validated :
  forall (s : Session) (req_body : Rec) (w : World),
    truthy (session_userId s) = true ->
    is_role s "teacher" = true ->
    (valid_grade (obj_get "grade" req_body) = false ->
     exists issues,
       post_grades random_id clock js_lt uuid to_string s req_body w
       = (mkResponse 400
            (VObj (obj [("message", VStr "Validation error");
                        ("errors", VArr (map VStr issues))])), w)
       /\ In "grade" issues)
    /\ (forall r1 w1,
          post_grades random_id clock js_lt uuid to_string s req_body w = (r1, w1) ->
          status r1 = 200%nat ->
          forall req_body2,
            obj_get "submissionId" req_body2 = obj_get "submissionId" req_body ->
            valid_grade (obj_get "grade" req_body2) = true ->
            valid_feedback (obj_get "feedback" req_body2) = true ->
            post_grades random_id clock js_lt uuid to_string s req_body2 w1
            = (message 400 "This submission has already been graded", w1))
    /\ ((forall sub, (grade_rows w sub <= 1)%nat) ->
        forall sub,
          (grade_rows
             (snd (post_grades random_id clock js_lt uuid to_string s req_body w))
             sub <= 1)%nat).
Proof.
  intros s req_body w Hauth Hrole. split; [|split].
  - intros Hbad.
    destruct (gradeSchema_parse_cases req_body)
      as [(Hvalid & _) | (_ & issues & Hparse & Hin)].
    { unfold grade_fields_valid in Hvalid. rewrite Hbad in Hvalid.
      rewrite andb_false_r in Hvalid. discriminate. }
    exists issues. split; [|auto].
    unfold post_grades. rewrite teacher_passes by assumption.
    unfold try_catch_zod.
    erewrite bind_throw by (rewrite Hparse; reflexivity). reflexivity.
  - intros r1 w1 Hfirst H200 req_body2 Hsame Hgrade Hfeedback.
    destruct (post_grades_cases s req_body w)
      as [(_ & Hnot) | (sub & a & c & g & w1' & Hrun & _ & _ & Hvalid & Hsub & Ha & Hc
                          & Hown & _ & Hg & Hsubs & Has & Hcs)].
    { rewrite Hfirst in Hnot. simpl in Hnot. contradiction. }
    rewrite Hfirst in Hrun. injection Hrun as _ <-.
    destruct (gradeSchema_parse_cases req_body2)
      as [(_ & validatedData & Hparse) | (Hbad & _)].
    2:{ unfold grade_fields_valid in *. rewrite Hsame, Hgrade, Hfeedback in Hbad.
        apply andb_prop in Hvalid as [Hvalid _]. apply andb_prop in Hvalid as [Hvalid _].
        rewrite Hvalid in Hbad. discriminate. }
    unfold post_grades. rewrite teacher_passes by assumption.
    unfold try_catch_zod.
    erewrite bind_ok by (rewrite Hparse; reflexivity).
    erewrite bind_ok by apply getSubmission_all. rewrite Hsubs, Hsub.
    erewrite bind_ok by apply getAssignment_all. rewrite Has, Ha.
    erewrite bind_ok by apply getCourse_all. rewrite Hcs, Hc.
    rewrite Hown. cbn [negb].
    rewrite select_where_limit_bind. cbn [rows_of table_of]. rewrite Hg.
    reflexivity.
  - intros Hinv sub.
    destruct (post_grades_cases s req_body w)
      as [(Hsame & _) | (_ & _ & _ & g & w1 & Hrun & _ & _ & _ & _ & _ & _ & _ & _ & Hg & _)].
    + rewrite Hsame. apply Hinv.
    + rewrite Hrun. cbn [snd]. eapply grade_rows_le_1. exact Hg.
Qed.

End Store.

(** ** Submissions are not kept unique *)

Section Submissions.

Variable random_id : nat -> string.
Variable clock : nat -> string.
Variable js_lt : JsVal -> JsVal -> bool.
Variable to_string : JsVal -> string.

Lemma student_passes (s : Session) (next : Handler) :
  truthy (session_userId s) = true -> is_role s "student" = true ->
  requireAuth s (requireRole "student" s next) = next.
Proof.
  intros Ha Hr. unfold requireAuth, requireRole. unfold is_role in Hr.
  rewrite Ha, Hr. reflexivity.
Qed.

Lemma tables_after_submitting (l sub : list Rec) (m : MockData) :
  let m' := with_table notifications l (with_table submissions sub m) in
  md_submissions m' = sub
  /\ md_assignments m' = md_assignments m
  /\ md_enrollments m' = md_enrollments m
  /\ md_courses m' = md_courses m.
Proof. destruct m. repeat split. Qed.

(** When the session is a student's, an assignment and a course are found
    and the enrollments table is not empty, the submission is stored. *)
Lemma post_submissions_accepted (s : Session) (req_body : Rec) (w : World)
    (a c : Rec) :
  truthy (session_userId s) = true ->
  is_role s "student" = true ->
  first_row (map cloneRec (md_assignments (mockData w))) = Some a ->
  md_enrollments (mockData w) <> [] ->
  first_row (map cloneRec (md_courses (mockData w))) = Some c ->
  exists w1,
    post_submissions random_id clock js_lt to_string s req_body w
    = (json (VObj (submitted random_id clock s req_body w)), w1)
    /\ md_submissions (mockData w1)
       = md_submissions (mockData w) ++ [submitted random_id clock s req_body w]
    /\ md_assignments (mockData w1) = md_assignments (mockData w)
    /\ md_enrollments (mockData w1) = md_enrollments (mockData w)
    /\ md_courses (mockData w1) = md_courses (mockData w).
Proof.
  intros Hauth Hrole Ha Henr Hc.
  unfold post_submissions. rewrite student_passes by assumption.
  unfold try_catch.
  erewrite bind_ok by apply getAssignment_all. rewrite Ha.
  erewrite bind_ok by apply enrollmentCheck_all.
  assert (Hlen : (length (firstn 1 (map cloneRec (md_enrollments (mockData w))))
                  =? 0)%nat = false)
    by (destruct (md_enrollments (mockData w)); [congruence | reflexivity]).
  rewrite Hlen.
  unfold createSubmission.
  erewrite bind_ok;
    [|erewrite bind_ok by (apply db_insert_spec; discriminate); reflexivity].
  erewrite bind_ok by apply getCourse_all.
  cbn [mockData]. 
  match goal with
  | |- context [md_courses (with_table submissions ?l ?m)] =>
      replace (md_courses (with_table submissions l m)) with (md_courses m)
        by (destruct m; reflexivity)
  end.
  rewrite Hc. cbn [field]. erewrite bind_ok by reflexivity.
  match goal with
  | |- context [bind (notify _ _ ?u ?t ?x) _ ?w0] =>
      destruct (notify_spec random_id clock u t x w0) as (w1 & Hnotify & Hstore)
  end.
  erewrite bind_ok by exact Hnotify.
  exists w1. split; [reflexivity|].
  cbn [mockData calls] in Hstore. rewrite Hstore.
  cbn [rows_of table_of]. apply tables_after_submitting.
Qed.

(** A request that was answered 200 met these conditions. *)
Lemma post_submissions_200 (s : Session) (req_body : Rec) (w : World) :
  status (fst (post_submissions random_id clock js_lt to_string s req_body w))
  = 200%nat ->
  truthy (session_userId s) = true
  /\ is_role s "student" = true
  /\ (exists a, first_row (map cloneRec (md_assignments (mockData w))) = Some a)
  /\ md_enrollments (mockData w) <> []
  /\ (exists c, first_row (map cloneRec (md_courses (mockData w))) = Some c).
Proof.
  unfold post_submissions, requireAuth, requireRole. fold (is_role s "student").
  destruct (truthy (session_userId s)) eqn:Hauth; cbn [negb orb];
    [|discriminate].
  destruct (is_role s "student") eqn:Hrole; cbn [negb]; [|discriminate].
  unfold try_catch.
  erewrite bind_ok by apply getAssignment_all.
  destruct (first_row (map cloneRec (md_assignments (mockData w))))
    as [a|] eqn:Ha; [|discriminate].
  erewrite bind_ok by apply enrollmentCheck_all.
  destruct (md_enrollments (mockData w)) as [|e es] eqn:He; [discriminate|].
  cbn [map firstn length Nat.eqb].
  unfold createSubmission.
  erewrite bind_ok;
    [|erewrite bind_ok by (apply db_insert_spec; discriminate); reflexivity].
  erewrite bind_ok by apply getCourse_all.
  cbn [mockData].
  match goal with
  | |- context [md_courses (with_table submissions ?l ?m)] =>
      replace (md_courses (with_table submissions l m)) with (md_courses m)
        by (destruct m; reflexivity)
  end.
  destruct (first_row (map cloneRec (md_courses (mockData w))))
    as [c|] eqn:Hc; [|discriminate].
  intros _.
  split; [reflexivity|]. split; [reflexivity|]. split; [eauto|].
  split; [discriminate | eauto].
Qed.


Lemma obj_get_set_other (k k' : string) (v : JsVal) (o : Rec) :
  k <> k' -> obj_get k (obj_set k' v o) = obj_get k o.
Proof.
  intros H. induction o as [|[k0 v0] o IH]; simpl.
  - destruct (String.eqb_spec k k'); [contradiction | reflexivity].
  - destruct (String.eqb_spec k' k0) as [->|Hne]; simpl.
    + destruct (String.eqb_spec k k0); [contradiction | reflexivity].
    + destruct (String.eqb_spec k k0); [reflexivity | exact IH].
Qed.

Lemma submitted_fields (s : Session) (req_body : Rec) (w : World) :
  obj_get "assignmentId" (submitted random_id clock s req_body w) = obj_get "assignmentId" req_body
  /\ obj_get "studentId" (submitted random_id clock s req_body w) = session_userId s.
Proof.
  unfold submitted, newRecord. cbn [TableName_eqb].
  rewrite !obj_get_set_other by discriminate. split; reflexivity.
Qed.

Lemma rows_matching_app (k1 k2 : string) (v1 v2 : JsVal) (l : list Rec) (r : Rec) :
  strict_eq (obj_get k1 r) v1 = true -> strict_eq (obj_get k2 r) v2 = true ->
  length (rows_matching k1 v1 k2 v2 (l ++ [r]))
  = S (length (rows_matching k1 v1 k2 v2 l)).
Proof.
  intros H1 H2. unfold rows_matching. rewrite filter_app, length_app.
  cbn [List.filter]. rewrite H1, H2. simpl. lia.
Qed.

(** Whenever a submission is accepted, the same request is accepted once
    more, and each time a Submission row of that student for that
    assignment is added: nothing keeps the pair unique. *)
Theorem submissions_are_not_unique :
  forall (s : Session) (req_body : Rec) (w : World) (r1 : Response) (w1 : World),
    post_submissions random_id clock js_lt to_string s req_body w = (r1, w1) ->
    status r1 = 200%nat ->
    exists r2 w2,
      post_submissions random_id clock js_lt to_string s req_body w1 = (r2, w2)
      /\ status r2 = 200%nat
      /\ forall a u,
           obj_get "assignmentId" req_body = VStr a -> userId s = Some u ->
           submission_rows w1 a u = S (submission_rows w a u)
           /\ submission_rows w2 a u = S (S (submission_rows w a u)).
Proof.
  intros s req_body w r1 w1 Hfirst H200.
  assert (H : status (fst (post_submissions random_id clock js_lt to_string
                             s req_body w)) = 200%nat)
    by (rewrite Hfirst; exact H200).
  apply post_submissions_200 in H as (Hauth & Hrole & (a0 & Ha) & Henr & (c0 & Hc)).
  destruct (post_submissions_accepted s req_body w a0 c0 Hauth Hrole Ha Henr Hc)
    as (w1' & Hrun & Hsubs & Has & Hes & Hcs).
  rewrite Hfirst in Hrun. injection Hrun as _ <-.
  destruct (post_submissions_accepted s req_body w1 a0 c0 Hauth Hrole)
    as (w2 & Hrun2 & Hsubs2 & _); try congruence.
  exists (json (VObj (submitted random_id clock s req_body w1))), w2.
  split; [exact Hrun2|]. split; [reflexivity|].
  intros a u Hbody Huser. unfold submission_rows.
  rewrite Hsubs2, Hsubs.
  destruct (submitted_fields s req_body w) as (E1 & E2).
  destruct (submitted_fields s req_body w1) as (E3 & E4).
  assert (Hu : session_userId s = VStr u) by (unfold session_userId; rewrite Huser; reflexivity).
  rewrite !rows_matching_app;
    rewrite ?E1, ?E2, ?E3, ?E4, ?Hbody, ?Hu; simpl; rewrite ?String.eqb_refl;
    auto.
Qed.

End Submissions.

(** ** Marking as read *)

Lemma markNotificationAsRead_all (id : JsVal) (w : World) :
  markNotificationAsRead id w
  = (Ok tt,
     set_mockData
       (with_table notifications
          (map (fun record => obj_assign record (obj [("isRead", VBool true)]))
             (md_notifications (mockData w)))
          (mockData w)) w).
Proof.
  unfold markNotificationAsRead, db_update, bind, ret. cbn [table_of].
  rewrite update_records_sql_object. reflexivity.
Qed.

(** ** Conditions as plain objects *)

(** On an object [{ column, value }] the condition is the equality of the
    field. *)
Lemma parseCondition_column_value (c : ascii) (column : string) (v : JsVal)
    (record : Rec) :
  v <> VUndefined ->
  parseCondition (CObj (Some (String c column)) (Some v) None None None None) record
  = Ok (strict_eq (obj_get (String c column) record) v).
Proof. intros H. destruct v; try reflexivity. congruence. Qed.

(** On [{ type: 'and', conditions }] over two such objects, both must
    hold. *)
Lemma parseCondition_and_objects (c1 c2 : ascii) (k1 k2 : string) (v1 v2 : JsVal)
    (record : Rec) :
  v1 <> VUndefined -> v2 <> VUndefined ->
  parseCondition
    (CObj None None None None (Some "and")
       (Some [CObj (Some (String c1 k1)) (Some v1) None None None None;
              CObj (Some (String c2 k2)) (Some v2) None None None None]))
    record
  = Ok (strict_eq (obj_get (String c1 k1) record) v1
        && strict_eq (obj_get (String c2 k2) record) v2).
Proof.
  intros H1 H2.
  pose proof (parseCondition_column_value c1 k1 v1 record H1) as E1.
  pose proof (parseCondition_column_value c2 k2 v2 record H2) as E2.
  cbn [parseCondition] in *. rewrite E1.
  destruct (strict_eq (obj_get (String c1 k1) record) v1); [|reflexivity].
  rewrite E2.
  destruct (strict_eq (obj_get (String c2 k2) record) v2); reflexivity.
Qed.

Lemma filter_res_pure {A : Type} (f : A -> Res bool) (g : A -> bool) (l : list A) :
  (forall x, f x = Ok (g x)) -> filter_res f l = Ok (List.filter g l).
Proof.
  intros H. induction l as [|x l IH]; simpl; [reflexivity|].
  rewrite H, IH. reflexivity.
Qed.

(** Had the access check been given that plain object, [where] would keep
    the rows that carry both values, and only those. *)
Lemma where_and_objects_filters (c1 c2 : ascii) (k1 k2 : string) (v1 v2 : JsVal)
    (q : MockQuery) (w : World) :
  v1 <> VUndefined -> v2 <> VUndefined ->
  exists q',
    where_
      (CObj None None None None (Some "and")
         (Some [CObj (Some (String c1 k1)) (Some v1) None None None None;
                CObj (Some (String c2 k2)) (Some v2) None None None None]))
      q w = (Ok q', w)
    /\ data q' = rows_matching (String c1 k1) v1 (String c2 k2) v2 (data q).
Proof.
  intros H1 H2. unfold where_, bind, lift, ret.
  erewrite filter_res_pure
    by (intros x; apply parseCondition_and_objects; assumption).
  eexists. split; reflexivity.
Qed.

(** On a compiled query [{ sql, params }] the equality branch comes before
    the AND branch: only the first comparison is made, on the lower-cased
    column name. *)
Example parseCondition_sql_text_first_comparison_only :
  parseCondition
    (CObj None None (Some "course_id = $1 and student_id = $2")
       (Some [VStr "c1"; VStr "s1"]) None None)
    [("course_id", VStr "c1"); ("student_id", VStr "someone else")]
  = Ok true.
Proof. reflexivity. Qed.

(** ** The handlers at concrete requests *)

(** C1 (code defect).  In [school], student [s3] has no Enrollment row for
    [course1], yet the course detail and the detail of its assignment [a1]
    are answered 200; teacher [t1] does not own [course2], yet the course
    detail and the enrollment listing of [course2] are answered 200, and an
    assignment and a material are created in it. *)
Theorem C1_access_is_not_scoped :
  enrollment_rows school "s3" course1 = 0%nat
  /\ status (fst (get_course demo_lt student3 course1 school)) = 200%nat
  /\ status (fst (get_assignment demo_lt student3 "a1" school)) = 200%nat
  /\ nth 1 (md_courses (mockData school)) [] = course_row course2 "Logic" "t2"
  /\ status (fst (get_course demo_lt teacher1 course2 school)) = 200%nat
  /\ status (fst (get_course_enrollments demo_lt teacher1 course2 school)) = 200%nat
  /\ (let '(r, w) :=
         post_assignments demo_random_id demo_clock demo_lt demo_to_string teacher1
           [("courseId", VStr course2); ("title", VStr "Quiz")] school in
       status r = 200%nat
       /\ map (obj_get "courseId") (md_assignments (mockData w))
          = [VStr course1; VStr course2])
  /\ (let '(r, w) :=
         post_materials demo_random_id demo_clock demo_lt teacher1
           [("courseId", VStr course2); ("title", VStr "Notes")] school in
       status r = 200%nat
       /\ map (obj_get "courseId") (md_materials (mockData w)) = [VStr course2]).
Proof. vm_compute. repeat split. Qed.

(** C2 (code defect).  In [school], student [s1] is enrolled in the course
    of assignment [a1] and has not submitted; two submissions in a row are
    both answered 200, and the store then holds two Submission rows for
    ([a1], [s1]). *)
Theorem C2_second_submission_is_stored :
  let request := [("assignmentId", VStr "a1"); ("content", VStr "answer")] in
  let '(r1, w1) :=
    post_submissions demo_random_id demo_clock demo_lt demo_to_string student1
      request school in
  let '(r2, w2) :=
    post_submissions demo_random_id demo_clock demo_lt demo_to_string student1
      request w1 in
  submission_rows school "a1" "s1" = 0%nat
  /\ status r1 = 200%nat /\ submission_rows w1 "a1" "s1" = 1%nat
  /\ status r2 = 200%nat /\ submission_rows w2 "a1" "s1" = 2%nat.
Proof. vm_compute. repeat split. Qed.

(** C3 (code defect).  In [school] no Enrollment row has student [s3] and
    none has [course2]; the enrollment check for ([course2], [s3]) still
    yields a row, the first of the table, which matches neither field. *)
Theorem C3_enrollment_check_ignores_user_and_course :
  List.filter (fun r => strict_eq (obj_get "studentId" r) (VStr "s3")
                        || strict_eq (obj_get "courseId" r) (VStr course2))
    (md_enrollments (mockData school)) = []
  /\ fst (enrollmentCheck demo_lt (VStr course2) (VStr "s3") school)
     = Ok [enrollment_row "e1" "s1" course1].
Proof. vm_compute. repeat split. Qed.

(** C4, the claim refuted: with no course in the store the lookup returns
    no record, and the three handlers answer 403, not 404. *)
Lemma C4_missing_course_is_not_404 :
  fst (getCourse demo_lt (VStr course1) empty_world) = Ok None
  /\ status (fst (get_course_enrollments demo_lt teacher1 course1 empty_world))
     = 403%nat
  /\ status (fst (post_assignments demo_random_id demo_clock demo_lt demo_to_string
                    teacher1 [("courseId", VStr course1)] empty_world)) = 403%nat
  /\ status (fst (post_materials demo_random_id demo_clock demo_lt
                    teacher1 [("courseId", VStr course1)] empty_world)) = 403%nat
  /\ 403%nat <> 404%nat.
Proof. vm_compute. repeat split. discriminate. Qed.

Lemma C4_missing_course_is_forbidden_witness :
  truthy (session_userId teacher1) = true
  /\ is_role teacher1 "teacher" = true
  /\ fst (getCourse demo_lt (VStr course1) empty_world) = Ok None
  /\ get_course_enrollments demo_lt teacher1 course1 empty_world
     = (message 403 "You don't have permission to view these enrollments",
        empty_world).
Proof.
  split; [reflexivity|]. split; [reflexivity|]. split; [reflexivity|].
  apply (C4_missing_course_is_forbidden demo_random_id demo_clock demo_lt
           demo_to_string teacher1 course1 [("courseId", VStr course1)]
           empty_world); reflexivity.
Defined.

(** C5 (code defect).  In [school], student [s1] is enrolled in the course
    of assignment [a1]; the detail of [a1] sent to [s1] lists the submission
    of student [s2], and so does the detail sent to student [s3], who is not
    enrolled.  The detail sent to the owner, teacher [t1], attaches to that
    submission the name of the first user of the store, not of its
    student. *)
Theorem C5_student_is_sent_other_submissions :
  enrollment_rows school "s1" course1 = 1%nat
  /\ status (fst (get_assignment demo_lt student1 "a1" school)) = 200%nat
  /\ map (obj_get "studentId")
       (response_submissions (fst (get_assignment demo_lt student1 "a1" school)))
     = [VStr "s2"]
  /\ enrollment_rows school "s3" course1 = 0%nat
  /\ map (obj_get "studentId")
       (response_submissions (fst (get_assignment demo_lt student3 "a1" school)))
     = [VStr "s2"]
  /\ map student_name
       (response_submissions (fst (get_assignment demo_lt teacher1 "a1" school)))
     = [VStr "Teacher One"].
Proof. vm_compute. repeat split. Qed.

Lemma C6_notification_durable_witness :
  "s1" <> ""
  /\ no_open_connection "s1" school_closed_socket
  /\ exists (n : Rec) (w1 : World),
       notify demo_random_id demo_clock (VStr "s1") "Grade" "graded"
         school_closed_socket = (Ok tt, w1)
       /\ obj_get "isRead" n = VBool false
       /\ exists listing,
            get_notifications demo_lt student1 w1 = (json (VArr listing), w1)
            /\ In (VObj n) listing.
Proof.
  assert (H1 : "s1" <> "") by discriminate.
  assert (H2 : no_open_connection "s1" school_closed_socket)
    by (vm_compute; discriminate).
  split; [exact H1|]. split; [exact H2|].
  destruct (C6_notification_durable demo_random_id demo_clock demo_lt
              school_closed_socket "s1" "Grade" "graded" (Some "student") H1 H2)
    as (n & w1 & _ & _ & Hnotify & _ & _ & _ & _ & Hread & listing & Hlist & Hin).
  exists n, w1. split; [exact Hnotify|]. split; [exact Hread|].
  exists listing. split; [exact Hlist | exact Hin].
Defined.

(** C7 (code defect).  In [school], student [s3] has no Enrollment row for
    [course2]; both of two enrollment requests are answered 400 "Already
    enrolled in this course", and no row for ([s3], [course2]) is ever
    stored. *)
Theorem C7_enrollment_refused_without_a_row :
  let request := [("courseId", VStr course2)] in
  let '(r1, w1) :=
    post_enrollments demo_random_id demo_clock demo_lt uuid_shape demo_to_string
      student3 request school in
  let '(r2, w2) :=
    post_enrollments demo_random_id demo_clock demo_lt uuid_shape demo_to_string
      student3 request w1 in
  enrollment_rows school "s3" course2 = 0%nat
  /\ r1 = message 400 "Already enrolled in this course"
  /\ r2 = message 400 "Already enrolled in this course"
  /\ enrollment_rows w2 "s3" course2 = 0%nat.
Proof. vm_compute. repeat split. Qed.

(** When nobody at all is enrolled, the second of two enrollment requests
    is the conflict and one row is stored. *)
Example enrollment_twice_in_new_school :
  let request := [("courseId", VStr course2)] in
  let '(r1, w1) :=
    post_enrollments demo_random_id demo_clock demo_lt uuid_shape demo_to_string
      student3 request new_school in
  let '(r2, w2) :=
    post_enrollments demo_random_id demo_clock demo_lt uuid_shape demo_to_string
      student3 request w1 in
  status r1 = 200%nat
  /\ r2 = message 400 "Already enrolled in this course"
  /\ enrollment_rows w2 "s3" course2 = 1%nat.
Proof. vm_compute. repeat split. Qed.

(** An identifier made by [generateId] has at most nine characters and is
    no UUID: enrolling in a course the store created is a validation
    error. *)
Example enrollment_in_generated_course :
  post_enrollments demo_random_id demo_clock demo_lt uuid_shape demo_to_string
    student3 [("courseId", VStr (demo_random_id 5))] new_school
  = (mkResponse 400
       (VObj [("message", VStr "Validation error");
              ("errors", VArr [VStr "courseId"])]), new_school).
Proof. reflexivity. Qed.

Lemma C8_grade_once_and_validated_witness :
  truthy (session_userId teacher1) = true
  /\ is_role teacher1 "teacher" = true
  /\ (let '(r1, w1) :=
         post_grades demo_random_id demo_clock demo_lt uuid_shape demo_to_string
           teacher1 (grade_request submission2 87) school in
       status r1 = 200%nat
       /\ post_grades demo_random_id demo_clock demo_lt uuid_shape demo_to_string
            teacher1 (grade_request submission2 90) w1
          = (message 400 "This submission has already been graded", w1))
  /\ (exists issues,
        post_grades demo_random_id demo_clock demo_lt uuid_shape demo_to_string
          teacher1 (grade_request submission2 101) school
        = (mkResponse 400
             (VObj (obj [("message", VStr "Validation error");
                         ("errors", VArr (map VStr issues))])), school)
        /\ In "grade" issues).
Proof.
  assert (H1 : truthy (session_userId teacher1) = true) by reflexivity.
  assert (H2 : is_role teacher1 "teacher" = true) by reflexivity.
  split; [exact H1|]. split; [exact H2|]. split.
  - destruct (post_grades demo_random_id demo_clock demo_lt uuid_shape
                demo_to_string teacher1 (grade_request submission2 87) school)
      as [r1 w1] eqn:Hfirst.
    assert (H200 : status r1 = 200%nat).
    { apply (f_equal (fun p => status (fst p))) in Hfirst.
      vm_compute in Hfirst. symmetry. exact Hfirst. }
    split; [exact H200|].
    destruct (C8_grade_once_and_validated demo_random_id demo_clock demo_lt
                uuid_shape demo_to_string teacher1
                (grade_request submission2 87) school H1 H2)
      as (_ & Hsecond & _).
    apply (Hsecond r1 w1 Hfirst H200 (grade_request submission2 90));
      reflexivity.
  - destruct (C8_grade_once_and_validated demo_random_id demo_clock demo_lt
                uuid_shape demo_to_string teacher1
                (grade_request submission2 101) school H1 H2)
      as (Hbad & _ & _).
    apply Hbad. reflexivity.
Defined.

(** C10 (code defect).  In [school], student [s1] marks notification [n1]
    as read: the notification [n2] of student [s2] is marked as well.  The
    same request for [n2], which [s1] does not own, is answered 200 too,
    while its owner [s2] is answered 403. *)
Theorem C10_every_notification_is_marked :
  map (obj_get "isRead") (md_notifications (mockData school))
  = [VBool false; VBool false]
  /\ (let '(r, w) := patch_notification_read demo_lt student1 "n1" school in
       status r = 200%nat
       /\ map (fun n => (obj_get "id" n, obj_get "userId" n, obj_get "isRead" n))
            (md_notifications (mockData w))
          = [(VStr "n1", VStr "s1", VBool true); (VStr "n2", VStr "s2", VBool true)])
  /\ status (fst (patch_notification_read demo_lt student1 "n2" school)) = 200%nat
  /\ status (fst (patch_notification_read demo_lt student2 "n2" school)) = 403%nat.
Proof. vm_compute. repeat split. Qed.

(** ** The store of the module and the identifiers it makes *)

(** In the store the module starts with, the sample student is not enrolled
    in the third course and is sent its detail. *)
Example sample_student_reads_third_course :
  enrollment_rows sample_world "gen1" "gen4" = 0%nat
  /\ status (fst (get_course demo_lt sample_student "gen4" sample_world)) = 200%nat.
Proof. vm_compute. split; reflexivity. Qed.

Lemma uuid_groups_length (s : string) :
  forall groups run,
    uuid_groups groups run s = true ->
    (run + String.length s + 1 = list_sum groups + length groups)%nat.
Proof.
  induction s as [|c s IH]; intros groups run H; simpl in H.
  - destruct groups as [|g [|g' rest]]; try discriminate.
    apply Nat.eqb_eq in H. subst. simpl. lia.
  - destruct (Ascii.eqb c "-").
    + destruct groups as [|g [|g' rest]]; try discriminate.
      apply andb_prop in H as [Hg H]. apply Nat.eqb_eq in Hg. subst.
      apply IH in H. simpl in *. lia.
    + apply andb_prop in H as [_ H]. apply IH in H. simpl in *. lia.
Qed.

(** A string of the UUID shape has 36 characters. *)
Lemma uuid_shape_length (s : string) :
  uuid_shape s = true -> String.length s = 36%nat.
Proof.
  intros H. apply uuid_groups_length in H. simpl in H. lia.
Qed.

(** [generateId] keeps at most nine characters of the random digits: when
    the check behind [uuid()] only accepts strings of 36 characters, a
    request to enroll in a course under an identifier the store made is a
    validation error, whatever the store holds. *)
Lemma enrollment_in_generated_course_invalid
    (random_id clock : nat -> string) (js_lt : JsVal -> JsVal -> bool)
    (uuid : string -> bool) (to_string : JsVal -> string)
    (s : Session) (k : nat) (w : World) :
  (forall x, uuid x = true -> String.length x = 36%nat) ->
  (forall n, (String.length (random_id n) <= 9)%nat) ->
  truthy (session_userId s) = true ->
  is_role s "student" = true ->
  post_enrollments random_id clock js_lt uuid to_string s
    [("courseId", VStr (random_id k))] w
  = (mkResponse 400
       (VObj [("message", VStr "Validation error");
              ("errors", VArr [VStr "courseId"])]), w).
Proof.
  intros Huuid Hlen Hauth Hrole.
  unfold post_enrollments. rewrite student_passes by assumption.
  unfold try_catch_zod, enrollmentSchema_parse, bind.
  change (obj_get "courseId" [("courseId", VStr (random_id k))])
    with (VStr (random_id k)). cbv beta iota.
  destruct (uuid (random_id k)) eqn:Hu.
  - apply Huuid in Hu. specialize (Hlen k). lia.
  - reflexivity.
Qed.

(** * More properties: the rest of the mock database and of the routes *)

(** ** Objects *)

Lemma obj_get_set_same (k : string) (v : JsVal) (o : Rec) :
  obj_get k (obj_set k v o) = v.
Proof.
  induction o as [|[k0 v0] o IH]; simpl.
  - rewrite String.eqb_refl. reflexivity.
  - destruct (String.eqb_spec k k0) as [->|Hne]; simpl.
    + rewrite String.eqb_refl. reflexivity.
    + destruct (String.eqb_spec k k0); [contradiction | exact IH].
Qed.

(** ** [db.insert] *)

Section Insert.

Variable random_id : nat -> string.
Variable clock : nat -> string.


Lemma newRecord_id (table : TableName) (values : Rec) (now id : string) :
  obj_get "id" (newRecord table values now id) = VStr id.
Proof.
  unfold newRecord.
  destruct table; cbn [TableName_eqb];
    rewrite ?obj_get_set_other by discriminate; apply obj_get_set_same.
Qed.

Lemma newRecord_createdAt (table : TableName) (values : Rec) (now id : string) :
  obj_get "createdAt" (newRecord table values now id)
  = if truthy (obj_get "createdAt" values) then obj_get "createdAt" values
    else VStr now.
Proof.
  unfold newRecord.
  destruct table; cbn [TableName_eqb];
    rewrite ?obj_get_set_other by discriminate; apply obj_get_set_same.
Qed.

Lemma newRecord_other (table : TableName) (values : Rec) (now id k : string) :
  ~ In k stamp_keys ->
  obj_get k (newRecord table values now id) = obj_get k values.
Proof.
  intros H. unfold stamp_keys in H. cbn [In] in H.
  unfold newRecord.
  destruct table; cbn [TableName_eqb];
    rewrite ?obj_get_set_other by (intros ->; tauto); reflexivity.
Qed.

Lemma newRecord_stamp (table : TableName) (values : Rec) (now id : string) :
  forall t key,
    In (t, key) [(enrollments, "enrolledAt"); (submissions, "submittedAt");
                 (grades, "gradedAt"); (materials, "uploadedAt")] ->
    obj_get key (newRecord table values now id)
    = if TableName_eqb table t then VStr now else obj_get key values.
Proof.
  intros t key H. cbn [In] in H. unfold newRecord.
  destruct H as [H|[H|[H|[H|[]]]]]; injection H as <- <-;
    destruct table; cbn [TableName_eqb];
    rewrite ?obj_get_set_other by discriminate;
    first [apply obj_get_set_same | reflexivity].
Qed.

(** [db.insert] into a table of the schema returns one record, which
    carries the generated id whatever id the data had, the [createdAt] of
    the data when it is truthy and the time of the call otherwise, and every
    other field of the data but the table's own time stamp; the record is
    appended to that table and to no other, the connections are left alone,
    and a query made next holds its JSON copy as last row. *)
Theorem db_insert_appends_stamped_record :
  forall (table : TableName) (values : Rec) (w : World),
    table <> unknown ->
    exists r w',
      db_insert random_id clock table values w = (Ok [r], w')
      /\ obj_get "id" r = VStr (random_id (S (calls w)))
      /\ obj_get "createdAt" r
         = (if truthy (obj_get "createdAt" values)
            then obj_get "createdAt" values else VStr (clock (calls w)))
      /\ (forall k, ~ In k stamp_keys -> obj_get k r = obj_get k values)
      /\ rows_of (mockData w') table = rows_of (mockData w) table ++ [r]
      /\ (forall t, t <> table -> rows_of (mockData w') t = rows_of (mockData w) t)
      /\ clients w' = clients w /\ sockets w' = sockets w
      /\ exists q,
           select_from None table w' = (Ok q, w')
           /\ data q = map cloneRec (rows_of (mockData w) table) ++ [cloneRec r].
Proof.
  intros table values w Ht.
  eexists. eexists. split; [apply db_insert_spec; exact Ht|].
  split; [apply newRecord_id|]. split; [apply newRecord_createdAt|].
  split; [intros k Hk; apply newRecord_other; exact Hk|].
  cbn [mockData clients sockets].
  split; [apply rows_of_with_table; exact Ht|].
  split; [intros t Hne; apply rows_of_with_table_other; congruence|].
  split; [reflexivity|]. split; [reflexivity|].
  eexists. split; [reflexivity|]. cbn [data mockData].
  rewrite rows_of_with_table by exact Ht. rewrite map_app. reflexivity.
Qed.


End Insert.

(** ** Conditions that are tests *)

Lemma decides_none : decides CNone (fun _ => true).
Proof. intros r. reflexivity. Qed.

Lemma decides_sql_object (q : SQL) : decides (CSQL q) (fun _ => true).
Proof. intros r. reflexivity. Qed.

Lemma decides_column_is (c : ascii) (column : string) (v : JsVal) :
  v <> VUndefined ->
  decides (column_is (String c column) v)
    (fun r => strict_eq (obj_get (String c column) r) v).
Proof. intros H r. apply parseCondition_column_value. exact H. Qed.

(** ** [db.update] *)


Lemma update_records_decided (updateData : Rec) (condition : Condition)
    (g : Rec -> bool) (records : list Rec) :
  decides condition g ->
  update_records updateData condition records
  = (map (update_if g updateData) records, Ok (length (List.filter g records))).
Proof.
  intros H. induction records as [|r rest IH]; [reflexivity|].
  cbn [update_records]. rewrite H, IH. unfold update_if. cbn [map List.filter].
  destruct (g r); reflexivity.
Qed.

Lemma set_mockData_same (w : World) : set_mockData (mockData w) w = w.
Proof. destruct w. reflexivity. Qed.

Lemma with_table_unknown (l : list Rec) (m : MockData) : with_table unknown l m = m.
Proof. destruct m. reflexivity. Qed.

Lemma table_of_rows (m : MockData) (t : TableName) :
  t <> unknown -> table_of m t = Some (rows_of m t).
Proof. intros H. unfold rows_of. destruct t; try reflexivity. congruence. Qed.

(** [db.update] with a condition that is a test changes exactly the
    records of the table that pass it, each by [Object.assign] with the
    update, leaves the others and their order, counts the records that
    pass, and touches no other table. *)
Theorem db_update_changes_matching_records :
  forall (table : TableName) (updateData : Rec) (condition : Condition)
         (g : Rec -> bool) (w : World),
    decides condition g ->
    db_update table updateData condition w
    = (Ok (length (List.filter g (rows_of (mockData w) table))),
       set_mockData
         (with_table table
            (map (update_if g updateData) (rows_of (mockData w) table))
            (mockData w)) w).
Proof.
  intros table updateData condition g w H. unfold db_update.
  destruct (TableName_eqb table unknown) eqn:E.
  - destruct table; try discriminate. cbn [table_of rows_of].
    rewrite with_table_unknown, set_mockData_same. reflexivity.
  - assert (Ht : table <> unknown) by (intros ->; discriminate).
    rewrite (table_of_rows _ _ Ht).
    rewrite (update_records_decided _ _ g _ H). reflexivity.
Qed.

Lemma update_records_throws_midway (updateData : Rec) (condition : Condition)
    (g : Rec -> bool) (before : list Rec) (r : Rec) (after : list Rec) (e : Exn) :
  (forall x, In x before -> parseCondition condition x = Ok (g x)) ->
  parseCondition condition r = Throw e ->
  update_records updateData condition (before ++ r :: after)
  = (map (update_if g updateData) before ++ r :: after, Throw e).
Proof.
  intros Hb Hr. induction before as [|x before IH]; cbn [app update_records map].
  - rewrite Hr. reflexivity.
  - rewrite (Hb x) by (left; reflexivity).
    rewrite IH by (intros y Hy; apply Hb; right; exact Hy).
    unfold update_if. destruct (g x); reflexivity.
Qed.

(** [db.update] does not undo: when the condition throws on a record,
    the call throws, the records before it that pass the condition have
    been changed, and that record and the ones after it are as they were. *)
Theorem db_update_keeps_changes_made_before_an_exception :
  forall (table : TableName) (updateData : Rec) (condition : Condition)
         (g : Rec -> bool) (before : list Rec) (r : Rec) (after : list Rec)
         (e : Exn) (w : World),
    table <> unknown ->
    rows_of (mockData w) table = before ++ r :: after ->
    (forall x, In x before -> parseCondition condition x = Ok (g x)) ->
    parseCondition condition r = Throw e ->
    db_update table updateData condition w
    = (Throw e,
       set_mockData
         (with_table table (map (update_if g updateData) before ++ r :: after)
            (mockData w)) w).
Proof.
  intros table updateData condition g before r after e w Ht Hrows Hb Hr.
  unfold db_update. rewrite (table_of_rows _ _ Ht), Hrows.
  rewrite (update_records_throws_midway _ _ g _ _ _ e Hb Hr). reflexivity.
Qed.

(** ** [db.delete] *)


Lemma filter_split_length {A : Type} (g : A -> bool) (l : list A) :
  (length l - length (List.filter (fun x => negb (g x)) l))%nat
  = length (List.filter g l).
Proof.
  induction l as [|x l IH]; [reflexivity|]. cbn [List.filter].
  pose proof (filter_length_le (fun x => negb (g x)) l) as Hle.
  destruct (g x); cbn [negb length]; lia.
Qed.

(** [db.delete] on a table of the schema with a condition that is a
    test removes exactly the records that pass it, keeps the others in
    their order, reports how many passed, and touches no other table. *)
Theorem db_delete_removes_matching_records :
  forall (table : TableName) (condition : Condition) (g : Rec -> bool) (w : World),
    table <> unknown ->
    decides condition g ->
    db_delete table condition w
    = (Ok (length (List.filter g (rows_of (mockData w) table))),
       set_mockData
         (with_table table
            (List.filter (fun r => negb (g r)) (rows_of (mockData w) table))
            (mockData w)) w).
Proof.
  intros table condition g w Ht H. unfold db_delete.
  rewrite (filter_res_pure _ (fun r => negb (g r)))
    by (intros x; unfold parseCondition_not; rewrite H; reflexivity).
  rewrite filter_split_length. reflexivity.
Qed.

Lemma filter_all_false {A : Type} (l : list A) :
  List.filter (fun _ : A => negb true) l = [].
Proof. induction l; [reflexivity | exact IHl]. Qed.

(** [db.delete] with no condition ([undefined]) or with an [SQL]
    object of drizzle-orm, such as [eq] returns, empties the table and
    reports all its records as deleted. *)
Theorem db_delete_without_usable_condition_empties_table :
  forall (table : TableName) (condition : Condition) (w : World),
    table <> unknown ->
    (condition = CNone \/ exists q, condition = CSQL q) ->
    db_delete table condition w
    = (Ok (length (rows_of (mockData w) table)),
       set_mockData (with_table table [] (mockData w)) w).
Proof.
  intros table condition w Ht Hc. unfold db_delete.
  rewrite (filter_res_pure _ (fun _ => negb true))
    by (intros x; destruct Hc as [->|[q ->]]; reflexivity).
  rewrite filter_all_false. cbn [length]. rewrite Nat.sub_0_r. reflexivity.
Qed.


(** ** [performJoin] *)


Lemma join_record_fields (t : TableName) (rightData : list Rec) (l : Rec) (k : string) :
  ~ In k join_keys ->
  obj_get k (join_record t rightData l) = obj_get k l.
Proof.
  intros H. unfold join_keys in H. cbn [In] in H. unfold join_record.
  destruct t; try reflexivity;
    repeat match goal with
           | |- context [if ?b then _ else _] => destruct b
           | |- context [match find_id ?d ?v with _ => _ end] => destruct (find_id d v)
           end;
    try reflexivity;
    apply obj_get_set_other; intros ->; tauto.
Qed.

Lemma join_record_empty (t : TableName) (l : Rec) : join_record t [] l = l.
Proof.
  unfold join_record.
  destruct t; try reflexivity;
    repeat match goal with
           | |- context [if ?b then _ else _] => destruct b
           end; reflexivity.
Qed.

(** A join keeps every row of the left side, one for one and in
    order: no row is dropped or repeated, each keeps all its fields other
    than the six a join can attach, and when the joined table is empty the
    rows come back as they were.  The store is only read. *)
Theorem performJoin_keeps_left_rows :
  forall (leftData : list Rec) (rightTableName : TableName)
         (joinCondition : Condition) (w : World),
    exists rows,
      performJoin leftData rightTableName joinCondition w = (Ok rows, w)
      /\ length rows = length leftData
      /\ Forall2 (fun l r => forall k, ~ In k join_keys -> obj_get k r = obj_get k l)
           leftData rows
      /\ (rows_of (mockData w) rightTableName = [] -> rows = leftData).
Proof.
  intros leftData t c w. eexists. split; [reflexivity|].
  split; [apply length_map|]. split.
  - induction leftData as [|l ls IH]; cbn [map]; constructor; [|exact IH].
    intros k Hk. apply join_record_fields. exact Hk.
  - intros ->. rewrite <- (map_id leftData) at 2.
    apply map_ext. intros l. apply join_record_empty.
Qed.

(** A join with [users] leaves the row as it is or attaches one object,
    under [teacher], [student] or [user], that holds a name and an email
    and nothing else of the user: no password and no role. *)
Theorem join_with_users_attaches_name_and_email_only (rightData : list Rec) (l : Rec) :
  join_record users rightData l = l
  \/ exists key o,
       join_record users rightData l = obj_set key (VObj o) l
       /\ In key ["teacher"; "student"; "user"]
       /\ forall k, k <> "name" -> k <> "email" -> obj_get k o = VUndefined.
Proof.
  unfold join_record.
  repeat match goal with
         | |- context [if ?b then _ else _] => destruct b
         | |- context [match find_id ?d ?v with _ => _ end] => destruct (find_id d v)
         end;
    try (left; reflexivity);
    right; eexists; eexists; (split; [reflexivity|]);
    (split; [cbn [In]; tauto|]);
    intros k H1 H2; cbn;
    repeat match goal with
           | |- context [String.eqb ?a ?b] =>
               destruct (String.eqb_spec a b); try congruence
           end.
Qed.

(** ** [then]: limits *)

Section Then.

Variable js_lt : JsVal -> JsVal -> bool.



(** ** [where]: composition *)

(** Two [where] calls whose conditions are tests keep the rows that
    pass both, in either order of the calls; [where(undefined)] keeps the
    query as it is. *)
Theorem where_calls_conjoin :
  forall (c1 c2 : Condition) (g1 g2 : Rec -> bool) (q : MockQuery) (w : World),
    decides c1 g1 -> decides c2 g2 ->
    exists q12 q21,
      bind (where_ c1 q) (where_ c2) w = (Ok q12, w)
      /\ bind (where_ c2 q) (where_ c1) w = (Ok q21, w)
      /\ data q12 = List.filter (fun r => g1 r && g2 r) (data q)
      /\ data q21 = data q12
      /\ where_ CNone q w = (Ok q, w).
Proof.
  intros c1 c2 g1 g2 q w H1 H2.
  assert (Hw : forall c g q0, decides c g ->
            exists q', where_ c q0 w = (Ok q', w)
                       /\ data q' = List.filter g (data q0)).
  { intros c g q0 H. destruct c;
      try (unfold where_, bind, lift, ret;
           rewrite (filter_res_pure _ g) by exact H;
           eexists; split; reflexivity).
    exists q0. split; [reflexivity|].
    assert (Hg : forall r, g r = true)
      by (intros r; specialize (H r); cbn in H; congruence).
    clear H. induction (data q0) as [|x l IH]; [reflexivity|].
    cbn [List.filter]. rewrite Hg, <- IH. reflexivity. }
  destruct (Hw c1 g1 q H1) as (qa & Ea & Da).
  destruct (Hw c2 g2 qa H2) as (qab & Eab & Dab).
  destruct (Hw c2 g2 q H2) as (qb & Eb & Db).
  destruct (Hw c1 g1 qb H1) as (qba & Eba & Dba).
  exists qab, qba. unfold bind. rewrite Ea, Eb.
  split; [exact Eab|]. split; [exact Eba|].
  assert (F : forall (f g : Rec -> bool) l,
            List.filter g (List.filter f l) = List.filter (fun r => f r && g r) l).
  { intros f g l. induction l as [|x l IH]; [reflexivity|].
    cbn [List.filter]. destruct (f x); cbn [List.filter andb]; rewrite IH; reflexivity. }
  split; [rewrite Dab, Da; apply F|].
  split; [|reflexivity].
  rewrite Dba, Db, Dab, Da, !F.
  apply filter_ext. intros r. apply andb_comm.
Qed.

End Then.

(** ** Composite conditions *)

Lemma all_of_unfold (cs : list Condition) (r : Rec) :
  parseCondition (all_of cs) r
  = (fix every_cond (l : list Condition) : Res bool :=
       match l with
       | [] => Ok true
       | c :: l' =>
           match parseCondition c r with
           | Ok true => every_cond l'
           | x => x
           end
       end) cs.
Proof. reflexivity. Qed.

Lemma any_of_unfold (cs : list Condition) (r : Rec) :
  parseCondition (any_of cs) r
  = (fix some_cond (l : list Condition) : Res bool :=
       match l with
       | [] => Ok false
       | c :: l' =>
           match parseCondition c r with
           | Ok false => some_cond l'
           | x => x
           end
       end) cs.
Proof. reflexivity. Qed.

(** Over conditions that are tests, [{ type: 'and', conditions }] is
    their conjunction and [{ type: 'or', conditions }] their disjunction;
    with no condition in the list the first holds of every record and the
    second of none. *)
Theorem composite_conditions_are_conjunction_and_disjunction :
  forall (cs : list Condition) (gs : list (Rec -> bool)),
    Forall2 decides cs gs ->
    decides (all_of cs) (fun r => forallb (fun g => g r) gs)
    /\ decides (any_of cs) (fun r => existsb (fun g => g r) gs).
Proof.
  intros cs gs H. split; intros r.
  - rewrite all_of_unfold. induction H as [|c g cs gs Hc _ IH]; [reflexivity|].
    rewrite Hc. cbn [forallb]. destruct (g r); [exact IH | reflexivity].
  - rewrite any_of_unfold. induction H as [|c g cs gs Hc _ IH]; [reflexivity|].
    rewrite Hc. cbn [existsb]. destruct (g r); [reflexivity | exact IH].
Qed.

(** ** Compiled text *)






















(** ** Handlers that read *)

Lemma read_only_throw {A : Type} (e : Exn) : read_only (@throw A e).
Proof. intros w. reflexivity. Qed.

Lemma read_only_field (x : option Rec) (key : string) : read_only (field x key).
Proof. destruct x; intros w; reflexivity. Qed.

Lemma read_only_mapM {A B : Type} (f : A -> M B) (l : list A) :
  (forall a, read_only (f a)) -> read_only (mapM f l).
Proof.
  intros H. induction l as [|a l IH]; cbn [mapM].
  - apply read_only_ret.
  - apply read_only_bind; [apply H|]. intros b.
    apply read_only_bind; [exact IH|]. intros bs. apply read_only_ret.
Qed.

Lemma try_catch_read_only (m : M Response) (w : World) :
  read_only m -> snd (try_catch m w) = w.
Proof.
  intros H. unfold try_catch. specialize (H w).
  destruct (m w) as [[r|e] w']; exact H.
Qed.

Lemma requireAuth_unchanged (s : Session) (next : Handler) (w : World) :
  snd (next w) = w -> snd (requireAuth s next w) = w.
Proof. unfold requireAuth. destruct (negb _); [reflexivity | auto]. Qed.

Lemma requireRole_unchanged (role : string) (s : Session) (next : Handler) (w : World) :
  snd (next w) = w -> snd (requireRole role s next w) = w.
Proof. unfold requireRole. destruct (_ || _); [reflexivity | auto]. Qed.

Ltac read_only_step :=
  first
    [ apply read_only_ret | apply read_only_lift | apply read_only_throw
    | apply read_only_field | apply read_only_where | apply read_only_select_from
    | apply read_only_then | apply read_only_read_table
    | apply read_only_mapM; intros ?
    | apply read_only_bind; [|intros ?]
    | match goal with
      | |- read_only (match ?x with _ => _ end) => destruct x
      end ].

Ltac read_only_block :=
  unfold with_course_access, getMaterialsByCourse, getNotificationsByUser,
    getCourse, getUser, getAssignment, getSubmission, enrollmentCheck,
    select_where_eq, enrollmentSchema_parse, gradeSchema_parse;
  repeat read_only_step.

Section Reads.

Variable random_id : nat -> string.
Variable clock : nat -> string.
Variable js_lt : JsVal -> JsVal -> bool.
Variable to_string : JsVal -> string.

(** The handlers of the eight GET routes of this development only read:
    whatever the session, the path parameter and the state, and whether
    they answer 200, refuse or fail with a 500, the store, the connections
    and the sockets are afterwards as they were. *)
Theorem get_handlers_leave_state_unchanged :
  forall (s : Session) (id : string) (w : World),
    snd (get_course js_lt s id w) = w
    /\ snd (get_course_enrollments js_lt s id w) = w
    /\ snd (get_assignment js_lt s id w) = w
    /\ snd (get_notifications js_lt s w) = w
    /\ snd (get_teacher_courses js_lt s w) = w
    /\ snd (get_course_assignments js_lt s id w) = w
    /\ snd (get_course_discussions js_lt s id w) = w
    /\ snd (get_course_materials js_lt s id w) = w.
Proof.
  intros s id w.
  repeat match goal with |- _ /\ _ => split end;
    repeat first [apply requireAuth_unchanged | apply requireRole_unchanged];
    apply try_catch_read_only; read_only_block.
Qed.

End Reads.

(** ** The middleware and the path parameter *)

Section RouteProperties.

Variable random_id : nat -> string.
Variable clock : nat -> string.
Variable js_lt : JsVal -> JsVal -> bool.
Variable uuid : string -> bool.
Variable to_string : JsVal -> string.
Variable insertCourseSchema_parse : Rec -> Res Rec.


(** Every route of [session_routes], all mounted behind [requireAuth],
    answers a request whose session has no user id, or an empty one, with
    401 [Unauthorized], in every state and without changing it. *)
Theorem requests_without_session_user_get_401 :
  forall (s : Session) (id : string) (req_body : Rec) (destroy_fails : bool),
    truthy (session_userId s) = false ->
    Forall (fun route : Handler =>
              forall w, route w = (message 401 "Unauthorized", w))
           (session_routes random_id clock js_lt uuid to_string insertCourseSchema_parse s id req_body destroy_fails).
Proof.
  intros s id req_body destroy_fails H.
  repeat constructor; intros w;
    unfold post_courses, get_teacher_courses, get_course_enrollments,
      post_assignments, post_grades, post_materials, post_enrollments,
      post_submissions, get_course, post_logout, get_assignment,
      get_course_assignments, get_course_discussions, post_discussions,
      get_course_materials, get_notifications, patch_notification_read,
      requireAuth;
    rewrite H; reflexivity.
Qed.

(** With a user in the session, every route of [teacher_routes], mounted
    behind [requireRole('teacher')], answers a session whose role is not
    [teacher] with 403 [Forbidden], and every route of [student_routes],
    behind [requireRole('student')], a session whose role is not [student];
    the state is not changed. *)
Theorem requests_with_the_wrong_role_get_403 :
  forall (s : Session) (id : string) (req_body : Rec),
    truthy (session_userId s) = true ->
    (is_role s "teacher" = false ->
     Forall (fun route : Handler =>
               forall w, route w = (message 403 "Forbidden", w))
            (teacher_routes random_id clock js_lt uuid to_string insertCourseSchema_parse s id req_body))
    /\ (is_role s "student" = false ->
        Forall (fun route : Handler =>
                  forall w, route w = (message 403 "Forbidden", w))
               (student_routes random_id clock js_lt uuid to_string s req_body)).
Proof.
  intros s id req_body H. unfold is_role.
  split; intros Hrole; repeat constructor; intros w;
    unfold post_courses, get_teacher_courses, get_course_enrollments,
      post_assignments, post_grades, post_materials, post_enrollments,
      post_submissions, requireAuth, requireRole;
    rewrite H, Hrole; reflexivity.
Qed.

(** The handlers with a path parameter answer the same, and leave the
    same state, whatever the parameter is: every use of it goes through a
    condition made by drizzle-orm's [eq], which holds of every record. *)
Theorem path_parameter_is_ignored :
  forall (s : Session) (id id' : string) (w : World),
    get_course js_lt s id w = get_course js_lt s id' w
    /\ get_course_enrollments js_lt s id w = get_course_enrollments js_lt s id' w
    /\ get_assignment js_lt s id w = get_assignment js_lt s id' w
    /\ get_course_assignments js_lt s id w = get_course_assignments js_lt s id' w
    /\ get_course_discussions js_lt s id w = get_course_discussions js_lt s id' w
    /\ get_course_materials js_lt s id w = get_course_materials js_lt s id' w
    /\ patch_notification_read js_lt s id w = patch_notification_read js_lt s id' w.
Proof.
  intros s id id' w.
  repeat match goal with |- _ /\ _ => split end.
  - unfold get_course, requireAuth, try_catch.
    destruct (negb _); [reflexivity|].
    erewrite !(bind_ok (getCourse _ _)) by apply getCourse_all.
    destruct (first_row _); [|reflexivity].
    erewrite !(bind_ok (enrollmentCheck _ _ _)) by apply enrollmentCheck_all.
    reflexivity.
  - unfold get_course_enrollments, requireAuth, requireRole, try_catch.
    destruct (negb _); [reflexivity|]. destruct (_ || _); [reflexivity|].
    erewrite !(bind_ok (getCourse _ _)) by apply getCourse_all.
    destruct (first_row _); [|reflexivity].
    destruct (negb _); [reflexivity|].
    erewrite !(bind_ok (select_where_eq _ _ _ _)) by apply select_where_eq_all.
    reflexivity.
  - unfold get_assignment, requireAuth, try_catch.
    destruct (negb _); [reflexivity|].
    erewrite !(bind_ok (select_where_eq _ _ _ _)) by apply select_where_eq_all.
    reflexivity.
  - unfold get_course_assignments, requireAuth, try_catch, with_course_access.
    destruct (negb _); [reflexivity|].
    erewrite !(bind_ok (getCourse _ _)) by apply getCourse_all.
    destruct (first_row _); [|reflexivity].
    erewrite !(bind_ok (enrollmentCheck _ _ _)) by apply enrollmentCheck_all.
    destruct (negb _ && negb _); [reflexivity|].
    erewrite !(bind_ok (select_where_eq _ _ _ _)) by apply select_where_eq_all.
    reflexivity.
  - unfold get_course_discussions, requireAuth, try_catch, with_course_access.
    destruct (negb _); [reflexivity|].
    erewrite !(bind_ok (getCourse _ _)) by apply getCourse_all.
    destruct (first_row _); [|reflexivity].
    erewrite !(bind_ok (enrollmentCheck _ _ _)) by apply enrollmentCheck_all.
    destruct (negb _ && negb _); [reflexivity|].
    erewrite !(bind_ok (select_where_eq _ _ _ _)) by apply select_where_eq_all.
    reflexivity.
  - unfold get_course_materials, requireAuth, try_catch, with_course_access,
      getMaterialsByCourse.
    destruct (negb _); [reflexivity|].
    erewrite !(bind_ok (getCourse _ _)) by apply getCourse_all.
    destruct (first_row _); [|reflexivity].
    erewrite !(bind_ok (enrollmentCheck _ _ _)) by apply enrollmentCheck_all.
    destruct (negb _ && negb _); [reflexivity|].
    erewrite !(bind_ok (select_where_eq _ _ _ _)) by apply select_where_eq_all.
    reflexivity.
  - unfold patch_notification_read, requireAuth, try_catch.
    destruct (negb _); [reflexivity|].
    rewrite !select_where_limit_bind.
    destruct (first_row _); [|reflexivity].
    destruct (negb _); [reflexivity|].
    erewrite !(bind_ok (markNotificationAsRead _)) by apply markNotificationAsRead_all.
    reflexivity.
Qed.

End RouteProperties.

(** ** Handlers that write *)



Lemma returns_weaken {A : Type} (P Q : A -> Prop) (m : M A) :
  returns P m -> (forall a, P a -> Q a) -> returns Q m.
Proof.
  intros H HPQ w. destruct (H w) as (a & w' & E & Ha). exists a, w'. auto.
Qed.



Section Writes.

Variable random_id : nat -> string.
Variable clock : nat -> string.
Variable js_lt : JsVal -> JsVal -> bool.
Variable uuid : string -> bool.
Variable to_string : JsVal -> string.
Variable insertCourseSchema_parse : Rec -> Res Rec.















End Writes.

(** ** What the handlers store *)

Ltac not_a_stamp_key :=
  unfold stamp_keys; cbn [In];
  let H := fresh in intros [H|[H|[H|[H|[H|[H|[]]]]]]]; discriminate.



Section Stored.

Variable random_id : nat -> string.
Variable clock : nat -> string.
Variable js_lt : JsVal -> JsVal -> bool.
Variable uuid : string -> bool.
Variable to_string : JsVal -> string.
Variable insertCourseSchema_parse : Rec -> Res Rec.

(** [POST /api/submissions] is the one handler that can fail after its
    write: with an assignment and an enrollment in the store but no course,
    the submission is stored, then reading the teacher of the course
    throws; the answer is 500 and the row stays. *)
Theorem post_submissions_keeps_the_row_of_a_failed_request :
  forall (s : Session) (req_body : Rec) (w : World),
    truthy (session_userId s) = true ->
    is_role s "student" = true ->
    md_assignments (mockData w) <> [] ->
    md_enrollments (mockData w) <> [] ->
    md_courses (mockData w) = [] ->
    exists w1,
      post_submissions random_id clock js_lt to_string s req_body w
      = (message 500 "Cannot read properties of undefined (reading 'teacherId')", w1)
      /\ md_submissions (mockData w1)
         = md_submissions (mockData w) ++ [submitted random_id clock s req_body w]
      /\ md_notifications (mockData w1) = md_notifications (mockData w).
Proof.
  intros s req_body w Hauth Hrole Ha Henr Hc.
  unfold post_submissions. rewrite student_passes by assumption.
  unfold try_catch.
  erewrite bind_ok by apply getAssignment_all.
  destruct (md_assignments (mockData w)) as [|a0 al] eqn:Hal; [congruence|].
  cbn [map first_row hd_error].
  erewrite bind_ok by apply enrollmentCheck_all.
  assert (Hlen : (length (firstn 1 (map cloneRec (md_enrollments (mockData w))))
                  =? 0)%nat = false)
    by (destruct (md_enrollments (mockData w)); [congruence | reflexivity]).
  rewrite Hlen.
  unfold createSubmission.
  erewrite bind_ok;
    [|erewrite bind_ok by (apply db_insert_spec; discriminate); reflexivity].
  erewrite bind_ok by apply getCourse_all.
  cbn [mockData].
  match goal with
  | |- context [md_courses (with_table submissions ?l ?m)] =>
      replace (md_courses (with_table submissions l m)) with (md_courses m)
        by (destruct m; reflexivity)
  end.
  rewrite Hc. cbn [map first_row hd_error field].
  erewrite bind_throw by reflexivity.
  eexists. split; [reflexivity|]. cbn [mockData].
  destruct (mockData w). split; reflexivity.
Qed.

(** [POST /api/materials]: for a teacher the request is decided by the
    first course of the store alone, whatever course the body names; when
    it is accepted the body is stored as it came, stamped by [db.insert]. *)
Theorem post_materials_is_decided_by_the_first_course :
  forall (s : Session) (req_body : Rec) (w : World),
    truthy (session_userId s) = true ->
    is_role s "teacher" = true ->
    let answer := post_materials random_id clock js_lt s req_body w in
    let material :=
      newRecord materials req_body (clock (calls w)) (random_id (S (calls w))) in
    (status (fst answer) = 200%nat
     <-> exists c rest,
           md_courses (mockData w) = c :: rest
           /\ strict_eq (obj_get "teacherId" (cloneRec c)) (session_userId s) = true)
    /\ (status (fst answer) = 200%nat ->
        fst answer = json (VObj material)
        /\ md_materials (mockData (snd answer))
           = md_materials (mockData w) ++ [material]).
Proof.
  intros s req_body w Hauth Hrole. cbv zeta.
  unfold post_materials. rewrite teacher_passes by assumption.
  unfold try_catch. erewrite bind_ok by apply getCourse_all.
  destruct (md_courses (mockData w)) as [|c rest] eqn:Hc; cbn [map first_row hd_error].
  - unfold ret, message; cbn [fst snd status].
    split; [split; [discriminate | intros (c & rest & H & _); discriminate]
           | discriminate].
  - destruct (strict_eq (obj_get "teacherId" (cloneRec c)) (session_userId s)) eqn:Ht;
      cbn [negb].
    + unfold createMaterial.
      erewrite bind_ok;
        [|erewrite bind_ok by (apply db_insert_spec; discriminate); reflexivity].
      cbn [ret fst snd first_row hd_error json status mockData].
      split; [split; [intros _; exists c, rest; split; [reflexivity | exact Ht]
                     | reflexivity]|].
      intros _. split; [reflexivity|].
      destruct (mockData w). reflexivity.
    + unfold ret, message; cbn [fst snd status].
      split; [split; [discriminate|] | discriminate].
      intros (c' & rest' & H & Ht'). injection H as <- <-. congruence.
Qed.

(** *** The notifications of a new assignment *)




(** *** Who a row belongs to *)


(** [POST /api/discussions]: a discussion that is stored carries the user
    of the session as its author and is appended to the table; the answer
    is 200 exactly when the store has a course and the caller is the
    teacher of the first one, or is a student and the enrollments table is
    not empty. *)
Theorem post_discussions_author_is_the_session_user :
  forall (s : Session) (req_body : Rec) (w : World),
    truthy (session_userId s) = true ->
    let answer := post_discussions random_id clock js_lt s req_body w in
    let discussion :=
      newRecord discussions (discussion_values s req_body)
        (clock (calls w)) (random_id (S (calls w))) in
    (status (fst answer) = 200%nat
     <-> exists c rest,
           md_courses (mockData w) = c :: rest
           /\ (is_role s "teacher"
               && strict_eq (obj_get "teacherId" (cloneRec c)) (session_userId s)
               || is_role s "student"
                  && negb (Nat.eqb (length (md_enrollments (mockData w))) 0)) = true)
    /\ (status (fst answer) = 200%nat ->
        fst answer = json (VObj discussion)
        /\ obj_get "userId" discussion = session_userId s
        /\ md_discussions (mockData (snd answer))
           = md_discussions (mockData w) ++ [discussion]).
Proof.
  intros s req_body w Hauth. cbv zeta.
  unfold post_discussions, requireAuth. rewrite Hauth. cbn [negb].
  unfold try_catch, with_course_access.
  erewrite bind_ok by apply getCourse_all.
  destruct (md_courses (mockData w)) as [|c rest] eqn:Hc; cbn [map first_row hd_error].
  - unfold ret, message; cbn [fst snd status].
    split; [split; [discriminate | intros (c & rest & H & _); discriminate]
           | discriminate].
  - erewrite bind_ok by apply enrollmentCheck_all.
    assert (Hlen : (0 <? length (firstn 1 (map cloneRec (md_enrollments (mockData w)))))%nat
                   = negb (Nat.eqb (length (md_enrollments (mockData w))) 0))
      by (destruct (md_enrollments (mockData w)); reflexivity).
    rewrite Hlen.
    destruct (is_role s "teacher"
              && strict_eq (obj_get "teacherId" (cloneRec c)) (session_userId s)) eqn:E1;
      destruct (is_role s "student"
                && negb (Nat.eqb (length (md_enrollments (mockData w))) 0)) eqn:E2;
      cbn [negb andb orb].
    4:{ unfold ret, message; cbn [fst snd status].
        split; [split; [discriminate|] | discriminate].
        intros (c' & rest' & H & Ht'). injection H as <- <-.
        rewrite E1 in Ht'. discriminate. }
    all: unfold createDiscussion;
      (erewrite bind_ok;
       [|erewrite bind_ok by (apply db_insert_spec; discriminate); reflexivity]);
      cbn [ret fst snd first_row hd_error json status mockData];
      (split; [split; [intros _; exists c, rest; split; [reflexivity|];
                       rewrite ?E1; reflexivity
                      | reflexivity]|]);
      intros _; (split; [reflexivity|]);
      (split; [rewrite newRecord_other
                 by not_a_stamp_key;
               reflexivity|]);
      destruct (mockData w); reflexivity.
Qed.

End Stored.

(** ** The connections *)

Lemma truthy_VStr (u : string) : u <> "" -> truthy (VStr u) = true.
Proof. destruct u; [congruence | reflexivity]. Qed.

Lemma ws_on_message_auth (ref : nat) (userId : JsVal) (o : Rec) (u : string) (w : World) :
  obj_get "type" o = VStr "auth" -> obj_get "userId" o = VStr u -> u <> "" ->
  ws_on_message ref userId (Some (VObj o)) w
  = (VStr u, mkWorld (mockData w) (<[u := ref]> (clients w)) (sockets w) (calls w)).
Proof.
  intros Ht Hu Hne. unfold ws_on_message. rewrite Ht, Hu.
  rewrite truthy_VStr by exact Hne. reflexivity.
Qed.

Section Connections.

Variable random_id : nat -> string.
Variable clock : nat -> string.

(** The registration is not checked against any session: whatever
    connection sends an [auth] message naming a user is registered for that
    user, and, its socket being open, it is sent the notifications created
    for that user from then on, each the JSON copy of the stored row. *)
Theorem connection_naming_a_user_receives_their_notifications :
  forall (ref : nat) (out : list JsVal) (o : Rec) (u type content : string) (w : World),
    obj_get "type" o = VStr "auth" ->
    obj_get "userId" o = VStr u ->
    u <> "" ->
    sockets w !! ref = Some (mkSocket OPEN out) ->
    let w1 := snd (ws_on_message ref VNull (Some (VObj o)) w) in
    let row :=
      newRecord notifications (notification_values (VStr u) type content)
        (clock (calls w)) (random_id (S (calls w))) in
    exists w2,
      notify random_id clock (VStr u) type content w1 = (Ok tt, w2)
      /\ md_notifications (mockData w2) = md_notifications (mockData w) ++ [row]
      /\ sockets w2 !! ref
         = Some (mkSocket OPEN
                   (out ++ [jsonClone (VObj (obj [("type", VStr "notification");
                                                  ("data", VObj row)]))])).
Proof.
  intros ref out o u type content w Ht Hu Hne Hsock. cbv zeta.
  rewrite (ws_on_message_auth _ _ _ _ _ Ht Hu Hne). cbn [snd].
  unfold notify, createNotification.
  eexists. split.
  - erewrite bind_ok;
      [|erewrite bind_ok by (apply db_insert_spec; discriminate); reflexivity].
    cbn [first_row hd_error mockData clients sockets calls].
    unfold broadcastNotification. cbn [clients sockets mockData calls].
    rewrite lookup_insert_eq, Hsock. reflexivity.
  - cbn [mockData sockets]. split.
    + apply md_notifications_with_table.
    + rewrite lookup_insert_eq. reflexivity.
Qed.

(** A user has one entry in [clients], and the [close] handler of a
    connection deletes the entry of the user it registered, whoever holds
    it by then: when a second connection has registered for the same user
    and the first one closes, the user is unregistered whatever the state
    of the second socket, and a notification for that user is stored but
    sent to no socket. *)
Theorem closing_an_old_connection_unregisters_the_new_one :
  forall (ref1 ref2 : nat) (o : Rec) (u type content : string) (w : World),
    obj_get "type" o = VStr "auth" ->
    obj_get "userId" o = VStr u ->
    u <> "" ->
    let first := ws_on_message ref1 VNull (Some (VObj o)) w in
    let second := ws_on_message ref2 VNull (Some (VObj o)) (snd first) in
    let w3 := ws_on_close (fst first) (snd second) in
    clients (snd second) !! u = Some ref2
    /\ clients w3 !! u = None
    /\ sockets w3 = sockets w
    /\ exists w4,
         notify random_id clock (VStr u) type content w3 = (Ok tt, w4)
         /\ sockets w4 = sockets w
         /\ length (md_notifications (mockData w4))
            = S (length (md_notifications (mockData w))).
Proof.
  intros ref1 ref2 o u type content w Ht Hu Hne. cbv zeta.
  rewrite !(ws_on_message_auth _ _ _ _ _ Ht Hu Hne). cbn [fst snd].
  unfold ws_on_close. rewrite truthy_VStr by exact Hne.
  cbn [clients sockets mockData calls].
  split; [apply lookup_insert_eq|]. split; [apply lookup_delete_eq|].
  split; [reflexivity|].
  unfold notify, createNotification.
  eexists. split.
  - erewrite bind_ok;
      [|erewrite bind_ok by (apply db_insert_spec; discriminate); reflexivity].
    cbn [first_row hd_error mockData clients sockets calls].
    unfold broadcastNotification. cbn [clients sockets mockData calls].
    rewrite lookup_delete_eq. reflexivity.
  - cbn [mockData sockets]. split; [reflexivity|].
    rewrite md_notifications_with_table, length_app. cbn [length rows_of table_of]. lia.
Qed.

(** [POST /api/logout], the session being destroyed: the answer is 200,
    the store is as it was, the user has no entry in [clients] any more, an
    open socket of theirs is closing, and a notification created for them
    afterwards is stored and sent to no socket. *)
Theorem logout_unregisters_the_connection :
  forall (s : Session) (u type content : string) (w : World),
    userId s = Some u ->
    u <> "" ->
    let answer := post_logout s false w in
    status (fst answer) = 200%nat
    /\ mockData (snd answer) = mockData w
    /\ clients (snd answer) !! u = None
    /\ (forall ref out,
          clients w !! u = Some ref ->
          sockets w !! ref = Some (mkSocket OPEN out) ->
          sockets (snd answer) !! ref = Some (mkSocket CLOSING out))
    /\ exists w2,
         notify random_id clock (VStr u) type content (snd answer) = (Ok tt, w2)
         /\ sockets w2 = sockets (snd answer).
Proof.
  intros s u type content w Hs Hne. cbv zeta.
  unfold post_logout, requireAuth, session_userId. rewrite Hs.
  rewrite truthy_VStr by exact Hne. cbn [negb fst snd json status].
  split; [reflexivity|].
  assert (Hnone : forall w0 : World, clients w0 !! u = None ->
            exists w2, notify random_id clock (VStr u) type content w0 = (Ok tt, w2)
                       /\ sockets w2 = sockets w0).
  { intros w0 H0. unfold notify, createNotification.
    eexists. split.
    - erewrite bind_ok;
        [|erewrite bind_ok by (apply db_insert_spec; discriminate); reflexivity].
      cbn [first_row hd_error]. unfold broadcastNotification.
      cbn [clients sockets mockData calls]. rewrite H0. reflexivity.
    - reflexivity. }
  destruct (clients w !! u) as [ref|] eqn:Hc.
  - cbn [mockData clients sockets].
    split; [reflexivity|]. split; [apply lookup_delete_eq|]. split.
    + intros ref' out H Hsock. injection H as <-. rewrite Hsock.
      apply lookup_insert_eq.
    + apply Hnone. apply lookup_delete_eq.
  - split; [reflexivity|]. split; [exact Hc|].
    split; [intros ? ? H; discriminate|].
    apply Hnone. exact Hc.
Qed.

End Connections.

(** ** Identifiers *)

Section Identifiers.

Variable random_id : nat -> string.
Variable clock : nat -> string.
Variable js_lt : JsVal -> JsVal -> bool.
Variable uuid : string -> bool.
Variable to_string : JsVal -> string.

(** [generateId] keeps at most nine characters, and the schemas of
    [POST /api/enrollments] and [POST /api/grades] want a UUID, which has
    36: the identifier [db.insert] gave to any record is refused by both
    with a 400, and nothing is stored. *)
Theorem identifiers_of_the_store_are_refused_as_uuid :
  forall (table : TableName) (values : Rec) (w w' : World) (r : Rec)
         (s : Session) (req_body : Rec) (w0 : World),
    (forall x, uuid x = true -> String.length x = 36%nat) ->
    (forall n, (String.length (random_id n) <= 9)%nat) ->
    db_insert random_id clock table values w = (Ok [r], w') ->
    truthy (session_userId s) = true ->
    (is_role s "student" = true ->
     obj_get "courseId" req_body = obj_get "id" r ->
     status (fst (post_enrollments random_id clock js_lt uuid to_string s req_body w0))
     = 400%nat
     /\ snd (post_enrollments random_id clock js_lt uuid to_string s req_body w0) = w0)
    /\ (is_role s "teacher" = true ->
        obj_get "submissionId" req_body = obj_get "id" r ->
        status (fst (post_grades random_id clock js_lt uuid to_string s req_body w0))
        = 400%nat
        /\ snd (post_grades random_id clock js_lt uuid to_string s req_body w0) = w0).
Proof.
  intros table values w w' r s req_body w0 Huuid Hlen Hins Hauth.
  assert (Hid : obj_get "id" r = VStr (random_id (S (calls w)))).
  { assert (Ht : table <> unknown) by (intros ->; discriminate).
    rewrite db_insert_spec in Hins by exact Ht.
    injection Hins as <- _. apply newRecord_id. }
  assert (Hbad : uuid (random_id (S (calls w))) = false).
  { destruct (uuid (random_id (S (calls w)))) eqn:E; [|reflexivity].
    apply Huuid in E. specialize (Hlen (S (calls w))). lia. }
  split; intros Hrole Hbody.
  - unfold post_enrollments. rewrite student_passes by assumption.
    unfold try_catch_zod, enrollmentSchema_parse, bind.
    rewrite Hbody, Hid, Hbad. split; reflexivity.
  - unfold post_grades. rewrite teacher_passes by assumption.
    unfold try_catch_zod, gradeSchema_parse, bind, valid_submissionId.
    rewrite Hbody, Hid, Hbad. cbn [app]. split; reflexivity.
Qed.

End Identifiers.

(** ** Listings *)

(** [GET /api/teacher/courses] answers a teacher with the JSON copy of the
    whole courses table, in its order: the filter on the teacher keeps
    every course. *)
Theorem teacher_course_listing_is_the_whole_table :
  forall (js_lt : JsVal -> JsVal -> bool) (s : Session) (w : World),
    truthy (session_userId s) = true ->
    is_role s "teacher" = true ->
    get_teacher_courses js_lt s w
    = (json (VArr (map VObj (map cloneRec (md_courses (mockData w))))), w).
Proof.
  intros js_lt s w Hauth Hrole.
  unfold get_teacher_courses. rewrite teacher_passes by assumption.
  unfold try_catch. erewrite bind_ok by apply select_where_eq_all. reflexivity.
Qed.

(** ** The sample data *)

(** Whatever identifiers [generateId] returns, the store [initializeSampleData]
    fills refers to itself only: every course is taught by the first user,
    every enrollment and every assignment belongs to a course of the store,
    every enrollment and the notification to a user of the store. *)
Theorem sample_data_refers_to_its_own_rows :
  forall (id now due : nat -> string),
    let m := initializeSampleData id now due in
    let known (rows : list Rec) (v : JsVal) := In v (map (obj_get "id") rows) in
    Forall (fun c => Some (obj_get "teacherId" c)
                     = option_map (obj_get "id") (hd_error (md_users m)))
           (md_courses m)
    /\ Forall (fun e => known (md_courses m) (obj_get "courseId" e)
                        /\ known (md_users m) (obj_get "studentId" e))
              (md_enrollments m)
    /\ Forall (fun a => known (md_courses m) (obj_get "courseId" a)) (md_assignments m)
    /\ Forall (fun n => known (md_users m) (obj_get "userId" n)) (md_notifications m)
    /\ length (md_courses m) = length (md_assignments m).
Proof.
  intros id now due. cbv zeta. unfold initializeSampleData.
  cbn [md_users md_courses md_enrollments md_assignments md_notifications
       map hd_error option_map nth].
  repeat match goal with
         | |- _ /\ _ => split
         | |- Forall _ _ => constructor
         end;
    cbn; tauto.
Qed.

(** ** The properties at concrete requests *)

(** A course inserted into [new_school] under an id of its own gets the
    generated id, keeps its title and is the third course. *)
Lemma db_insert_appends_stamped_record_witness :
  courses <> unknown
  /\ exists r w',
       db_insert demo_random_id demo_clock courses
         [("id", VStr "mine"); ("title", VStr "Sets")] new_school = (Ok [r], w')
       /\ obj_get "id" r = VStr "gen1"
       /\ obj_get "title" r = VStr "Sets"
       /\ length (md_courses (mockData w')) = 3%nat.
Proof.
  split; [discriminate|].
  destruct (db_insert_appends_stamped_record demo_random_id demo_clock courses
              [("id", VStr "mine"); ("title", VStr "Sets")] new_school
              ltac:(discriminate))
    as (r & w' & E & Hid & _ & Hk & Hrows & _).
  exists r, w'. split; [exact E|]. split; [exact Hid|].
  split.
  - rewrite Hk; [reflexivity|]. not_a_stamp_key.
  - change (md_courses (mockData w')) with (rows_of (mockData w') courses).
    rewrite Hrows. reflexivity.
Defined.

(** Renaming the courses of [t1] in [school] changes one of its two
    courses. *)
Lemma db_update_changes_matching_records_witness :
  decides taught_by_t1 is_taught_by_t1
  /\ fst (db_update courses [("title", VStr "Renamed")] taught_by_t1 school) = Ok 1%nat
  /\ map (obj_get "title")
       (md_courses (mockData (snd (db_update courses [("title", VStr "Renamed")]
                                     taught_by_t1 school))))
     = [VStr "Renamed"; VStr "Logic"].
Proof.
  assert (H : decides taught_by_t1 is_taught_by_t1) by (intros r; reflexivity).
  split; [exact H|].
  rewrite (db_update_changes_matching_records courses [("title", VStr "Renamed")]
             taught_by_t1 is_taught_by_t1 school H).
  split; reflexivity.
Defined.

(** With the LIKE condition on titles, the update of
    [school_with_numbered_title] throws at the second course, whose title
    is a number: the first course has been changed, the third has not. *)
Lemma db_update_keeps_changes_made_before_an_exception_witness :
  fst (db_update courses [("duration", VStr "1 week")] title_like_o
         school_with_numbered_title)
  = Throw (TypeError "value.toLowerCase is not a function")
  /\ map (obj_get "duration")
       (md_courses (mockData (snd (db_update courses [("duration", VStr "1 week")]
                                     title_like_o school_with_numbered_title))))
     = [VStr "1 week"; VUndefined; VStr "4 weeks"].
Proof.
  rewrite (db_update_keeps_changes_made_before_an_exception courses
             [("duration", VStr "1 week")] title_like_o (fun _ => true)
             [course_row course1 "Intro" "t1"] numbered_title
             [course_row course2 "Logic" "t2"]
             (TypeError "value.toLowerCase is not a function")
             school_with_numbered_title).
  - split; reflexivity.
  - discriminate.
  - reflexivity.
  - intros x [<-|[]]. vm_compute. reflexivity.
  - vm_compute. reflexivity.
Defined.

(** Deleting the courses of [t1] from [school] removes one and leaves the
    course of [t2]. *)
Lemma db_delete_removes_matching_records_witness :
  courses <> unknown
  /\ decides taught_by_t1 is_taught_by_t1
  /\ fst (db_delete courses taught_by_t1 school) = Ok 1%nat
  /\ md_courses (mockData (snd (db_delete courses taught_by_t1 school)))
     = [course_row course2 "Logic" "t2"].
Proof.
  assert (H : decides taught_by_t1 is_taught_by_t1) by (intros r; reflexivity).
  split; [discriminate|]. split; [exact H|].
  rewrite (db_delete_removes_matching_records courses taught_by_t1 is_taught_by_t1
             school ltac:(discriminate) H).
  split; reflexivity.
Defined.

(** Deleting from [school] the course [course1] with drizzle-orm's [eq]
    deletes both courses. *)
Lemma db_delete_without_usable_condition_empties_table_witness :
  fst (db_delete courses (CSQL (drizzle.eq courses_id (VStr course1))) school)
  = Ok 2%nat
  /\ md_courses (mockData (snd (db_delete courses
                                  (CSQL (drizzle.eq courses_id (VStr course1)))
                                  school))) = [].
Proof.
  rewrite (db_delete_without_usable_condition_empties_table courses
             (CSQL (drizzle.eq courses_id (VStr course1))) school
             ltac:(discriminate)
             (or_intror (ex_intro _ (drizzle.eq courses_id (VStr course1))
                           Logic.eq_refl))).
  split; reflexivity.
Defined.

(** The courses of [school] by teacher [t1] and title [Intro], in both
    orders of the two [where] calls: the first course. *)
Lemma where_calls_conjoin_witness :
  decides taught_by_t1 is_taught_by_t1
  /\ decides titled_intro is_titled_intro
  /\ exists q12 q21,
       bind (where_ taught_by_t1 (mkMockQuery courses (md_courses (mockData school))
                                    None [] [] None []))
            (where_ titled_intro) school = (Ok q12, school)
       /\ bind (where_ titled_intro (mkMockQuery courses (md_courses (mockData school))
                                       None [] [] None []))
               (where_ taught_by_t1) school = (Ok q21, school)
       /\ data q12 = [course_row course1 "Intro" "t1"]
       /\ data q21 = data q12.
Proof.
  assert (H1 : decides taught_by_t1 is_taught_by_t1) by (intros r; reflexivity).
  assert (H2 : decides titled_intro is_titled_intro) by (intros r; reflexivity).
  split; [exact H1|]. split; [exact H2|].
  destruct (where_calls_conjoin taught_by_t1 titled_intro is_taught_by_t1
              is_titled_intro
              (mkMockQuery courses (md_courses (mockData school)) None [] [] None [])
              school H1 H2)
    as (q12 & q21 & E12 & E21 & D12 & D21 & _).
  exists q12, q21. split; [exact E12|]. split; [exact E21|].
  split; [rewrite D12; reflexivity | exact D21].
Defined.

(** The conjunction and the disjunction of the two conditions on the
    second course of [school], which has neither the teacher nor the
    title. *)
Lemma composite_conditions_are_conjunction_and_disjunction_witness :
  Forall2 decides [taught_by_t1; titled_intro] [is_taught_by_t1; is_titled_intro]
  /\ parseCondition (all_of [taught_by_t1; titled_intro])
       (course_row course2 "Logic" "t2") = Ok false
  /\ parseCondition (any_of [taught_by_t1; titled_intro])
       (course_row course1 "Other" "t1") = Ok true.
Proof.
  assert (H : Forall2 decides [taught_by_t1; titled_intro]
                [is_taught_by_t1; is_titled_intro])
    by (repeat constructor; intros r; reflexivity).
  split; [exact H|].
  destruct (composite_conditions_are_conjunction_and_disjunction _ _ H) as (Hand & Hor).
  split; [rewrite Hand | rewrite Hor]; reflexivity.
Defined.



(** Without a session, the course detail of [school] is refused. *)
Lemma requests_without_session_user_get_401_witness :
  truthy (session_userId nobody) = false
  /\ get_course demo_lt nobody course1 school = (message 401 "Unauthorized", school).
Proof.
  split; [reflexivity|].
  pose proof (requests_without_session_user_get_401 demo_random_id demo_clock
                demo_lt uuid_shape demo_to_string accept_all nobody course1 [] false
                Logic.eq_refl) as H.
  unfold session_routes, teacher_routes, student_routes in H. cbn [app] in H.
  do 8 (apply Forall_inv_tail in H). apply Forall_inv in H. apply H.
Defined.

(** A student is refused the creation of a course, a teacher the
    enrollment. *)
Lemma requests_with_the_wrong_role_get_403_witness :
  truthy (session_userId student1) = true
  /\ post_courses demo_random_id demo_clock accept_all student1 [] school
     = (message 403 "Forbidden", school)
  /\ post_enrollments demo_random_id demo_clock demo_lt uuid_shape demo_to_string
       teacher1 [] school
     = (message 403 "Forbidden", school).
Proof.
  split; [reflexivity|].
  destruct (requests_with_the_wrong_role_get_403 demo_random_id demo_clock
              demo_lt uuid_shape demo_to_string accept_all student1 course1 []
              Logic.eq_refl) as (Ht & _).
  destruct (requests_with_the_wrong_role_get_403 demo_random_id demo_clock
              demo_lt uuid_shape demo_to_string accept_all teacher1 course1 []
              Logic.eq_refl) as (_ & Hs).
  specialize (Ht Logic.eq_refl). specialize (Hs Logic.eq_refl).
  split; [apply Forall_inv in Ht; apply Ht | apply Forall_inv in Hs; apply Hs].
Defined.

(** Student [s1] submits in the store without courses: 500, and the
    submission is there. *)
Lemma post_submissions_keeps_the_row_of_a_failed_request_witness :
  exists w1,
    post_submissions demo_random_id demo_clock demo_lt demo_to_string student1
      [("assignmentId", VStr "a1"); ("content", VStr "text")] school_without_courses
    = (message 500 "Cannot read properties of undefined (reading 'teacherId')", w1)
    /\ length (md_submissions (mockData w1)) = 1%nat.
Proof.
  destruct (post_submissions_keeps_the_row_of_a_failed_request demo_random_id
              demo_clock demo_lt demo_to_string student1
              [("assignmentId", VStr "a1"); ("content", VStr "text")]
              school_without_courses
              Logic.eq_refl Logic.eq_refl ltac:(discriminate) ltac:(discriminate)
              Logic.eq_refl)
    as (w1 & E & Hs & _).
  exists w1. split; [exact E|]. rewrite Hs. reflexivity.
Defined.

(** In [school] the first course is of [t1]: [t1] may add a material to
    [course2], which is not theirs, and [t2] may not add one to it. *)
Lemma post_materials_is_decided_by_the_first_course_witness :
  status (fst (post_materials demo_random_id demo_clock demo_lt teacher1
                 [("courseId", VStr course2); ("title", VStr "Notes")] school))
  = 200%nat
  /\ status (fst (post_materials demo_random_id demo_clock demo_lt teacher2
                    [("courseId", VStr course2); ("title", VStr "Notes")] school))
     <> 200%nat.
Proof.
  pose proof (post_materials_is_decided_by_the_first_course demo_random_id demo_clock
                demo_lt teacher1 [("courseId", VStr course2); ("title", VStr "Notes")]
                school Logic.eq_refl Logic.eq_refl) as H1.
  pose proof (post_materials_is_decided_by_the_first_course demo_random_id demo_clock
                demo_lt teacher2 [("courseId", VStr course2); ("title", VStr "Notes")]
                school Logic.eq_refl Logic.eq_refl) as H2.
  cbv zeta in H1, H2. destruct H1 as (H1 & _). destruct H2 as (H2 & _).
  split.
  - apply H1. eexists. eexists. split; reflexivity.
  - intros H. apply H2 in H.
    destruct H as (c & rest & Hc & Ht). injection Hc as <- <-. discriminate.
Defined.



(** Student [s3], enrolled nowhere, posts in [course2] under the name of
    [s1]: the discussion is stored with [s3] as author. *)
Lemma post_discussions_author_is_the_session_user_witness :
  fst (post_discussions demo_random_id demo_clock demo_lt student3
         [("courseId", VStr course2); ("userId", VStr "s1"); ("content", VStr "Hi")]
         school)
  = json (VObj (newRecord discussions
                  (discussion_values student3
                     [("courseId", VStr course2); ("userId", VStr "s1");
                      ("content", VStr "Hi")])
                  (demo_clock 0) (demo_random_id 1)))
  /\ obj_get "userId"
       (newRecord discussions
          (discussion_values student3
             [("courseId", VStr course2); ("userId", VStr "s1"); ("content", VStr "Hi")])
          (demo_clock 0) (demo_random_id 1)) = VStr "s3".
Proof.
  pose proof (post_discussions_author_is_the_session_user demo_random_id demo_clock
                demo_lt student3
                [("courseId", VStr course2); ("userId", VStr "s1"); ("content", VStr "Hi")]
                school Logic.eq_refl) as H.
  cbv zeta in H. destruct H as (Hiff & Hok).
  assert (H200 : status (fst (post_discussions demo_random_id demo_clock demo_lt student3
                   [("courseId", VStr course2); ("userId", VStr "s1");
                    ("content", VStr "Hi")] school)) = 200%nat).
  { apply Hiff. eexists. eexists. split; reflexivity. }
  destruct (Hok H200) as (E & Hu & _). split; [exact E | exact Hu].
Defined.

(** A connection that names [s1] in [school_open_socket], where socket 7
    is open, is sent the notification made for [s1]. *)
Lemma connection_naming_a_user_receives_their_notifications_witness :
  exists w2 msg,
    notify demo_random_id demo_clock (VStr "s1") "Grade" "graded"
      (snd (ws_on_message 7 VNull (Some (VObj (auth_message "s1"))) school_open_socket))
    = (Ok tt, w2)
    /\ sockets w2 !! 7%nat = Some (mkSocket OPEN [msg]).
Proof.
  destruct (connection_naming_a_user_receives_their_notifications demo_random_id
              demo_clock 7 [] (auth_message "s1") "s1" "Grade" "graded"
              school_open_socket Logic.eq_refl Logic.eq_refl ltac:(discriminate)
              Logic.eq_refl) as (w2 & E & _ & Hs).
  exists w2. eexists. split; [exact E | exact Hs].
Defined.

(** Two connections for [s1], sockets 7 and 8; the first one closes. *)
Lemma closing_an_old_connection_unregisters_the_new_one_witness :
  clients (ws_on_close (VStr "s1")
             (snd (ws_on_message 8 VNull (Some (VObj (auth_message "s1")))
                     (snd (ws_on_message 7 VNull (Some (VObj (auth_message "s1")))
                             school))))) !! "s1" = None.
Proof.
  apply (closing_an_old_connection_unregisters_the_new_one demo_random_id demo_clock
           7 8 (auth_message "s1") "s1" "Grade" "graded" school
           Logic.eq_refl Logic.eq_refl ltac:(discriminate)).
Defined.

(** Student [s1] logs out of [school_open_socket]: socket 7 is closing. *)
Lemma logout_unregisters_the_connection_witness :
  userId student1 = Some "s1"
  /\ clients (snd (post_logout student1 false school_open_socket)) !! "s1" = None
  /\ sockets (snd (post_logout student1 false school_open_socket)) !! 7%nat
     = Some (mkSocket CLOSING []).
Proof.
  split; [reflexivity|].
  destruct (logout_unregisters_the_connection demo_random_id demo_clock student1
              "s1" "Grade" "graded" school_open_socket Logic.eq_refl
              ltac:(discriminate)) as (_ & _ & Hc & Hs & _).
  split; [exact Hc|]. apply Hs; reflexivity.
Defined.

(** The id of a course made by the store is refused by the enrollment
    schema. *)
Lemma identifiers_of_the_store_are_refused_as_uuid_witness :
  (forall n, (String.length (nine_characters n) <= 9)%nat)
  /\ status (fst (post_enrollments nine_characters demo_clock demo_lt uuid_shape
                    demo_to_string student1 [("courseId", VStr "k3x9q0z1a")] school))
     = 400%nat.
Proof.
  assert (Hlen : forall n, (String.length (nine_characters n) <= 9)%nat)
    by (intros n; simpl; lia).
  split; [exact Hlen|].
  destruct (identifiers_of_the_store_are_refused_as_uuid nine_characters demo_clock
              demo_lt uuid_shape demo_to_string courses [("title", VStr "Sets")]
              school _ _ student1 [("courseId", VStr "k3x9q0z1a")] school
              uuid_shape_length Hlen Logic.eq_refl Logic.eq_refl) as (He & _).
  apply He; reflexivity.
Defined.

(** Teacher [t2] is listed the course of [t1] as well. *)
Lemma teacher_course_listing_is_the_whole_table_witness :
  get_teacher_courses demo_lt teacher2 school
  = (json (VArr [VObj (course_row course1 "Intro" "t1");
                 VObj (course_row course2 "Logic" "t2")]), school).
Proof.
  rewrite (teacher_course_listing_is_the_whole_table demo_lt teacher2 school
             Logic.eq_refl Logic.eq_refl).
  reflexivity.
Defined.
